(** * rust-asr: architecture knowledge extraction engine

    A shallow embedding of the analysis core of [rust_asr]:

    - [rust_asr/analysis/patterns.py]: [analyze]
    - [rust_asr/analysis/architecture.py]: [detect_architecture_style]
    - [rust_asr/analysis/knowledge_graph.py]: [build_knowledge_graph] and
      its helpers
    - [rust_asr/analysis/api_surface.py]: [_extract_pub_items] and its
      helpers
    - [rust_asr/export/semantic_index.py]: [build_semantic_index]
    - [rust_asr/analysis/architecture.py]: [detect_communication_patterns]
    - [rust_asr/analysis/api_surface.py]: [analyze_api_surface] and
      [_categorize_api]
    - [rust_asr/analysis/pattern_comparison.py]: [compare_patterns]

    Modelling conventions.

    - Python [str] is [string]; the model covers ASCII text, so the classes
      [\w] and [\s] are the ASCII parts of Python's Unicode classes.
    - Python [int] counters are [nat]; a confidence, which Python holds in a
      float, is an exact rational of [Q].  The quotients that occur have small
      numerators and denominators, on which rounding to the nearest double
      keeps both the order and the comparison with the literals 0.2, 0.3,
      0.7, 0.9 and 1.0.
    - A compiled regular expression is its syntax tree ([regex]); matching is
      a backtracking matcher with the search order of Python's [re].
    - Python exceptions are the [Err] results of a small error monad.
    - The file system is an explicit argument: the list of files that
      [rglob] yields, each with its decoded text.  *)

From Stdlib Require Import ZArith QArith Ascii String List Bool Lia.
From stdpp Require Import base option list sorting gmap strings pretty.

Local Open Scope string_scope.
Local Open Scope list_scope.
Local Open Scope nat_scope.

(* ===================================================================== *)
(** * Python string operations *)
(* ===================================================================== *)

Module Py.

(** [s[n:]] *)
Fixpoint drop_str (n : nat) (s : string) : string :=
  match n, s with
  | S n', String _ s' => drop_str n' s'
  | _, _ => s
  end.

(** [s[:n]] *)
Fixpoint take_str (n : nat) (s : string) : string :=
  match n, s with
  | S n', String c s' => String c (take_str n' s')
  | _, _ => ""
  end.

(** [s[a:b]] for non-negative [a] and [b]. *)
Definition slice (a b : nat) (s : string) : string :=
  take_str (b - a) (drop_str a s).

(** [s.startswith(p)] *)
Definition startswith (s p : string) : bool := String.prefix p s.

(** [sub in s]: [sub] occurs somewhere in [s]. *)
Fixpoint contains (sub s : string) : bool :=
  String.prefix sub s ||
  match s with
  | "" => false
  | String _ s' => contains sub s'
  end.

(** [s.count(sub)] for a non-empty [sub]: the number of non-overlapping
    occurrences, scanned from the left.  [skip] is the number of
    characters of the last occurrence still to be stepped over. *)
Fixpoint count_from (sub : string) (skip : nat) (s : string) : nat :=
  match s with
  | "" => 0
  | String _ s' =>
      match skip with
      | S k => count_from sub k s'
      | O =>
          if String.prefix sub s
          then S (count_from sub (String.length sub - 1) s')
          else count_from sub 0 s'
      end
  end.

Definition count (s sub : string) : nat := count_from sub 0 s.

(** [s.endswith(p)] *)
Definition endswith (s p : string) : bool :=
  String.eqb (drop_str (String.length s - String.length p) s) p
  && (String.length p <=? String.length s).

(** [s.split(sep)] for a one-character separator: always at least one
    field. *)
Fixpoint split_chr (sep : ascii) (s : string) : list string :=
  match s with
  | "" => [""]
  | String c s' =>
      if Ascii.eqb c sep then "" :: split_chr sep s'
      else match split_chr sep s' with
           | f :: fs => String c f :: fs
           | [] => [String c ""]
           end
  end.

(** [s.split("::")] *)
Fixpoint split_colons (s : string) : list string :=
  match s with
  | "" => [""]
  | String c s' =>
      if String.prefix "::" s then "" :: split_colons_skip s'
      else match split_colons s' with
           | f :: fs => String c f :: fs
           | [] => [String c ""]
           end
  end
with split_colons_skip (s : string) : list string :=
  match s with
  | "" => [""]
  | String _ s' => split_colons s'
  end.

(** [str.isspace] on one ASCII character: tab, newline, vertical tab,
    form feed, carriage return, the four separators 28 to 31, space. *)
Definition isspace (c : ascii) : bool :=
  let n := nat_of_ascii c in
  ((9 <=? n) && (n <=? 13)) || ((28 <=? n) && (n <=? 32)).

(** The characters of [\w] in the ASCII range. *)
Definition isword (c : ascii) : bool :=
  let n := nat_of_ascii c in
  ((48 <=? n) && (n <=? 57)) || ((65 <=? n) && (n <=? 90))
  || ((97 <=? n) && (n <=? 122)) || (n =? 95).

(** The one-character string of a newline. *)
Definition nl : string := String "010" "".

(** [s.lstrip(chars)] with the set of characters given as a predicate. *)
Fixpoint lstrip_by (p : ascii -> bool) (s : string) : string :=
  match s with
  | String c s' => if p c then lstrip_by p s' else s
  | "" => ""
  end.

Definition rstrip_by (p : ascii -> bool) (s : string) : string :=
  String.rev (lstrip_by p (String.rev s)).

Definition strip_by (p : ascii -> bool) (s : string) : string :=
  rstrip_by p (lstrip_by p s).

(** [s.strip()] *)
Definition strip (s : string) : string := strip_by isspace s.

Definition in_chars (chars : string) (c : ascii) : bool :=
  existsb (Ascii.eqb c) (list_ascii_of_string chars).

(** [sep.join(l)] *)
Definition join (sep : string) (l : list string) : string :=
  String.concat sep l.

(** [x in l] for a list of strings. *)
Definition in_list (x : string) (l : list string) : bool :=
  existsb (String.eqb x) l.

(** [str(n)], as an f-string formats an [int]. *)
Definition str_of_nat (n : nat) : string := pretty n.

(** [pathlib.Path(p).stem]: the last path component without its last
    suffix.  A leading dot and a trailing dot are no suffix. *)
Definition path_name (p : string) : string :=
  List.last
    (List.filter (fun f => negb (String.eqb f "" || String.eqb f "."))
       (split_chr "/" p)) "".

Fixpoint rfind_dot (s : string) (pos : nat) (found : option nat) : option nat :=
  match s with
  | "" => found
  | String c s' =>
      rfind_dot s' (S pos) (if Ascii.eqb c "." then Some pos else found)
  end.

Definition path_stem (p : string) : string :=
  let name := path_name p in
  match rfind_dot name 0 None with
  | Some i =>
      if (0 <? i) && (i <? String.length name - 1) then take_str i name
      else name
  | None => name
  end.

End Py.

(* ===================================================================== *)
(** * Regular expressions *)
(* ===================================================================== *)

(** The fragment of Python's [re] syntax that the analysers use.  A
    pattern is kept as its syntax tree; capturing groups carry their
    number. *)

Module Re.

Inductive cclass : Type :=
| CChar (c : ascii)                       (* one literal character *)
| CWord                                   (* \w *)
| CSpace                                  (* \s *)
| CAny                                    (* [\s\S] *)
| CNot (excluded : string)                (* [^...] *)
| CRanges (ranges : list (ascii * ascii)) (* [a-zA-Z_:] *).

Inductive regex : Type :=
| Eps
| Chr (c : cclass)
| Seq (r1 r2 : regex)
| Alt (r1 r2 : regex)
| Opt (r : regex)                         (* (?:r)?  greedy *)
| Star (r : regex)                        (* (?:r)*  greedy *)
| LazyStar (r : regex)                    (* (?:r)*? *)
| Group (n : nat) (r : regex)             (* (r), group number n *).

Fixpoint Lit (s : string) : regex :=
  match s with
  | "" => Eps
  | String c "" => Chr (CChar c)
  | String c s' => Seq (Chr (CChar c)) (Lit s')
  end.

Definition Plus (r : regex) : regex := Seq r (Star r).

Fixpoint seqs (rs : list regex) : regex :=
  match rs with
  | [] => Eps
  | [r] => r
  | r :: rs' => Seq r (seqs rs')
  end.

Fixpoint alts (r : regex) (rs : list regex) : regex :=
  match rs with
  | [] => r
  | r' :: rs' => Alt r (alts r' rs')
  end.

Definition class_matches (cl : cclass) (c : ascii) : bool :=
  match cl with
  | CChar c' => Ascii.eqb c c'
  | CWord => Py.isword c
  | CSpace => Py.isspace c
  | CAny => true
  | CNot excluded => negb (Py.in_chars excluded c)
  | CRanges ranges =>
      existsb (fun '(lo, hi) =>
                 (nat_of_ascii lo <=? nat_of_ascii c)
                 && (nat_of_ascii c <=? nat_of_ascii hi)) ranges
  end.

(** Group number to captured text; the latest binding is first. *)
Definition captures : Type := list (nat * string).

Definition consumed (before after : string) : string :=
  Py.take_str (String.length before - String.length after) before.

(** Backtracking matcher in continuation-passing style.
    [run r s caps k] matches [r] at the front of [s] and hands the rest of
    the text to [k]; when [k] fails the next alternative of [r] is tried,
    in the order of Python's engine (greedy operators take the longest
    first, lazy ones the shortest).  An iteration of a star that consumes
    nothing is cut off, so the loop needs at most one round per
    character. *)
Fixpoint run {R : Type} (r : regex) (s : string) (caps : captures)
         (k : string -> captures -> option R) {struct r} : option R :=
  match r with
  | Eps => k s caps
  | Chr cl =>
      match s with
      | String c s' => if class_matches cl c then k s' caps else None
      | "" => None
      end
  | Seq r1 r2 => run r1 s caps (fun s1 caps1 => run r2 s1 caps1 k)
  | Alt r1 r2 =>
      match run r1 s caps k with
      | Some x => Some x
      | None => run r2 s caps k
      end
  | Opt r1 =>
      match run r1 s caps k with
      | Some x => Some x
      | None => k s caps
      end
  | Star r1 =>
      (fix loop (fuel : nat) (s : string) (caps : captures) : option R :=
         match fuel with
         | O => k s caps
         | S fuel' =>
             match run r1 s caps
                     (fun s1 caps1 =>
                        if String.length s1 <? String.length s
                        then loop fuel' s1 caps1 else None) with
             | Some x => Some x
             | None => k s caps
             end
         end) (S (String.length s)) s caps
  | LazyStar r1 =>
      (fix loop (fuel : nat) (s : string) (caps : captures) : option R :=
         match k s caps with
         | Some x => Some x
         | None =>
             match fuel with
             | O => None
             | S fuel' =>
                 run r1 s caps
                   (fun s1 caps1 =>
                      if String.length s1 <? String.length s
                      then loop fuel' s1 caps1 else None)
             end
         end) (S (String.length s)) s caps
  | Group n r1 =>
      run r1 s caps (fun s1 caps1 => k s1 ((n, consumed s s1) :: caps1))
  end.

(** A match object: [start()], [end()] and the groups. *)
Record rmatch : Type := RMatch {
  m_start : nat;
  m_end : nat;
  m_groups : captures;
}.

(** [m.group(n)], for a group that took part in the match. *)
Definition group (n : nat) (m : rmatch) : string :=
  match List.find (fun '(i, _) => i =? n) (m_groups m) with
  | Some (_, t) => t
  | None => ""
  end.

(** [pattern.match] at the front of [s], the front being at offset
    [pos] of the whole text. *)
Definition match_at (r : regex) (pos : nat) (s : string) : option rmatch :=
  run r s []
    (fun rest caps =>
       Some (RMatch pos (pos + (String.length s - String.length rest)) caps)).

(** [re.search]: the leftmost match. *)
Fixpoint search_from (r : regex) (pos : nat) (s : string) : option rmatch :=
  match match_at r pos s with
  | Some m => Some m
  | None =>
      match s with
      | "" => None
      | String _ s' => search_from r (S pos) s'
      end
  end.

Definition search (r : regex) (s : string) : option rmatch :=
  search_from r 0 s.

(** [re.finditer]: the non-overlapping matches from left to right.
    [skip] counts the characters of the last match still to be stepped
    over; after an empty match the scan moves on by one character. *)
Fixpoint finditer_from (r : regex) (pos skip : nat) (s : string)
  : list rmatch :=
  match skip with
  | S k =>
      match s with
      | "" => []
      | String _ s' => finditer_from r (S pos) k s'
      end
  | O =>
      match match_at r pos s, s with
      | Some m, String _ s' =>
          m :: finditer_from r (S pos) (m_end m - m_start m - 1) s'
      | Some m, "" => [m]
      | None, String _ s' => finditer_from r (S pos) 0 s'
      | None, "" => []
      end
  end.

Definition finditer (r : regex) (s : string) : list rmatch :=
  finditer_from r 0 0 s.

(** Shorthands for the pieces the patterns share. *)
Definition w1 : regex := Plus (Chr CWord).                 (* \w+ *)
Definition s1 : regex := Plus (Chr CSpace).                (* \s+ *)
Definition s0 : regex := Star (Chr CSpace).                (* \s* *)
Definition not1 (cs : string) : regex := Plus (Chr (CNot cs)).  (* [^cs]+ *)
Definition not0 (cs : string) : regex := Star (Chr (CNot cs)).  (* [^cs]* *)

End Re.

(* ===================================================================== *)
(** * Exceptions *)
(* ===================================================================== *)

Inductive exn : Type :=
| ZeroDivisionError
| KeyError (key : string).

Inductive result (A : Type) : Type :=
| Ok (a : A)
| Err (e : exn).
Arguments Ok {A} a.
Arguments Err {A} e.

#[global] Instance result_ret : MRet result := fun A a => Ok a.
#[global] Instance result_bind : MBind result := fun A B f m =>
  match m with
  | Ok a => f a
  | Err e => Err e
  end.

(** [a / b] on two [int]s: true division. *)
Definition truediv (a b : nat) : result Q :=
  match b with
  | O => Err ZeroDivisionError
  | S _ => Ok (Z.of_nat a # Pos.of_nat b)
  end.

(** [min(a, b)]: the first of the two unless the second is smaller. *)
Definition py_min (a b : Q) : Q := if Qle_bool a b then a else b.

(** [d[key]] on a dict kept as an association list. *)
Fixpoint dict_item {V : Type} (d : list (string * V)) (key : string)
  : result V :=
  match d with
  | [] => Err (KeyError key)
  | (k, v) :: d' => if String.eqb k key then Ok v else dict_item d' key
  end.

(** [l.sort(key=..., reverse=True)]: a stable sort, largest key first;
    entries with equal keys keep their order. *)
Section SortDesc.
Context {A K : Type} (leb : K -> K -> bool) (key : A -> K).

Fixpoint insert_desc (x : A) (l : list A) : list A :=
  match l with
  | [] => [x]
  | y :: l' =>
      if leb (key y) (key x) then x :: l
      else y :: insert_desc x l'
  end.

Fixpoint sort_desc (l : list A) : list A :=
  match l with
  | [] => []
  | x :: l' => insert_desc x (sort_desc l')
  end.
End SortDesc.

(* ===================================================================== *)
(** * The project on disk *)
(* ===================================================================== *)

(** One file that [rglob("*.rs")] yields: its path relative to the
    project, the components of its full path, and its decoded text
    ([None] when reading it raises). *)
Record SourceFile : Type := {
  rel_path : string;
  parts : list string;
  text : option string;
}.

Record Project : Type := {
  project_name : string;
  rs_files : list SourceFile;          (* in the order rglob yields them *)
  cargo_toml : option string;          (* text of Cargo.toml, if readable *)
  cargo_packages : option nat;         (* packages that cargo metadata
                                          lists; None when it fails *)
  file_exists : string -> bool;        (* (project_path / p).exists() *)
}.

(* ===================================================================== *)
(** * analysis/architecture.py: source enumeration *)
(* ===================================================================== *)

Definition EXCLUDE_PATH_PATTERNS : list string :=
  [ "/tests/"; "/test/"; "/benches/"; "/bench/"; "/examples/"; "/example/";
    "_test.rs"; "_tests.rs"; "_bench.rs"; "/fuzz/"; "/stress/" ].

Definition _is_test_file (rel_path : string) : bool :=
  existsb
    (fun pattern =>
       Py.contains pattern rel_path
       || Py.endswith rel_path (Py.strip_by (Py.in_chars "/") pattern))
    EXCLUDE_PATH_PATTERNS.

Definition _iter_source_files (p : Project) (include_tests : bool)
  : list SourceFile :=
  List.filter
    (fun f => include_tests || negb (_is_test_file (rel_path f)))
    (rs_files p).

(** The loop that both detectors open with: the texts of the readable
    production files, each followed by a newline. *)
Fixpoint concat_code (fs : list SourceFile) : string :=
  match fs with
  | [] => ""
  | f :: fs' =>
      match text f with
      | Some t => t +:+ Py.nl +:+ concat_code fs'
      | None => concat_code fs'
      end
  end.

Definition collect_code (p : Project) : string :=
  concat_code (_iter_source_files p false).

Definition read_cargo (p : Project) : string :=
  match cargo_toml p with
  | Some t => t
  | None => ""
  end.

(* ===================================================================== *)
(** * analysis/patterns.py *)
(* ===================================================================== *)

Module Patterns.

(** A structural pattern: the text of the regular expression, which the
    evidence quotes, and its syntax tree. *)
Record pattern : Type := {
  pat_src : string;
  pat_re : Re.regex;
}.

(** One entry of [PATTERN_SIGNATURES]; a category that the entry does not
    have is [None]. *)
Record Signature : Type := {
  keywords : option (list string);
  imports : option (list string);
  patterns : option (list pattern);
  traits : option (list string);
}.

(** [signatures.get(key, [])] *)
Definition get_list {A : Type} (o : option (list A)) : list A :=
  match o with
  | Some l => l
  | None => []
  end.

Record Detection : Type := {
  name : string;
  confidence : Q;
  evidence : list string;
}.

(** The three variables that the loop body updates. *)
Record Score : Type := {
  s_evidence : list string;
  s_score : nat;
  s_max : nat;
}.

Definition hit (e : string) (weight : nat) (st : Score) : Score :=
  {| s_evidence := s_evidence st ++ [e];
     s_score := s_score st + weight;
     s_max := s_max st |}.

(** One of the four blocks of the body: when the category is not empty,
    [max_score] grows by [weight] per item, and each item that [found]
    accepts adds its evidence line and [weight] to [score]. *)
Definition check_category {A : Type} (items : list A) (weight : nat)
           (found : A -> bool) (line : A -> string) (st : Score) : Score :=
  match items with
  | [] => st
  | _ :: _ =>
      fold_left
        (fun st x => if found x then hit (line x) weight st else st)
        items
        {| s_evidence := s_evidence st;
           s_score := s_score st;
           s_max := s_max st + List.length items * weight |}
  end.

Definition check_keywords (sig : Signature) (all_code : string) :=
  check_category (get_list (keywords sig)) 1
    (fun kw => Py.contains kw all_code)
    (fun kw => "keyword: " +:+ kw).

Definition check_imports (sig : Signature) (all_code cargo_content : string) :=
  check_category (get_list (imports sig)) 2
    (fun imp => Py.contains imp cargo_content
                || Py.contains ("use " +:+ imp) all_code)
    (fun imp => "import: " +:+ imp).

Definition check_patterns (sig : Signature) (all_code : string) :=
  check_category (get_list (patterns sig)) 1
    (fun pat => bool_decide (is_Some (Re.search (pat_re pat) all_code)))
    (fun pat => "pattern: " +:+ Py.take_str 30 (pat_src pat) +:+ "...").

Definition check_traits (sig : Signature) (all_code : string) :=
  check_category (get_list (traits sig)) 1
    (fun trait => Py.contains trait all_code)
    (fun trait => "trait: " +:+ trait).

(** The keyword, import, pattern and trait hits of a signature. *)
Definition kw_hits (sig : Signature) (all_code : string) : list string :=
  List.filter (fun kw => Py.contains kw all_code) (get_list (keywords sig)).
Definition imp_hits (sig : Signature) (all_code cargo : string)
  : list string :=
  List.filter (fun imp => Py.contains imp cargo
                          || Py.contains ("use " +:+ imp) all_code)
    (get_list (imports sig)).
Definition pat_hits (sig : Signature) (all_code : string) : list pattern :=
  List.filter
    (fun pat => bool_decide (is_Some (Re.search (pat_re pat) all_code)))
    (get_list (patterns sig)).
Definition trait_hits (sig : Signature) (all_code : string) : list string :=
  List.filter (fun t => Py.contains t all_code) (get_list (traits sig)).

(** The evidence lines of a signature: one per hit, in the order of the
    four blocks. *)
Definition hit_lines (sig : Signature) (all_code cargo : string)
  : list string :=
  List.map (fun kw => "keyword: " +:+ kw) (kw_hits sig all_code)
  ++ List.map (fun imp => "import: " +:+ imp) (imp_hits sig all_code cargo)
  ++ List.map (fun pat => "pattern: " +:+ Py.take_str 30 (pat_src pat)
                          +:+ "...") (pat_hits sig all_code)
  ++ List.map (fun t => "trait: " +:+ t) (trait_hits sig all_code).

(** At least one keyword, import, structural pattern or trait matched. *)
Definition some_hit (sig : Signature) (all_code cargo : string) : Prop :=
  kw_hits sig all_code <> [] \/ imp_hits sig all_code cargo <> []
  \/ pat_hits sig all_code <> [] \/ trait_hits sig all_code <> [].

(** [score / max_score] as a number, 0 when [max_score] is 0: the value
    the threshold is applied to. *)
Definition raw_confidence (st : Score) : Q :=
  Z.of_nat (s_score st) # Pos.of_nat (s_max st).

(** [evidence], [score] and [max_score] when the four blocks are done. *)
Definition score_signature (sig : Signature) (all_code cargo_content : string)
  : Score :=
  check_traits sig all_code
    (check_patterns sig all_code
       (check_imports sig all_code cargo_content
          (check_keywords sig all_code
             {| s_evidence := []; s_score := 0; s_max := 0 |}))).

(** The whole body of the loop for one signature: the detection that it
    appends, if any. *)
Definition analyze_signature (pattern_name : string) (sig : Signature)
           (all_code cargo_content : string) : result (option Detection) :=
  let st := score_signature sig all_code cargo_content in
  if (0 <? s_max st) && (0 <? s_score st) then
    q ← truediv (s_score st) (s_max st);
    let confidence := py_min q 1 in
    if Qle_bool (2 # 10) confidence then
      mret (Some {| name := pattern_name;
                    confidence := confidence;
                    evidence := s_evidence st |})
    else mret None
  else mret None.

Fixpoint analyze_loop (sigs : list (string * Signature))
         (all_code cargo_content : string) (detected : list Detection)
  : result (list Detection) :=
  match sigs with
  | [] => mret detected
  | (pattern_name, sig) :: sigs' =>
      d ← analyze_signature pattern_name sig all_code cargo_content;
      analyze_loop sigs' all_code cargo_content
        (match d with
         | Some d => detected ++ [d]
         | None => detected
         end)
  end.

(** [analyze] with the signature table and the texts as arguments. *)
Definition analyze_with (sigs : list (string * Signature))
           (all_code cargo_content : string) : result (list Detection) :=
  detected ← analyze_loop sigs all_code cargo_content [];
  mret (sort_desc Qle_bool confidence detected).

Definition lit_pattern (src : string) (r : Re.regex) : pattern :=
  {| pat_src := src; pat_re := r |}.

Import Re.

Definition PATTERN_SIGNATURES : list (string * Signature) :=
  [ ("Tower Service",
     {| keywords := Some ["ServiceBuilder"; "tower::"];
        imports := Some ["tower"; "tower_http"; "tower_service"];
        patterns := None;
        traits := Some ["Service<Request>"; "tower::Service"] |});
    ("Actor Model",
     {| keywords := Some ["Addr<"; "Handler<"; "Recipient<"];
        imports := Some ["actix"; "actix_web"; "xactor"; "ractor"];
        patterns := None;
        traits := Some [] |});
    ("ECS (Entity-Component-System)",
     {| keywords := Some ["Query<"; "Commands"; "Res<"; "ResMut<"];
        imports := Some ["bevy_ecs"; "specs"; "legion"; "hecs"];
        patterns := None;
        traits := Some [] |});
    ("Type-State",
     {| keywords := None;
        imports := None;
        patterns := Some
          [ lit_pattern "struct\s+\w+<\w+>"
              (seqs [Lit "struct"; s1; w1; Lit "<"; w1; Lit ">"]);
            lit_pattern "impl\s+\w+<\w+>"
              (seqs [Lit "impl"; s1; w1; Lit "<"; w1; Lit ">"]);
            lit_pattern "fn\s+\w+\(self\)\s*->\s*\w+<\w+>"
              (seqs [Lit "fn"; s1; w1; Lit "(self)"; s0; Lit "->"; s0;
                     w1; Lit "<"; w1; Lit ">"]) ];
        traits := None |});
    ("Builder",
     {| keywords := Some ["Builder"; "build()"; "with_"; "set_"];
        imports := None;
        patterns := Some
          [ lit_pattern "fn\s+builder\s*\("
              (seqs [Lit "fn"; s1; Lit "builder"; s0; Lit "("]);
            lit_pattern "fn\s+build\s*\(self\)"
              (seqs [Lit "fn"; s1; Lit "build"; s0; Lit "(self)"]);
            lit_pattern "fn\s+with_\w+\s*\(self"
              (seqs [Lit "fn"; s1; Lit "with_"; w1; s0; Lit "(self"]) ];
        traits := None |});
    ("Error Handling (thiserror)",
     {| keywords := None;
        imports := Some ["thiserror"];
        patterns := Some
          [ lit_pattern "#\[derive\([^)]*Error[^)]*\)\]"
              (seqs [Lit "#[derive("; not0 ")"; Lit "Error"; not0 ")";
                     Lit ")]"]) ];
        traits := None |});
    ("Error Handling (anyhow)",
     {| keywords := Some [".context("; "anyhow!"; "bail!"];
        imports := Some ["anyhow"];
        patterns := None;
        traits := None |});
    ("Async/Await Runtime",
     {| keywords := Some ["#[tokio::main]"; "#[async_std::main]";
                          "async fn"; ".await"];
        imports := Some ["tokio"; "async_std"; "smol"];
        patterns := None;
        traits := None |});
    ("CRDT",
     {| keywords := Some ["CRDT"; "Replica"; "Merge"; "conflictfree"];
        imports := Some ["crdt"; "yrs"; "automerge"];
        patterns := None;
        traits := None |}) ].

Definition analyze (p : Project) : result (list Detection) :=
  analyze_with PATTERN_SIGNATURES (collect_code p) (read_cargo p).

(** What stands behind the evidence of a pattern detection: a signature
    of the table with at least one hit, whose hit lines the evidence is. *)
Definition backed_by_hits (sigs : list (string * Signature))
           (all_code cargo : string) (d : Detection) : Prop :=
  evidence d <> []
  /\ exists pattern_name sig,
       In (pattern_name, sig) sigs
       /\ name d = pattern_name
       /\ evidence d = hit_lines sig all_code cargo
       /\ some_hit sig all_code cargo.

End Patterns.

(* ===================================================================== *)
(** * analysis/architecture.py: style detection *)
(* ===================================================================== *)

Module Architecture.

Record StyleInfo : Type := {
  indicators : list string;
  description : string;
}.

Definition ARCHITECTURE_STYLES : list (string * StyleInfo) :=
  [ ("Modular Monolith",
     {| indicators := ["single_crate"; "many_modules"];
        description :=
          "Single crate with well-organized internal modules by domain" |});
    ("Multi-Crate Workspace",
     {| indicators := ["workspace"; "multiple_crates"];
        description :=
          "Multiple crates in a workspace, each with specific responsibility" |});
    ("Plugin Architecture",
     {| indicators := ["plugin"; "Plugin"; "add_plugin"; "PluginGroup"];
        description :=
          "Core system with extensible plugin-based functionality" |});
    ("Hexagonal/Ports-Adapters",
     {| indicators := ["port"; "adapter"; "domain"; "infrastructure";
                       "Storage"; "Backend"];
        description :=
          "Domain logic separated from infrastructure through traits (pluggable storage)" |});
    ("Event-Driven",
     {| indicators := ["Event"; "EventReader"; "EventWriter"; "on_event";
                       "emit"];
        description :=
          "Components communicate through events and messages" |});
    ("Actor Model",
     {| indicators := ["actix"; "xactor"; "ractor"; "Addr<"; "Handler<"];
        description :=
          "Concurrent computation using actors with message mailboxes" |});
    ("Reactor/Proactor",
     {| indicators := ["Future"; "Poll::"; "Waker"; "async fn"; ".await";
                       "executor"];
        description :=
          "Async I/O with event loop (Tokio, async-std style)" |});
    ("Work-Stealing Scheduler",
     {| indicators := ["work_steal"; "multi_thread"; "Runtime::new";
                       "tokio::runtime"];
        description :=
          "Load-balanced task scheduling across worker threads" |});
    ("ECS (Entity-Component-System)",
     {| indicators := ["bevy_ecs"; "specs"; "legion"; "hecs"; "World";
                       "Query<"];
        description :=
          "Data-oriented design with entities, components, and systems" |}) ].

(** The two keys of the dict of [analyze_workspace] that the detector
    reads.  The error result has no ["package_count"]. *)
Record WorkspaceInfo : Type := {
  is_workspace : bool;
  package_count : option nat;
}.

Definition analyze_workspace (p : Project) : WorkspaceInfo :=
  match cargo_packages p with
  | Some n => {| is_workspace := 1 <? n; package_count := Some n |}
  | None => {| is_workspace := false; package_count := None |}
  end.

Record Detection : Type := {
  style : string;
  confidence : Q;
  evidence : list string;
  description_of : string;
}.

(** [all_code.count("mod ") + all_code.count("pub mod ")] *)
Definition module_count (all_code : string) : nat :=
  Py.count all_code "mod " + Py.count all_code "pub mod ".

(** The indicators of a style that occur in the combined text. *)
Definition found_in (style_info : StyleInfo) (combined_content : string)
  : list string :=
  List.filter (fun indicator => Py.contains indicator combined_content)
    (indicators style_info).

(** The two detections that the first block can append. *)
Definition multi_crate (n : nat) (descr : string) : Detection :=
  {| style := "Multi-Crate Workspace";
     confidence := 9 # 10;
     evidence := ["Workspace with " +:+ Py.str_of_nat n +:+ " packages"];
     description_of := descr |}.

Definition monolith (module_count : nat) (descr : string) : Detection :=
  {| style := "Modular Monolith";
     confidence := 7 # 10;
     evidence := ["Single crate with " +:+ Py.str_of_nat module_count
                  +:+ "+ module declarations"];
     description_of := descr |}.

(** The first block: the two workspace-shape heuristics. *)
Definition detect_workspace_shape (styles : list (string * StyleInfo))
           (workspace_info : WorkspaceInfo) (all_code : string)
  : result (list Detection) :=
  if is_workspace workspace_info
     && (3 <? default 0 (package_count workspace_info))
  then
    n ← match package_count workspace_info with
        | Some n => Ok n
        | None => Err (KeyError "package_count")
        end;
    info ← dict_item styles "Multi-Crate Workspace";
    mret [ {| style := "Multi-Crate Workspace";
              confidence := 9 # 10;
              evidence :=
                ["Workspace with " +:+ Py.str_of_nat n +:+ " packages"];
              description_of := description info |} ]
  else if negb (is_workspace workspace_info) then
    let module_count := module_count all_code in
    if 10 <? module_count then
      info ← dict_item styles "Modular Monolith";
      mret [ {| style := "Modular Monolith";
                confidence := 7 # 10;
                evidence :=
                  ["Single crate with " +:+ Py.str_of_nat module_count
                   +:+ "+ module declarations"];
                description_of := description info |} ]
    else mret []
  else mret [].

(** The body of the loop over the remaining styles. *)
Definition detect_style (style_name : string) (style_info : StyleInfo)
           (combined_content : string) : result (option Detection) :=
  if Py.in_list style_name ["Modular Monolith"; "Multi-Crate Workspace"]
  then mret None
  else
    let found_indicators :=
      List.filter (fun indicator => Py.contains indicator combined_content)
        (indicators style_info) in
    match found_indicators with
    | [] => mret None
    | _ :: _ =>
        confidence ← truediv (List.length found_indicators)
                             (List.length (indicators style_info));
        if Qle_bool (3 # 10) confidence then
          mret (Some {| style := style_name;
                        confidence := confidence;
                        evidence := found_indicators;
                        description_of := description style_info |})
        else mret None
    end.

Fixpoint detect_loop (styles : list (string * StyleInfo))
         (combined_content : string) (detected : list Detection)
  : result (list Detection) :=
  match styles with
  | [] => mret detected
  | (style_name, style_info) :: styles' =>
      d ← detect_style style_name style_info combined_content;
      detect_loop styles' combined_content
        (match d with
         | Some d => detected ++ [d]
         | None => detected
         end)
  end.

(** [detect_architecture_style] with the style table, the workspace
    report and the texts as arguments. *)
Definition detect_with (styles : list (string * StyleInfo))
           (workspace_info : WorkspaceInfo)
           (all_code cargo_content : string) : result (list Detection) :=
  let combined_content := all_code +:+ cargo_content in
  detected ← detect_workspace_shape styles workspace_info all_code;
  detected ← detect_loop styles combined_content detected;
  mret (sort_desc Qle_bool confidence detected).

Definition detect_architecture_style (p : Project)
  : result (list Detection) :=
  detect_with ARCHITECTURE_STYLES (analyze_workspace p)
    (collect_code p) (read_cargo p).

(** What stands behind the evidence of a style detection: one of the two
    workspace-shape heuristics with its own line, or a style of the table
    whose found indicators the evidence is. *)
Definition backed_by_indicators
           (styles : list (string * StyleInfo))
           (all_code cargo : string) (d : Detection) : Prop :=
  evidence d <> []
  /\ ((exists n descr, d = multi_crate n descr)
      \/ (exists descr,
            d = monolith
                  (module_count all_code) descr)
      \/ (exists style_name style_info,
            In (style_name, style_info) styles
            /\ style d = style_name
            /\ evidence d
               = found_in style_info (all_code +:+ cargo))).

End Architecture.

(* ===================================================================== *)
(** * analysis/knowledge_graph.py *)
(* ===================================================================== *)

Module KnowledgeGraph.

Import Re.

(** A node: the dict that [_extract_entities] builds. *)
Record Entity : Type := {
  node_id : string;
  node_name : string;
  node_type : string;
  node_module : string;
  node_visibility : string;
}.

Record Edge : Type := {
  edge_from : string;
  edge_to : string;
  relationship : string;
  source : string;
}.

Record Cluster : Type := {
  cluster_name : string;
  cluster_nodes : list string;
}.

Record Stats : Type := {
  total_nodes : nat;
  total_edges : nat;
  total_clusters : nat;
}.

Record Graph : Type := {
  project : string;
  nodes : list Entity;
  edges : list Edge;
  clusters : list Cluster;
  stats : Stats;
}.

(** [(?:pub(?:\([^)]+\))?\s+)?] *)
Definition opt_pub : regex :=
  Opt (seqs [Lit "pub"; Opt (seqs [Lit "("; not1 ")"; Lit ")"]); s1]).

(** [(?:pub(?:\([^)]*\))?\s+)?] *)
Definition opt_pub0 : regex :=
  Opt (seqs [Lit "pub"; Opt (seqs [Lit "("; not0 ")"; Lit ")"]); s1]).

(** [(?:<[^>]+>)?] *)
Definition opt_generics : regex :=
  Opt (seqs [Lit "<"; not1 ">"; Lit ">"]).

(** The [patterns] dict of [_extract_entities], in its order. *)
Definition entity_patterns : list (string * regex) :=
  [ ("struct", seqs [opt_pub; Lit "struct"; s1; Group 1 w1]);
    ("enum", seqs [opt_pub; Lit "enum"; s1; Group 1 w1]);
    ("trait", seqs [opt_pub; Lit "trait"; s1; Group 1 w1]);
    ("impl", seqs [Lit "impl"; opt_generics; s1; Group 1 w1]);
    ("fn", seqs [opt_pub; Opt (seqs [Lit "async"; s1]); Lit "fn"; s1;
                 Group 1 w1]) ].

Definition excluded_names : list string :=
  ["self"; "Self"; "new"; "default"; "from"; "into"].

(** The body of the inner loop: the entity of one match, if its name is
    kept. *)
Definition entity_of_match (content file_path entity_type : string)
           (m : rmatch) : option Entity :=
  let name := group 1 m in
  if Py.in_list name excluded_names then None
  else
    let visibility :=
      if Py.contains "pub "
           (Py.slice (m_start m - 10) (m_start m + 10) content)
      then "pub" else "private" in
    Some {| node_id := name;
            node_name := name;
            node_type := entity_type;
            node_module := file_path;
            node_visibility := visibility |}.

Definition _extract_entities (content file_path : string) : list Entity :=
  List.flat_map
    (fun '(entity_type, pattern) =>
       omap (entity_of_match content file_path entity_type)
         (finditer pattern content))
    entity_patterns.

Definition impl_pattern : regex :=
  seqs [Lit "impl"; opt_generics; s1; Group 1 w1; opt_generics; s1;
        Lit "for"; s1; Group 2 w1].

Definition derive_pattern : regex :=
  seqs [Lit "#[derive("; Group 1 (not1 ")"); Lit ")]"; s0; opt_pub0;
        Alt (Lit "struct") (Lit "enum"); s1; Group 2 w1].

Definition mod_pattern : regex :=
  seqs [opt_pub0; Lit "mod"; s1; Group 1 w1].

Definition use_pattern : regex :=
  seqs [Lit "use"; s1; Opt (Lit "crate::");
        Group 1
          (Seq (Chr (CRanges [("a", "z"); ("A", "Z"); ("_", "_")]%char))
             (Star (Chr (CRanges [("a", "z"); ("A", "Z"); ("0", "9");
                                  ("_", "_"); (":", ":")]%char))))].

Definition field_pattern : regex :=
  seqs [Group 1 w1; s0; Lit ":"; s0; Opt (Lit "&");
        Opt (seqs [Lit "mut"; s1]);
        Opt (alts (Lit "Option<")
               [Lit "Vec<"; Lit "Box<"; Lit "Arc<"; Lit "Rc<"]);
        Group 2 w1].

Definition primitives : list string :=
  ["str"; "String"; "usize"; "isize"; "i8"; "i16"; "i32"; "i64";
   "u8"; "u16"; "u32"; "u64"; "f32"; "f64"; "bool"; "char"; "Self"].

(** [key in entity_map] *)
Definition known (entity_map : gmap string Entity) (key : string) : bool :=
  bool_decide (is_Some (entity_map !! key)).

Definition _extract_relationships (content file_path : string)
           (entity_map : gmap string Entity) : list Edge :=
  let implements :=
    List.map
      (fun m => {| edge_from := group 2 m;
                   edge_to := group 1 m;
                   relationship := "implements";
                   source := file_path |})
      (finditer impl_pattern content) in
  let derives :=
    List.flat_map
      (fun m =>
         List.map
           (fun derive_trait =>
              {| edge_from := group 2 m;
                 edge_to := derive_trait;
                 relationship := "derives";
                 source := file_path |})
           (List.map Py.strip (Py.split_chr "," (group 1 m))))
      (finditer derive_pattern content) in
  let module_stack := [Py.path_stem file_path] in
  let contains :=
    List.map
      (fun m => {| edge_from := List.last module_stack "root";
                   edge_to := group 1 m;
                   relationship := "contains";
                   source := file_path |})
      (finditer mod_pattern content) in
  let uses :=
    omap
      (fun m =>
         let imported := List.last (Py.split_colons (group 1 m)) "" in
         if known entity_map imported then
           Some {| edge_from := Py.path_stem file_path;
                   edge_to := imported;
                   relationship := "uses";
                   source := file_path |}
         else None)
      (finditer use_pattern content) in
  let references :=
    omap
      (fun m =>
         let field_type := group 2 m in
         if known entity_map field_type
            && negb (Py.in_list field_type primitives)
         then
           Some {| edge_from := "field_usage";
                   edge_to := field_type;
                   relationship := "references";
                   source := file_path |}
         else None)
      (finditer field_pattern content) in
  implements ++ derives ++ contains ++ uses ++ references.

(** [l[-1]] and [l[-2]] of a list of strings. *)
Definition last1 (l : list string) : string := List.last l "".
Definition last2 (l : list string) : string :=
  List.last (List.removelast l) "".

(** The layer that [_identify_clusters] gives to a module path. *)
Definition layer_of (module : string) : string :=
  if Py.contains "domain" module || Py.contains "entity" module
     || Py.contains "model" module
  then "Domain Layer"
  else if Py.contains "service" module || Py.contains "application" module
          || Py.contains "handler" module
  then "Application Layer"
  else if Py.contains "repo" module || Py.contains "db" module
          || Py.contains "storage" module
  then "Infrastructure Layer"
  else if Py.contains "api" module || Py.contains "http" module
          || Py.contains "web" module
  then "Interface Layer"
  else if Py.contains "util" module || Py.contains "common" module
          || Py.contains "helper" module
  then "Utilities"
  else
    let parts := Py.split_chr "/" module in
    if 1 <? List.length parts then
      "Module: " +:+
        (if Py.endswith (last1 parts) ".rs" then last2 parts
         else last1 parts)
    else "Core".

(** [clusters[layer].append(node["id"])], creating the entry first. *)
Definition add_to_cluster (clusters : gmap string (list string))
           (node : Entity) : gmap string (list string) :=
  let layer := layer_of (node_module node) in
  <[layer := default [] (clusters !! layer) ++ [node_id node]]> clusters.

(** [sorted(set(l))] *)
Definition sorted_set (l : list string) : list string :=
  merge_sort String.le (remove_dups l).

Definition item_le (x y : string * list string) : Prop :=
  String.le x.1 y.1.
#[global] Instance item_le_dec : RelDecision item_le :=
  fun x y => String.le_dec x.1 y.1.

(** [sorted(d.items())] for a dict with lists as values: the keys are
    distinct, so they alone decide the order. *)
Definition sorted_items (d : gmap string (list string))
  : list (string * list string) :=
  merge_sort item_le (map_to_list d).

Definition _identify_clusters (nodes : list Entity) (edges : list Edge)
  : list Cluster :=
  let clusters := fold_left add_to_cluster nodes ∅ in
  List.map
    (fun '(name, node_ids) =>
       {| cluster_name := name; cluster_nodes := sorted_set node_ids |})
    (sorted_items clusters).

(** The three variables of the file loop. *)
Record Build : Type := {
  b_nodes : list Entity;
  b_edges : list Edge;
  b_map : gmap string Entity;
}.

(** [if entity_id not in entity_map: ...] for one entity. *)
Definition add_entity (b : Build) (entity : Entity) : Build :=
  let entity_id := node_name entity in
  match b_map b !! entity_id with
  | Some _ => b
  | None =>
      {| b_nodes := b_nodes b ++ [entity];
         b_edges := b_edges b;
         b_map := <[entity_id := entity]> (b_map b) |}
  end.

(** The body of the file loop. *)
Definition add_file (b : Build) (rs_file : SourceFile) : Build :=
  if Py.in_list "target" (parts rs_file) then b
  else
    match text rs_file with
    | None => b
    | Some content =>
        let rel := rel_path rs_file in
        let b := fold_left add_entity (_extract_entities content rel) b in
        {| b_nodes := b_nodes b;
           b_edges :=
             b_edges b ++ _extract_relationships content rel (b_map b);
           b_map := b_map b |}
    end.

Definition build_knowledge_graph (p : Project) : Graph :=
  let b :=
    fold_left add_file (rs_files p)
      {| b_nodes := []; b_edges := []; b_map := ∅ |} in
  let clusters := _identify_clusters (b_nodes b) (b_edges b) in
  {| project := project_name p;
     nodes := b_nodes b;
     edges := b_edges b;
     clusters := clusters;
     stats := {| total_nodes := List.length (b_nodes b);
                 total_edges := List.length (b_edges b);
                 total_clusters := List.length clusters |} |}.

(** The entities that the file loop looks at for one file: none for a
    file under [target] or an unreadable one. *)
Definition file_entities (rs_file : SourceFile) : list Entity :=
  if Py.in_list "target" (parts rs_file) then []
  else
    match text rs_file with
    | None => []
    | Some content => _extract_entities content (rel_path rs_file)
    end.

(** All candidate entities of a project, in file-iteration order and,
    within a file, in pattern order. *)
Definition candidates (p : Project) : list Entity :=
  List.flat_map file_entities (rs_files p).

(** First-seen selection, as a specification: walking the candidates in
    order, an entity is kept when no entity already [seen] has its name,
    and is dropped otherwise. *)
Fixpoint first_seen_from (seen : list string) (l : list Entity)
  : list Entity :=
  match l with
  | [] => []
  | e :: l' =>
      if Py.in_list (node_name e) seen then first_seen_from seen l'
      else e :: first_seen_from (seen ++ [node_name e]) l'
  end.

Definition first_seen (l : list Entity) : list Entity :=
  first_seen_from [] l.

(** The invariant of the file loop: [entity_map] holds exactly the names
    of the nodes. *)
Definition map_tracks (b : Build) : Prop :=
  forall k, is_Some (b_map b !! k) <-> In k (List.map node_name (b_nodes b)).

(** A file that the file loop passes over. *)
Definition skipped (rs_file : SourceFile) : Prop :=
  Py.in_list "target" (parts rs_file) = true \/ text rs_file = None.

(** [module] contains one of [words]. *)
Definition mentions (module : string) (words : list string) : bool :=
  existsb (fun w => Py.contains w module) words.

End KnowledgeGraph.

(* ===================================================================== *)
(** * analysis/api_surface.py *)
(* ===================================================================== *)

Module ApiSurface.

Import Re.

Record Item : Type := {
  name : string;
  type : string;
  visibility : string;
  visibility_raw : string;
  file : string;
  line : nat;
  doc : option string;
}.

(** [pub(?:\s*\([^)]*\))?\s+], the first group of every item pattern *)
Definition pub_prefix : regex :=
  seqs [Lit "pub"; Opt (seqs [s0; Lit "("; not0 ")"; Lit ")"]); s1].

Definition opt_async : regex := Opt (seqs [Lit "async"; s1]).

(** The [patterns] dict of [_extract_pub_items], in its order. *)
Definition item_patterns : list (string * regex) :=
  [ ("struct", seqs [Group 1 pub_prefix; Lit "struct"; s1; Group 2 w1]);
    ("enum", seqs [Group 1 pub_prefix; Lit "enum"; s1; Group 2 w1]);
    ("trait", seqs [Group 1 pub_prefix; Lit "trait"; s1; Group 2 w1]);
    ("fn", seqs [Group 1 pub_prefix; opt_async; Lit "fn"; s1; Group 2 w1]);
    ("mod", seqs [Group 1 pub_prefix; Lit "mod"; s1; Group 2 w1]);
    ("type", seqs [Group 1 pub_prefix; Lit "type"; s1; Group 2 w1]);
    ("const", seqs [Group 1 pub_prefix; Lit "const"; s1; Group 2 w1]);
    ("static", seqs [Group 1 pub_prefix; Lit "static"; s1; Group 2 w1]) ].

Definition excluded_names : list string :=
  ["self"; "Self"; "crate"; "super"].

(** [re.match(r, s)]: a match at the very start. *)
Definition re_match (r : regex) (s : string) : bool :=
  bool_decide (is_Some (match_at r 0 s)).

Definition _parse_visibility (vis_str : string) : string :=
  let vis_str := Py.strip vis_str in
  if re_match (seqs [Lit "pub"; s0; Lit "("; s0; Lit "crate"; s0; Lit ")"])
       vis_str
  then "pub(crate)"
  else if re_match
            (seqs [Lit "pub"; s0; Lit "("; s0; Lit "super"; s0; Lit ")"])
            vis_str
  then "pub(super)"
  else if re_match
            (seqs [Lit "pub"; s0; Lit "("; s0; Lit "self"; s0; Lit ")"])
            vis_str
  then "pub(self)"
  else if re_match (seqs [Lit "pub"; s0; Lit "("; s0; Lit "in"; s1]) vis_str
  then "pub(in ...)"
  else if Py.startswith vis_str "pub" then "pub"
  else "private".

(** [content[:pos].count("\n") + 1] *)
Definition line_at (content : string) (pos : nat) : nat :=
  Py.count (Py.take_str pos content) Py.nl + 1.

Definition item_of_match (content file_path item_type : string)
           (m : rmatch) : option Item :=
  let visibility_str := Py.strip (group 1 m) in
  let name := group 2 m in
  if Py.in_list name excluded_names then None
  else
    Some {| name := name;
            type := item_type;
            visibility := _parse_visibility visibility_str;
            visibility_raw := visibility_str;
            file := file_path;
            line := line_at content (m_start m);
            doc := None |}.

(** [f"{item['type']}:{item['name']}:{item['line']}"] *)
Definition doc_key (item : Item) : string :=
  type item +:+ ":" +:+ name item +:+ ":" +:+ Py.str_of_nat (line item).

Definition doc_pattern : regex :=
  seqs [Group 1
          (Alt (Plus (seqs [Lit "///"; not0 Py.nl; Lit Py.nl]))
               (seqs [Lit "/**"; LazyStar (Chr CAny); Lit "*/"]));
        s0;
        Opt pub_prefix;
        opt_async;
        alts (Lit "struct")
          [Lit "enum"; Lit "trait"; Lit "fn"; Lit "mod"; Lit "type";
           Lit "const"; Lit "static"];
        s1;
        Group 2 w1].

(** The text of a doc comment, from the raw comment. *)
Definition doc_text (doc_raw : string) : string :=
  if Py.startswith doc_raw "///" then
    Py.join Py.nl
      (List.map
         (fun line => Py.strip (Py.lstrip_by (Py.in_chars "/") line))
         (List.filter
            (fun line => Py.startswith (Py.strip line) "///")
            (Py.split_chr "010" doc_raw)))
  else
    Py.strip
      (Py.strip_by (Py.in_chars "*/")
         (Py.strip_by (Py.in_chars "/*") doc_raw)).

(** [abs(a - b) < 5] *)
Definition near (a b : nat) : bool := (a - b) + (b - a) <? 5.

Definition _extract_docstrings (content : string) (items : list Item)
  : gmap string string :=
  fold_left
    (fun (docstrings : gmap string string) m =>
       let doc := doc_text (group 1 m) in
       let name' := group 2 m in
       if String.eqb doc "" then docstrings
       else
         let line_num := line_at content (m_start m) in
         match List.find
                 (fun item => String.eqb (name item) name'
                              && near (line item) line_num) items with
         | Some item =>
             <[doc_key item := Py.take_str 200 doc]> docstrings
         | None => docstrings
         end)
    (finditer doc_pattern content) ∅.

Definition _extract_pub_items (content file_path : string) : list Item :=
  let items :=
    List.flat_map
      (fun '(item_type, pattern) =>
         omap (item_of_match content file_path item_type)
           (finditer pattern content))
      item_patterns in
  let docstrings := _extract_docstrings content items in
  List.map
    (fun item =>
       match docstrings !! doc_key item with
       | Some d =>
           {| name := name item;
              type := type item;
              visibility := visibility item;
              visibility_raw := visibility_raw item;
              file := file item;
              line := line item;
              doc := Some d |}
       | None => item
       end)
    items.

End ApiSurface.

(* ===================================================================== *)
(** * export/semantic_index.py *)
(* ===================================================================== *)

Module SemanticIndex.

Import KnowledgeGraph.

Record HotSpot : Type := {
  hot_name : string;
  degree : nat;
}.

Record EntryPoint : Type := {
  entry_file : string;
  entry_type : string;
  entry_description : string;
}.

Record PublicApi : Type := {
  api_name : string;
  api_type : string;
  api_module : string;
}.

Record IndexStats : Type := {
  total_files : nat;
  total_concepts : nat;
  total_public_apis : nat;
}.

Record Index : Type := {
  index_project : string;
  file_to_concepts : gmap string (list string);
  concept_to_files : gmap string (list string);
  hot_spots : list HotSpot;
  entry_points : list EntryPoint;
  public_apis : list PublicApi;
  index_stats : IndexStats;
}.

(** The body of the loop over the nodes, on the pair of both maps. *)
Definition index_node
           (maps : gmap string (list string) * gmap string (list string))
           (node : Entity)
  : gmap string (list string) * gmap string (list string) :=
  let '(file_to_concepts, concept_to_files) := maps in
  let module := node_module node in
  let name := node_id node in
  let file_to_concepts :=
    <[module := default [] (file_to_concepts !! module) ++ [name]]>
      file_to_concepts in
  let files := default [] (concept_to_files !! name) in
  let concept_to_files :=
    <[name := if Py.in_list module files then files else files ++ [module]]>
      concept_to_files in
  (file_to_concepts, concept_to_files).

(** [d[key] = d.get(key, 0) + 1] on a dict in insertion order. *)
Fixpoint bump (key : string) (d : list (string * nat))
  : list (string * nat) :=
  match d with
  | [] => [(key, 1)]
  | (k, v) :: d' =>
      if String.eqb k key then (k, v + 1) :: d'
      else (k, v) :: bump key d'
  end.

Definition count_edge (node_degree : list (string * nat)) (edge : Edge)
  : list (string * nat) :=
  bump (edge_to edge) (bump (edge_from edge) node_degree).

Definition main_files : list (string * string) :=
  [ ("src/main.rs", "Binary entry point");
    ("src/lib.rs", "Library entry point");
    ("lib.rs", "Library entry point");
    ("main.rs", "Binary entry point") ].

Definition _detect_entry_points (p : Project) (graph : Graph)
  : list EntryPoint :=
  let from_files :=
    omap
      (fun '(file_name, description) =>
         if file_exists p file_name then
           Some {| entry_file := file_name;
                   entry_type :=
                     if Py.contains "main" file_name then "main" else "lib";
                   entry_description := description |}
         else None)
      main_files in
  let from_nodes :=
    match List.find
            (fun node => String.eqb (node_name node) "main"
                         && String.eqb (node_type node) "fn")
            (nodes graph) with
    | Some node =>
        [ {| entry_file := node_module node;
             entry_type := "main_function";
             entry_description := "main() function" |} ]
    | None => []
    end in
  from_files ++ from_nodes.

(** The comprehension that selects [public_apis]. *)
Definition is_public_api (node : Entity) : bool :=
  String.eqb (node_visibility node) "pub"
  && Py.in_list (node_type node) ["fn"; "struct"; "trait"].

Definition select_public_apis (graph : Graph) : list Entity :=
  List.filter is_public_api (nodes graph).

Definition api_entry (api : Entity) : PublicApi :=
  {| api_name := node_name api;
     api_type := node_type api;
     api_module := node_module api |}.

Definition build_semantic_index (p : Project) (graph : Graph) : Index :=
  let '(file_to_concepts, concept_to_files) :=
    fold_left index_node (nodes graph) (∅, ∅) in
  let node_degree := fold_left count_edge (edges graph) [] in
  let hot_spots :=
    List.firstn 20 (sort_desc Nat.leb snd node_degree) in
  let entry_points := _detect_entry_points p graph in
  let public_apis := select_public_apis graph in
  {| index_project := project graph;
     file_to_concepts := file_to_concepts;
     concept_to_files := concept_to_files;
     hot_spots :=
       List.map (fun '(name, degree) =>
                   {| hot_name := name; degree := degree |}) hot_spots;
     entry_points := entry_points;
     public_apis := List.map api_entry (List.firstn 50 public_apis);
     index_stats :=
       {| total_files := size file_to_concepts;
          total_concepts := size concept_to_files;
          total_public_apis := List.length public_apis |} |}.

End SemanticIndex.

(* ===================================================================== *)
(** * What a regular expression matches *)
(* ===================================================================== *)

(** The matcher of [Re] is a search procedure.  What it searches for is
    stated here as a relation, against which the matcher is proved
    sound. *)
Module ReSpec.

Import Re.

(** [matches r pre caps caps']: the text [pre] is matched by [r], and the
    match takes the captures from [caps] to [caps']. *)
Inductive matches : regex -> string -> captures -> captures -> Prop :=
| M_Eps caps : matches Eps "" caps caps
| M_Chr cl c caps :
    class_matches cl c = true -> matches (Chr cl) (String c "") caps caps
| M_Seq r1 r2 p1 p2 c0 c1 c2 :
    matches r1 p1 c0 c1 -> matches r2 p2 c1 c2 ->
    matches (Seq r1 r2) (p1 +:+ p2) c0 c2
| M_AltL r1 r2 p c c' : matches r1 p c c' -> matches (Alt r1 r2) p c c'
| M_AltR r1 r2 p c c' : matches r2 p c c' -> matches (Alt r1 r2) p c c'
| M_OptSome r p c c' : matches r p c c' -> matches (Opt r) p c c'
| M_OptNone r c : matches (Opt r) "" c c
| M_StarNil r c : matches (Star r) "" c c
| M_StarCons r p1 p2 c0 c1 c2 :
    matches r p1 c0 c1 -> matches (Star r) p2 c1 c2 ->
    matches (Star r) (p1 +:+ p2) c0 c2
| M_LazyNil r c : matches (LazyStar r) "" c c
| M_LazyCons r p1 p2 c0 c1 c2 :
    matches r p1 c0 c1 -> matches (LazyStar r) p2 c1 c2 ->
    matches (LazyStar r) (p1 +:+ p2) c0 c2
| M_Group n r p c c' :
    matches r p c c' -> matches (Group n r) p c ((n, p) :: c').

(** Group [n] takes part in every match of [r]. *)
Fixpoint binds (n : nat) (r : regex) : bool :=
  match r with
  | Eps | Chr _ | Opt _ | Star _ | LazyStar _ => false
  | Seq r1 r2 => binds n r1 || binds n r2
  | Alt r1 r2 => binds n r1 && binds n r2
  | Group n' r' => (n' =? n) || binds n r'
  end.

(** The captures [c] hold a text for group [n]. *)
Definition bound (n : nat) (c : captures) : Prop :=
  is_Some (List.find (fun '(i, _) => i =? n) c).

(** Every text that a group of [r] with number [n] can capture satisfies
    [P n]. *)
Fixpoint captured (P : nat -> string -> Prop) (r : regex) : Prop :=
  match r with
  | Eps | Chr _ => True
  | Seq r1 r2 | Alt r1 r2 => captured P r1 /\ captured P r2
  | Opt r' | Star r' | LazyStar r' => captured P r'
  | Group n r' =>
      (forall p c c', matches r' p c c' -> P n p) /\ captured P r'
  end.

(** Every character of [s] satisfies [p]. *)
Fixpoint all_chars (p : ascii -> bool) (s : string) : bool :=
  match s with
  | "" => true
  | String c s' => p c && all_chars p s'
  end.

(** A non-empty text of word characters: what [\w+] matches. *)
Definition is_identifier (s : string) : Prop :=
  s <> "" /\ all_chars Py.isword s = true.

(** The two loops that [run] uses for a star, by name. *)
Definition star_loop {R : Type}
           (step : string -> captures -> (string -> captures -> option R)
                   -> option R)
           (k : string -> captures -> option R)
  : nat -> string -> captures -> option R :=
  fix loop (fuel : nat) (s : string) (caps : captures) : option R :=
    match fuel with
    | O => k s caps
    | S fuel' =>
        match step s caps
                (fun s1 caps1 =>
                   if String.length s1 <? String.length s
                   then loop fuel' s1 caps1 else None) with
        | Some x => Some x
        | None => k s caps
        end
    end.

Definition lazy_loop {R : Type}
           (step : string -> captures -> (string -> captures -> option R)
                   -> option R)
           (k : string -> captures -> option R)
  : nat -> string -> captures -> option R :=
  fix loop (fuel : nat) (s : string) (caps : captures) : option R :=
    match k s caps with
    | Some x => Some x
    | None =>
        match fuel with
        | O => None
        | S fuel' =>
            step s caps
              (fun s1 caps1 =>
                 if String.length s1 <? String.length s
                 then loop fuel' s1 caps1 else None)
        end
    end.

End ReSpec.

Module ReBlind.
Import Re.

(** Whether the continuation [k] succeeds does not depend on the captures:
    the patterns have no back-references. *)
Definition blind {R : Type} (k : string -> captures -> option R) : Prop :=
  forall s c1 c2, is_Some (k s c1) -> is_Some (k s c2).

(** [r] matches somewhere in [s]. *)
Definition occurs (r : regex) (s : string) : Prop :=
  exists before p after caps,
    s = before +:+ p +:+ after /\ ReSpec.matches r p [] caps.

End ReBlind.

(* ===================================================================== *)
(** * The detections of a table, in table order *)
(* ===================================================================== *)

Module TableOrder.

(** The detection that the loop of [analyze] appends for one signature. *)
Definition signature_detection (all_code cargo_content : string)
           (entry : string * Patterns.Signature) : option Patterns.Detection :=
  match Patterns.analyze_signature entry.1 entry.2 all_code cargo_content with
  | Ok d => d
  | Err _ => None
  end.

(** What the loop of [analyze] has appended when it ends: one detection
    per detected signature, in the order of the table. *)
Definition table_detections (sigs : list (string * Patterns.Signature))
           (all_code cargo_content : string) : list Patterns.Detection :=
  omap (signature_detection all_code cargo_content) sigs.

Definition style_detection (combined_content : string)
           (entry : string * Architecture.StyleInfo)
  : option Architecture.Detection :=
  match Architecture.detect_style entry.1 entry.2 combined_content with
  | Ok d => d
  | Err _ => None
  end.

Definition style_detections (styles : list (string * Architecture.StyleInfo))
           (combined_content : string) : list Architecture.Detection :=
  omap (style_detection combined_content) styles.

(** A list in which no entry is followed by one with a larger key. *)
Definition descending {A : Type} (key : A -> Q) (l : list A) : Prop :=
  StronglySorted (fun a b => (key b <= key a)%Q) l.

(** The entries of [l] whose key equals [q], in their order. *)
Definition tied {A : Type} (key : A -> Q) (q : Q) (l : list A) : list A :=
  List.filter (fun x => Qeq_bool (key x) q) l.

End TableOrder.

(* ===================================================================== *)
(** * analysis/architecture.py: communication patterns *)
(* ===================================================================== *)

Module Communication.

Definition COMMUNICATION_PATTERNS : list (string * list string) :=
  [ ("Channel-based (tokio)",
     ["tokio::sync::mpsc"; "tokio::sync::oneshot"; "tokio::sync::broadcast"]);
    ("Channel-based (crossbeam)", ["crossbeam-channel"; "crossbeam::channel"]);
    ("Shared State (Mutex)", ["Arc<Mutex"; "Mutex<"; "std::sync::Mutex"]);
    ("Shared State (RwLock)", ["Arc<RwLock"; "RwLock<"; "std::sync::RwLock"]);
    ("Async Channels", ["async_channel"; "flume"]);
    ("Message Passing", ["actix"; "xactor"; "ractor"]) ].

Record Detection : Type := {
  pattern : string;
  evidence : list string;
  usage_count : nat;
}.

(** [s.count(sub)] for any [sub]: the empty string occurs once at every
    offset, the end included. *)
Definition str_count (s sub : string) : nat :=
  match sub with
  | "" => S (String.length s)
  | _ => Py.count s sub
  end.

(** [sum(...)] of a list of counts. *)
Definition sum (l : list nat) : nat := fold_right Nat.add 0 l.

(** The body of the loop: the detection of one pattern, if any of its
    signatures occurs. *)
Definition detect_pattern (combined : string)
           (entry : string * list string) : option Detection :=
  let '(pattern_name, signatures) := entry in
  let found := List.filter (fun sig => Py.contains sig combined) signatures in
  match found with
  | [] => None
  | _ :: _ =>
      Some {| pattern := pattern_name;
              evidence := found;
              usage_count :=
                sum (List.map (fun sig => str_count combined sig) found) |}
  end.

(** [detect_communication_patterns] with the table and the texts as
    arguments. *)
Definition detect_with (table : list (string * list string))
           (all_code cargo_content : string) : list Detection :=
  let combined := all_code +:+ cargo_content in
  sort_desc Nat.leb usage_count (omap (detect_pattern combined) table).

Definition detect_communication_patterns (p : Project) : list Detection :=
  detect_with COMMUNICATION_PATTERNS (collect_code p) (read_cargo p).

End Communication.

(** [p] with another list of Rust files. *)
Definition with_files (p : Project) (files : list SourceFile) : Project :=
  {| project_name := project_name p;
     rs_files := files;
     cargo_toml := cargo_toml p;
     cargo_packages := cargo_packages p;
     file_exists := file_exists p |}.

(** The directories and the file-name endings that mark test, bench and
    example code. *)
Definition test_directories : list string :=
  ["tests"; "test"; "benches"; "bench"; "examples"; "example"; "fuzz";
   "stress"].

Definition test_suffixes : list string :=
  ["_test.rs"; "_tests.rs"; "_bench.rs"].

(* ===================================================================== *)
(** * Corpora that keep the hits of a signature *)
(* ===================================================================== *)

Module Growth.

Import Patterns.

(** Every hit of [sig] on the first corpus is a hit on the second. *)
Definition hits_kept (sig : Signature)
           (code1 cargo1 code2 cargo2 : string) : Prop :=
  (forall kw, In kw (get_list (keywords sig)) ->
              Py.contains kw code1 = true -> Py.contains kw code2 = true)
  /\ (forall imp, In imp (get_list (imports sig)) ->
                  Py.contains imp cargo1
                  || Py.contains ("use " +:+ imp) code1 = true ->
                  Py.contains imp cargo2
                  || Py.contains ("use " +:+ imp) code2 = true)
  /\ (forall pat, In pat (get_list (patterns sig)) ->
                  is_Some (Re.search (pat_re pat) code1) ->
                  is_Some (Re.search (pat_re pat) code2))
  /\ (forall t, In t (get_list (traits sig)) ->
                Py.contains t code1 = true -> Py.contains t code2 = true).

End Growth.

Module GraphShape.

Import KnowledgeGraph ReSpec.

(** What every node of a graph built from [p] looks like. *)
Definition well_formed_node (p : Project) (n : Entity) : Prop :=
  is_identifier (node_name n)
  /\ node_id n = node_name n
  /\ In (node_type n) ["struct"; "enum"; "trait"; "impl"; "fn"]
  /\ In (node_visibility n) ["pub"; "private"]
  /\ exists rs_file content,
       In rs_file (rs_files p)
       /\ Py.in_list "target" (parts rs_file) = false
       /\ text rs_file = Some content
       /\ node_module n = rel_path rs_file
       /\ In n (_extract_entities content (rel_path rs_file)).

(** What every edge looks like, by kind; [names] are the names of the
    nodes. *)
Definition well_formed_edge (names : list string) (e : Edge) : Prop :=
  (relationship e = "implements"
   /\ is_identifier (edge_from e) /\ is_identifier (edge_to e))
  \/ (relationship e = "derives" /\ is_identifier (edge_from e))
  \/ (relationship e = "contains"
      /\ edge_from e = Py.path_stem (source e)
      /\ is_identifier (edge_to e))
  \/ (relationship e = "uses"
      /\ edge_from e = Py.path_stem (source e)
      /\ In (edge_to e) names)
  \/ (relationship e = "references"
      /\ edge_from e = "field_usage"
      /\ In (edge_to e) names
      /\ ~ In (edge_to e) primitives).

(** The file that an edge was read from. *)
Definition edge_source_in (p : Project) (e : Edge) : Prop :=
  exists rs_file,
    In rs_file (rs_files p)
    /\ Py.in_list "target" (parts rs_file) = false
    /\ is_Some (text rs_file)
    /\ source e = rel_path rs_file.

(** Strictly ascending. *)
Definition ascending (l : list string) : Prop :=
  StronglySorted (fun a b => a <> b /\ String.le a b) l.

End GraphShape.

Module IndexShape.

Import KnowledgeGraph SemanticIndex.

(** Both ends of every edge, in edge order. *)
Definition endpoints (edges : list Edge) : list string :=
  List.flat_map (fun e => [edge_from e; edge_to e]) edges.

(** How often [name] occurs in [l]. *)
Definition occurrences (name : string) (l : list string) : nat :=
  List.length (List.filter (String.eqb name) l).

(** [d.get(key)] on a dict in insertion order. *)
Definition assoc (key : string) (d : list (string * nat)) : option nat :=
  match List.find (fun kv => String.eqb kv.1 key) d with
  | Some kv => Some kv.2
  | None => None
  end.

(** The ids of the nodes of one file, in node order. *)
Definition concepts_of (file : string) (nodes : list Entity) : list string :=
  List.map node_id
    (List.filter (fun n => String.eqb (node_module n) file) nodes).

(** The node [n] has id [name] and module [file]. *)
Definition declares (nodes : list Entity) (name file : string) : Prop :=
  exists n, In n nodes /\ node_id n = name /\ node_module n = file.

End IndexShape.

(* ===================================================================== *)
(** * The report on the public API: [analysis/api_surface.py] *)
(* ===================================================================== *)

Module ApiReport.

Import ApiSurface.

(** [pathlib.Path(p).parent.as_posix()]: the anchor, then all components
    but the last; empty components and [.] are no components, and two
    leading slashes (not three) are an anchor of their own. *)
Definition path_parts (p : string) : list string :=
  List.filter (fun f => negb (String.eqb f "" || String.eqb f "."))
    (Py.split_chr "/" p).

Definition path_root (p : string) : string :=
  if Py.startswith p "//" && negb (Py.startswith p "///") then "//"
  else if Py.startswith p "/" then "/"
  else "".

Definition path_parent (p : string) : string :=
  let root := path_root p in
  let kept := List.removelast (path_parts p) in
  match root, kept with
  | "", [] => "."
  | _, _ => root +:+ Py.join "/" kept
  end.

(** [if key not in d: d[key] = []] and then [d[key].append(name)], on a
    dict in insertion order. *)
Fixpoint append_to (key name : string) (d : list (string * list string))
  : list (string * list string) :=
  match d with
  | [] => [(key, [name])]
  | (k, v) :: d' =>
      if String.eqb k key then (k, v ++ [name]) :: d'
      else (k, v) :: append_to key name d'
  end.

Record Categories : Type := {
  by_type : list (string * list string);
  by_visibility : list (string * list string);
  by_module : list (string * list string);
}.

(** The module of an item: the directory of its file, [root] for the
    project directory. *)
Definition module_of (item : Item) : string :=
  let module := path_parent (file item) in
  if String.eqb module "." then "root" else module.

(** The body of the loop of [_categorize_api]. *)
Definition categorize_item (c : Categories) (item : Item) : Categories :=
  {| by_type := append_to (type item) (name item) (by_type c);
     by_visibility :=
       append_to (visibility item) (name item) (by_visibility c);
     by_module := append_to (module_of item) (name item) (by_module c) |}.

Definition _categorize_api (items : list Item) : Categories :=
  fold_left categorize_item items
    {| by_type := []; by_visibility := []; by_module := [] |}.

Record ApiStats : Type := {
  total_pub_items : nat;
  pub_structs : nat;
  pub_enums : nat;
  pub_traits : nat;
  pub_functions : nat;
  pub_modules : nat;
}.

Record Surface : Type := {
  surface_project : string;
  surface_items : list Item;
  surface_by_type : list (string * list string);
  surface_by_visibility : list (string * list string);
  surface_by_module : list (string * list string);
  surface_stats : ApiStats;
}.

(** [sum(1 for i in api_items if i["type"] == t)] *)
Definition count_type (t : string) (api_items : list Item) : nat :=
  List.length (List.filter (fun i => String.eqb (type i) t) api_items).

(** The items of one file: none when reading it raises. *)
Definition file_items (rs_file : SourceFile) : list Item :=
  match text rs_file with
  | Some content => _extract_pub_items content (rel_path rs_file)
  | None => []
  end.

Definition analyze_api_surface (p : Project) : Surface :=
  let api_items := List.flat_map file_items (_iter_source_files p false) in
  let categorized := _categorize_api api_items in
  {| surface_project := project_name p;
     surface_items := api_items;
     surface_by_type := by_type categorized;
     surface_by_visibility := by_visibility categorized;
     surface_by_module := by_module categorized;
     surface_stats :=
       {| total_pub_items := List.length api_items;
          pub_structs := count_type "struct" api_items;
          pub_enums := count_type "enum" api_items;
          pub_traits := count_type "trait" api_items;
          pub_functions := count_type "fn" api_items;
          pub_modules := count_type "mod" api_items |} |}.

(** [d.get(key, [])] on a dict in insertion order. *)
Definition group_of (key : string) (d : list (string * list string))
  : list string :=
  match List.find (fun kv => String.eqb kv.1 key) d with
  | Some kv => kv.2
  | None => []
  end.

(** The names of the items whose [key] is [k], in item order. *)
Definition names_with (key : Item -> string) (k : string)
           (items : list Item) : list string :=
  List.map name (List.filter (fun i => String.eqb (key i) k) items).

(** A dict of name lists is the grouping of [items] by [key]: its keys
    are distinct, each has the names of its items in item order, and no
    key has none. *)
Definition groups_by (key : Item -> string) (items : list Item)
           (d : list (string * list string)) : Prop :=
  List.NoDup (List.map fst d)
  /\ forall k names,
       In (k, names) d <-> names <> [] /\ names = names_with key k items.

(** What the two groups of an item pattern capture: the visibility, which
    starts with [pub], and the name. *)
Definition item_capture (n : nat) (t : string) : Prop :=
  (n = 1 -> String.prefix "pub" t = true) /\ (n = 2 -> ReSpec.is_identifier t).

(** What every item of a file looks like. *)
Definition well_formed_item (file_path : string) (i : Item) : Prop :=
  ReSpec.is_identifier (name i)
  /\ ~ In (name i) excluded_names
  /\ In (type i)
       ["struct"; "enum"; "trait"; "fn"; "mod"; "type"; "const"; "static"]
  /\ In (visibility i)
       ["pub"; "pub(crate)"; "pub(super)"; "pub(self)"; "pub(in ...)"]
  /\ String.prefix "pub" (visibility_raw i) = true
  /\ file i = file_path
  /\ 1 <= line i
  /\ match doc i with
     | Some d => d <> "" /\ String.length d <= 200
     | None => True
     end.

End ApiReport.

Module ItemOrder.

Import ApiSurface.

(** A run of items of one kind, in source order. *)
Definition in_source_order (kind : string) (items : list Item) : Prop :=
  List.Forall (fun i => type i = kind) items
  /\ StronglySorted (fun a b => line a <= line b) items.

End ItemOrder.

(* ===================================================================== *)
(** * Patterns across projects: [analysis/pattern_comparison.py] *)
(* ===================================================================== *)

Module PatternComparison.




(** [sorted(s)] for a set of strings. *)
Definition sorted (s : gset string) : list string :=
  merge_sort String.le (elements s).









End PatternComparison.

(* ===================================================================== *)
(** * Concrete inputs *)
(* ===================================================================== *)

(** The ten identifiers that the specification lists as excluded from
    entity extraction. *)
Definition noisy_identifiers : list string :=
  ["self"; "Self"; "crate"; "super"; "new"; "default"; "from"; "into";
   "as_ref"; "as_mut"].

(** Signatures, corpora and projects on which the properties below are
    evaluated. *)
Module Examples.

Import Patterns.

Definition builder_keywords : Signature :=
  {| keywords := Some ["Builder"; "build()"; "with_"];
     imports := None; patterns := None; traits := None |}.

Definition six_keywords : Signature :=
  {| keywords := Some ["Addr<"; "Handler<"; "Recipient<"; "Actor";
                       "Context<"; "Mailbox"];
     imports := None; patterns := None; traits := None |}.

Definition no_categories : Signature :=
  {| keywords := None; imports := None; patterns := None; traits := None |}.

(** A library crate whose only file declares six public modules. *)
Definition six_pub_mods : string :=
  Py.join Py.nl
    ["pub mod parser;"; "pub mod lexer;"; "pub mod ast;"; "pub mod eval;";
     "pub mod error;"; "pub mod cli;"; ""].

Definition six_module_crate : Project :=
  {| project_name := "demo";
     rs_files :=
       [ {| rel_path := "src/lib.rs";
            parts := ["demo"; "src"; "lib.rs"];
            text := Some six_pub_mods |} ];
     cargo_toml := Some "[package]";
     cargo_packages := Some 1;
     file_exists := fun f => String.eqb f "src/lib.rs" |}.

Import KnowledgeGraph.

(** A graph over given nodes, with the clusters and stats that
    [build_knowledge_graph] would attach. *)
Definition graph_of (nodes : list Entity) : Graph :=
  {| project := "demo";
     nodes := nodes;
     edges := [];
     clusters := _identify_clusters nodes [];
     stats := {| total_nodes := List.length nodes;
                 total_edges := 0;
                 total_clusters :=
                   List.length (_identify_clusters nodes []) |} |}.

Definition numbered_fn (i : nat) : Entity :=
  {| node_id := "step_" +:+ Py.str_of_nat i;
     node_name := "step_" +:+ Py.str_of_nat i;
     node_type := "fn";
     node_module := "src/lib.rs";
     node_visibility := "pub" |}.

(** Fifty-one public functions, numbered 1 to 51. *)
Definition fifty_one_functions : Graph :=
  graph_of (List.map numbered_fn (List.seq 1 51)).

Definition two_functions : Graph :=
  graph_of (List.map numbered_fn (List.seq 1 2)).

(** Two files that both declare [Config]: a public struct in the first,
    a private enum in the second. *)
Definition config_twice : Project :=
  {| project_name := "demo";
     rs_files :=
       [ {| rel_path := "src/domain/settings.rs";
            parts := ["demo"; "src"; "domain"; "settings.rs"];
            text := Some "pub struct Config { port: u16 }" |};
         {| rel_path := "src/parser/lexer.rs";
            parts := ["demo"; "src"; "parser"; "lexer.rs"];
            text := Some "enum Config { A, B } pub fn lex() {}" |};
         {| rel_path := "main.rs";
            parts := ["demo"; "main.rs"];
            text := Some "fn main() {}" |} ];
     cargo_toml := Some "[package]";
     cargo_packages := Some 1;
     file_exists := fun f => String.eqb f "main.rs" |}.

Definition second_config : Entity :=
  {| node_id := "Config";
     node_name := "Config";
     node_type := "enum";
     node_module := "src/parser/lexer.rs";
     node_visibility := "private" |}.

(** A project whose only Rust file lies under [target]. *)
Definition only_build_output : Project :=
  {| project_name := "demo";
     rs_files :=
       [ {| rel_path := "target/debug/build/out.rs";
            parts := ["demo"; "target"; "debug"; "build"; "out.rs"];
            text := Some "pub struct Generated;" |} ];
     cargo_toml := None;
     cargo_packages := None;
     file_exists := fun _ => false |}.

Definition lex_fn : Entity :=
  {| node_id := "lex";
     node_name := "lex";
     node_type := "fn";
     node_module := "src/parser/lexer.rs";
     node_visibility := "pub" |}.

(** One file with a struct that has a field of another struct's type. *)
Definition foo_bar : Project :=
  {| project_name := "demo";
     rs_files :=
       [ {| rel_path := "src/lib.rs";
            parts := ["demo"; "src"; "lib.rs"];
            text := Some ("pub struct Foo { bar: Bar }" +:+ Py.nl
                          +:+ "pub struct Bar;") |} ];
     cargo_toml := Some "[package]";
     cargo_packages := Some 1;
     file_exists := fun f => String.eqb f "src/lib.rs" |}.

(** A workspace of five packages without Rust files at its root. *)
Definition five_packages : Project :=
  {| project_name := "demo";
     rs_files := [];
     cargo_toml := Some "[workspace]";
     cargo_packages := Some 5;
     file_exists := fun _ => false |}.

Definition no_files : Project :=
  {| project_name := "demo";
     rs_files := [];
     cargo_toml := None;
     cargo_packages := None;
     file_exists := fun _ => false |}.

End Examples.

(** Further inputs: a corpus before and after a function is added, and a
    file of test code. *)
Module GrowthExamples.

Import Patterns.

Definition builder_corpus : string :=
  "struct FooBuilder; fn with_x(self) {}".

Definition grown_builder_corpus : string :=
  "struct FooBuilder; fn with_x(self) {} fn build() {}".

Definition builder_detection : Detection :=
  {| name := "Builder"; confidence := 2 # 3;
     evidence := ["keyword: Builder"; "keyword: with_"] |}.

Definition helper_test_file : SourceFile :=
  {| rel_path := "src/tests/helper.rs";
     parts := ["demo"; "src"; "tests"; "helper.rs"];
     text := Some "use tower::ServiceBuilder;" |}.

End GrowthExamples.

Module GraphExamples.

(** Build output: a generated Rust file below [target]. *)
Definition generated_file : SourceFile :=
  {| rel_path := "target/debug/build/out.rs";
     parts := ["demo"; "target"; "debug"; "build"; "out.rs"];
     text := Some "pub struct Generated;" |}.

End GraphExamples.

Module VisibilityExamples.

Import KnowledgeGraph.

(** A private function below a comment that mentions [pub]. *)
Definition private_below_comment : string :=
  "// pub api" +:+ Py.nl +:+ "fn helper() {}".

Definition helper_fn : Entity :=
  {| node_id := "helper";
     node_name := "helper";
     node_type := "fn";
     node_module := "src/lib.rs";
     node_visibility := "pub" |}.

(** A file that starts with [pub struct Foo], the match of that
    declaration, and its entity. *)
Definition foo_lib : SourceFile :=
  {| rel_path := "src/lib.rs";
     parts := ["demo"; "src"; "lib.rs"];
     text := Some ("pub struct Foo { bar: Bar }" +:+ Py.nl
                   +:+ "pub struct Bar;") |}.

Definition foo_struct : Entity :=
  {| node_id := "Foo";
     node_name := "Foo";
     node_type := "struct";
     node_module := "src/lib.rs";
     node_visibility := "pub" |}.

Definition foo_match : Re.rmatch :=
  {| Re.m_start := 0; Re.m_end := 14; Re.m_groups := [(1, "Foo")] |}.

End VisibilityExamples.

Module ModuleCountExamples.

(** What the style detector reports for [Examples.six_module_crate]. *)
Definition six_module_report : list Architecture.Detection :=
  [ Architecture.monolith 12
      "Single crate with well-organized internal modules by domain" ].

End ModuleCountExamples.

(* ===================================================================== *)
(** * Properties *)
(* ===================================================================== *)

(** ** The stable sort only reorders *)

Section SortDescFacts.
Context {A K : Type} (leb : K -> K -> bool) (key : A -> K).

Lemma insert_desc_perm (x : A) (l : list A) :
  Permutation (insert_desc leb key x l) (x :: l).
Proof.
  induction l as [|y l IH]; simpl; [reflexivity|].
  destruct (leb (key y) (key x)); [reflexivity|].
  rewrite IH. apply perm_swap.
Qed.

Lemma sort_desc_perm (l : list A) : Permutation (sort_desc leb key l) l.
Proof.
  induction l as [|x l IH]; simpl; [reflexivity|].
  rewrite insert_desc_perm. by constructor.
Qed.

Lemma sort_desc_In (l : list A) (x : A) :
  In x (sort_desc leb key l) <-> In x l.
Proof.
  split; apply Permutation_in;
    [apply sort_desc_perm | symmetry; apply sort_desc_perm].
Qed.

Lemma sort_desc_length (l : list A) :
  List.length (sort_desc leb key l) = List.length l.
Proof. apply Permutation_length, sort_desc_perm. Qed.
End SortDescFacts.

(** ** Rational helpers *)

Lemma ratio_nonneg (a b : nat) : (0 <= Z.of_nat a # Pos.of_nat b)%Q.
Proof. unfold Qle; simpl. lia. Qed.

Lemma ratio_le_1 (a b : nat) :
  a <= b -> b <> 0 -> (Z.of_nat a # Pos.of_nat b <= 1)%Q.
Proof.
  intros Hab Hb. unfold Qle; simpl. lia.
Qed.

Lemma truediv_ok (a b : nat) :
  b <> 0 -> truediv a b = Ok (Z.of_nat a # Pos.of_nat b).
Proof. by destruct b. Qed.

Lemma py_min_le_r (a b : Q) : (py_min a b <= b)%Q.
Proof.
  unfold py_min. destruct (Qle_bool a b) eqn:E.
  - by apply Qle_bool_iff.
  - apply Qle_refl.
Qed.

Lemma py_min_nonneg (a b : Q) : (0 <= a)%Q -> (0 <= b)%Q -> (0 <= py_min a b)%Q.
Proof. unfold py_min. by destruct (Qle_bool a b). Qed.

(** ** The scoring loop of the pattern detector *)

Module PatternsFacts.
Import Patterns.

Section Category.
Context {A : Type} (weight : nat) (found : A -> bool) (line : A -> string).

Let step (st : Score) (x : A) : Score :=
  if found x then hit (line x) weight st else st.

Lemma fold_step_max (items : list A) (st : Score) :
  s_max (fold_left step items st) = s_max st.
Proof.
  revert st. induction items as [|x items IH]; intros st; simpl; [done|].
  rewrite IH. unfold step. by destruct (found x).
Qed.

Lemma fold_step_score (items : list A) (st : Score) :
  s_score (fold_left step items st)
  = s_score st + List.length (List.filter found items) * weight.
Proof.
  revert st. induction items as [|x items IH]; intros st; simpl; [lia|].
  rewrite IH. unfold step. destruct (found x); simpl; lia.
Qed.

Lemma fold_step_evidence (items : list A) (st : Score) :
  s_evidence (fold_left step items st)
  = s_evidence st ++ List.map line (List.filter found items).
Proof.
  revert st. induction items as [|x items IH]; intros st; simpl.
  - by rewrite app_nil_r.
  - rewrite IH. unfold step. destruct (found x); simpl; [|done].
    by rewrite <- app_assoc.
Qed.

Lemma check_category_max (items : list A) (st : Score) :
  s_max (check_category items weight found line st)
  = s_max st + List.length items * weight.
Proof.
  destruct items as [|x items]; [simpl; lia|].
  unfold check_category. by rewrite (fold_step_max (x :: items)).
Qed.

Lemma check_category_score (items : list A) (st : Score) :
  s_score (check_category items weight found line st)
  = s_score st + List.length (List.filter found items) * weight.
Proof.
  destruct items as [|x items]; [simpl; lia|].
  unfold check_category. by rewrite (fold_step_score (x :: items)).
Qed.

Lemma check_category_evidence (items : list A) (st : Score) :
  s_evidence (check_category items weight found line st)
  = s_evidence st ++ List.map line (List.filter found items).
Proof.
  destruct items as [|x items]; [simpl; by rewrite app_nil_r|].
  unfold check_category. by rewrite (fold_step_evidence (x :: items)).
Qed.

Lemma check_category_nil (st : Score) :
  check_category [] weight found line st = st.
Proof. done. Qed.
End Category.

Lemma score_signature_max sig all_code cargo :
  s_max (score_signature sig all_code cargo)
  = List.length (get_list (keywords sig))
    + 2 * List.length (get_list (imports sig))
    + List.length (get_list (patterns sig))
    + List.length (get_list (traits sig)).
Proof.
  unfold score_signature, check_traits, check_patterns, check_imports,
    check_keywords.
  rewrite !check_category_max. simpl. lia.
Qed.

Lemma score_signature_score sig all_code cargo :
  s_score (score_signature sig all_code cargo)
  = List.length (kw_hits sig all_code)
    + 2 * List.length (imp_hits sig all_code cargo)
    + List.length (pat_hits sig all_code)
    + List.length (trait_hits sig all_code).
Proof.
  unfold score_signature, check_traits, check_patterns, check_imports,
    check_keywords.
  rewrite !check_category_score. simpl.
  unfold kw_hits, imp_hits, pat_hits, trait_hits. lia.
Qed.

Lemma score_signature_evidence sig all_code cargo :
  s_evidence (score_signature sig all_code cargo)
  = List.map (fun kw => "keyword: " +:+ kw) (kw_hits sig all_code)
    ++ List.map (fun imp => "import: " +:+ imp) (imp_hits sig all_code cargo)
    ++ List.map (fun pat => "pattern: " +:+ Py.take_str 30 (pat_src pat)
                            +:+ "...") (pat_hits sig all_code)
    ++ List.map (fun t => "trait: " +:+ t) (trait_hits sig all_code).
Proof.
  unfold score_signature, check_traits, check_patterns, check_imports,
    check_keywords.
  rewrite !check_category_evidence. simpl.
  unfold kw_hits, imp_hits, pat_hits, trait_hits.
  by rewrite <- !app_assoc.
Qed.

Lemma filter_length_le {A} (f : A -> bool) (l : list A) :
  List.length (List.filter f l) <= List.length l.
Proof.
  induction l as [|x l IH]; simpl; [lia|]. destruct (f x); simpl; lia.
Qed.

Lemma score_le_max sig all_code cargo :
  s_score (score_signature sig all_code cargo)
  <= s_max (score_signature sig all_code cargo).
Proof.
  rewrite score_signature_score, score_signature_max.
  unfold kw_hits, imp_hits, pat_hits, trait_hits.
  pose proof (filter_length_le (fun kw => Py.contains kw all_code)
                (get_list (keywords sig))).
  pose proof (filter_length_le
                (fun imp => Py.contains imp cargo
                            || Py.contains ("use " +:+ imp) all_code)
                (get_list (imports sig))).
  pose proof (filter_length_le
                (fun pat => bool_decide
                              (is_Some (Re.search (pat_re pat) all_code)))
                (get_list (patterns sig))).
  pose proof (filter_length_le (fun t => Py.contains t all_code)
                (get_list (traits sig))).
  lia.
Qed.

Lemma score_pos_evidence sig all_code cargo :
  0 < s_score (score_signature sig all_code cargo) ->
  s_evidence (score_signature sig all_code cargo) <> [].
Proof.
  rewrite score_signature_score, score_signature_evidence.
  intros Hpos Hnil.
  apply app_eq_nil in Hnil as [H1 Hnil].
  apply app_eq_nil in Hnil as [H2 Hnil].
  apply app_eq_nil in Hnil as [H3 H4].
  apply (f_equal (@List.length string)) in H1, H2, H3, H4.
  rewrite length_map in H1, H2, H3, H4. simpl in *. lia.
Qed.

(** What [analyze_signature] returns, case by case. *)
Lemma analyze_signature_cases pattern_name sig all_code cargo :
  let st := score_signature sig all_code cargo in
  let q := py_min (Z.of_nat (s_score st) # Pos.of_nat (s_max st)) 1 in
  analyze_signature pattern_name sig all_code cargo
  = Ok (if (0 <? s_max st) && (0 <? s_score st) && Qle_bool (2 # 10) q
        then Some {| name := pattern_name; confidence := q;
                     evidence := s_evidence st |}
        else None).
Proof.
  intros st q. unfold analyze_signature. fold st.
  destruct (0 <? s_max st) eqn:Hmax; simpl; [|done].
  destruct (0 <? s_score st) eqn:Hscore; simpl; [|done].
  apply Nat.ltb_lt in Hmax.
  rewrite truediv_ok by lia. simpl. fold q.
  by destruct (Qle_bool (2 # 10) q).
Qed.

Lemma analyze_loop_spec sigs all_code cargo acc :
  exists ds,
    analyze_loop sigs all_code cargo acc = Ok (acc ++ ds)
    /\ forall d, In d ds <->
         exists pattern_name sig,
           In (pattern_name, sig) sigs
           /\ analyze_signature pattern_name sig all_code cargo
              = Ok (Some d).
Proof.
  revert acc. induction sigs as [|[n sig] sigs IH]; intros acc; simpl.
  - exists []. rewrite app_nil_r. split; [done|].
    intros d; split; [done|]. by intros (? & ? & [] & _).
  - pose proof (analyze_signature_cases n sig all_code cargo) as Hc.
    simpl in Hc. rewrite Hc. simpl.
    match goal with
    | |- context [if ?b then Some ?d else None] =>
        destruct b eqn:Hb; set (d0 := d) in *
    end.
    + destruct (IH (acc ++ [d0])) as (ds & Heq & Hin).
      exists (d0 :: ds). rewrite Heq, <- app_assoc. split; [done|].
      intros d; simpl; rewrite Hin. split.
      * intros [<-|(n' & sig' & Hi & He)]; [by exists n, sig; auto|].
        exists n', sig'; auto.
      * intros (n' & sig' & [Hi|Hi] & He).
        -- simplify_eq. rewrite Hc in He. left. congruence.
        -- right. by exists n', sig'.
    + destruct (IH acc) as (ds & Heq & Hin).
      exists ds. split; [done|].
      intros d; rewrite Hin. split.
      * intros (n' & sig' & Hi & He). exists n', sig'; auto.
      * intros (n' & sig' & [Hi|Hi] & He).
        -- simplify_eq. rewrite Hc in He. congruence.
        -- by exists n', sig'.
Qed.

Lemma analyze_with_spec sigs all_code cargo :
  exists ds,
    analyze_with sigs all_code cargo = Ok ds
    /\ forall d, In d ds <->
         exists pattern_name sig,
           In (pattern_name, sig) sigs
           /\ analyze_signature pattern_name sig all_code cargo
              = Ok (Some d).
Proof.
  destruct (analyze_loop_spec sigs all_code cargo []) as (ds & Heq & Hin).
  exists (sort_desc Qle_bool confidence ds).
  unfold analyze_with. rewrite Heq. simpl. split; [done|].
  intros d. by rewrite sort_desc_In.
Qed.

Lemma detection_sound pattern_name sig all_code cargo d :
  analyze_signature pattern_name sig all_code cargo = Ok (Some d) ->
  let st := score_signature sig all_code cargo in
  name d = pattern_name
  /\ confidence d = py_min (Z.of_nat (s_score st) # Pos.of_nat (s_max st)) 1
  /\ evidence d = s_evidence st
  /\ 0 < s_max st /\ 0 < s_score st
  /\ (2 # 10 <= confidence d)%Q.
Proof.
  rewrite analyze_signature_cases. simpl.
  destruct (0 <? s_max _) eqn:Hmax; simpl; [|done].
  destruct (0 <? s_score _) eqn:Hscore; simpl; [|done].
  destruct (Qle_bool _ _) eqn:Hq; [|done].
  intros [= <-]. simpl.
  apply Nat.ltb_lt in Hmax, Hscore. apply Qle_bool_iff in Hq.
  repeat split; done.
Qed.

End PatternsFacts.

(** ** The loop of the style detector *)

Module ArchitectureFacts.
Import Architecture.

Lemma filter_nonempty_length {A} (f : A -> bool) (l : list A) :
  List.filter f l <> [] -> List.length l <> 0.
Proof. destruct l; [done|]. simpl. lia. Qed.

(** What [detect_style] returns, case by case. *)
Lemma detect_style_cases style_name style_info combined :
  let found :=
    List.filter (fun indicator => Py.contains indicator combined)
      (indicators style_info) in
  let q := Z.of_nat (List.length found)
           # Pos.of_nat (List.length (indicators style_info)) in
  detect_style style_name style_info combined
  = Ok (if negb (Py.in_list style_name
                   ["Modular Monolith"; "Multi-Crate Workspace"])
           && negb (bool_decide (found = []))
           && Qle_bool (3 # 10) q
        then Some {| style := style_name; confidence := q;
                     evidence := found;
                     description_of := description style_info |}
        else None).
Proof.
  intros found q. unfold detect_style. fold found.
  destruct (Py.in_list style_name _); simpl; [reflexivity|].
  case_bool_decide as Hf; simpl.
  - rewrite Hf. reflexivity.
  - destruct found as [|x found'] eqn:E; [done|].
    rewrite truediv_ok.
    + subst q. cbv [mbind result_bind mret result_ret].
      destruct (Qle_bool _ _); reflexivity.
    + apply (filter_nonempty_length
               (fun indicator => Py.contains indicator combined)).
      fold found. by rewrite E.
Qed.

Lemma detect_loop_spec styles combined acc :
  exists ds,
    detect_loop styles combined acc = Ok (acc ++ ds)
    /\ forall d, In d ds <->
         exists style_name style_info,
           In (style_name, style_info) styles
           /\ detect_style style_name style_info combined = Ok (Some d).
Proof.
  revert acc. induction styles as [|[n info] styles IH]; intros acc; simpl.
  - exists []. rewrite app_nil_r. split; [done|].
    intros d; split; [done|]. by intros (? & ? & [] & _).
  - pose proof (detect_style_cases n info combined) as Hc.
    simpl in Hc. rewrite Hc. simpl.
    match goal with
    | |- context [if ?b then Some ?d else None] =>
        destruct b eqn:Hb; set (d0 := d) in *
    end.
    + destruct (IH (acc ++ [d0])) as (ds & Heq & Hin).
      exists (d0 :: ds). rewrite Heq, <- app_assoc. split; [done|].
      intros d; simpl; rewrite Hin. split.
      * intros [<-|(n' & info' & Hi & He)]; [by exists n, info; auto|].
        exists n', info'; auto.
      * intros (n' & info' & [Hi|Hi] & He).
        -- simplify_eq. rewrite Hc in He. left. congruence.
        -- right. by exists n', info'.
    + destruct (IH acc) as (ds & Heq & Hin).
      exists ds. split; [done|].
      intros d; rewrite Hin. split.
      * intros (n' & info' & Hi & He). exists n', info'; auto.
      * intros (n' & info' & [Hi|Hi] & He).
        -- simplify_eq. rewrite Hc in He. congruence.
        -- by exists n', info'.
Qed.

Lemma detect_style_sound style_name style_info combined d :
  detect_style style_name style_info combined = Ok (Some d) ->
  let found :=
    List.filter (fun indicator => Py.contains indicator combined)
      (indicators style_info) in
  style d = style_name
  /\ Py.in_list style_name ["Modular Monolith"; "Multi-Crate Workspace"]
     = false
  /\ confidence d = Z.of_nat (List.length found)
                    # Pos.of_nat (List.length (indicators style_info))
  /\ evidence d = found
  /\ found <> []
  /\ (3 # 10 <= confidence d)%Q.
Proof.
  rewrite detect_style_cases. cbv zeta.
  destruct (Py.in_list style_name
              ["Modular Monolith"; "Multi-Crate Workspace"]) eqn:Hskip;
    [done|].
  case_bool_decide as Hf; [done|].
  destruct (Qle_bool _ _) eqn:Hq; [|done].
  intros [= <-]. cbn [negb andb style confidence evidence].
  apply Qle_bool_iff in Hq. done.
Qed.

Lemma workspace_shape_sound styles w all_code ds :
  detect_workspace_shape styles w all_code = Ok ds ->
  (ds = [] /\
     (is_workspace w = true /\ default 0 (package_count w) <= 3
      \/ is_workspace w = false /\ module_count all_code <= 10))
  \/ (exists n descr,
        ds = [multi_crate n descr] /\ is_workspace w = true
        /\ package_count w = Some n /\ 3 < n)
  \/ (exists descr,
        ds = [monolith (module_count all_code) descr]
        /\ is_workspace w = false /\ 10 < module_count all_code).
Proof.
  unfold detect_workspace_shape.
  destruct (is_workspace w) eqn:Hw; simpl.
  - destruct (3 <? default 0 (package_count w)) eqn:Hp; simpl.
    + apply Nat.ltb_lt in Hp.
      destruct (package_count w) as [n|] eqn:Hn; simpl in *; [|lia].
      destruct (dict_item styles _) as [info|]; simpl; [|done].
      intros [= <-]. right; left. by exists n, (description info).
    + apply Nat.ltb_ge in Hp. intros [= <-]. left. split; [done|].
      left. done.
  - destruct (10 <? module_count all_code) eqn:Hm; simpl.
    + apply Nat.ltb_lt in Hm.
      destruct (dict_item styles _) as [info|]; simpl; [|done].
      intros [= <-]. right; right. by exists (description info).
    + apply Nat.ltb_ge in Hm. intros [= <-]. left. split; [done|].
      right. done.
Qed.

(** With both fixed styles in the table, the first block raises nothing. *)
Lemma workspace_shape_total styles w all_code :
  (exists i, dict_item styles "Multi-Crate Workspace" = Ok i) ->
  (exists i, dict_item styles "Modular Monolith" = Ok i) ->
  exists ds, detect_workspace_shape styles w all_code = Ok ds.
Proof.
  intros [i1 H1] [i2 H2]. unfold detect_workspace_shape.
  destruct (is_workspace w); simpl.
  - destruct (3 <? default 0 (package_count w)) eqn:Hp; simpl; [|eauto].
    apply Nat.ltb_lt in Hp.
    destruct (package_count w) as [n|]; simpl in *; [|lia].
    rewrite H1. simpl. eauto.
  - destruct (10 <? module_count all_code); simpl; [|eauto].
    rewrite H2. simpl. eauto.
Qed.

Lemma workspace_shape_error styles w all_code e :
  detect_workspace_shape styles w all_code = Err e -> exists k, e = KeyError k.
Proof.
  assert (Hd : forall k r, dict_item styles k = @Err StyleInfo r ->
                           exists k', r = KeyError k').
  { intros k r. induction styles as [|[k0 v] styles IH]; simpl.
    - intros [= <-]. eauto.
    - destruct (String.eqb k0 k); [done|apply IH]. }
  unfold detect_workspace_shape.
  destruct (is_workspace w); simpl.
  - destruct (3 <? _); simpl; [|done].
    destruct (package_count w); simpl; [|intros [= <-]; eauto].
    destruct (dict_item styles _) eqn:E; simpl; [done|].
    intros [= <-]. eauto.
  - destruct (10 <? _); simpl; [|done].
    destruct (dict_item styles _) eqn:E; simpl; [done|].
    intros [= <-]. eauto.
Qed.

(** The detections of [detect_with]: those of the first block and those of
    the loop. *)
Lemma detect_with_spec styles w all_code cargo ds :
  detect_with styles w all_code cargo = Ok ds ->
  exists shape,
    detect_workspace_shape styles w all_code = Ok shape
    /\ forall d, In d ds <->
         In d shape
         \/ exists style_name style_info,
              In (style_name, style_info) styles
              /\ detect_style style_name style_info (all_code +:+ cargo)
                 = Ok (Some d).
Proof.
  unfold detect_with.
  destruct (detect_workspace_shape styles w all_code) as [shape|] eqn:Hs;
    simpl; [|done].
  destruct (detect_loop_spec styles (all_code +:+ cargo) shape)
    as (ds' & Heq & Hin).
  rewrite Heq. simpl. intros [= <-]. exists shape. split; [done|].
  intros d. rewrite sort_desc_In, in_app_iff, Hin. done.
Qed.

Lemma detect_with_total styles w all_code cargo :
  (exists i, dict_item styles "Multi-Crate Workspace" = Ok i) ->
  (exists i, dict_item styles "Modular Monolith" = Ok i) ->
  exists ds, detect_with styles w all_code cargo = Ok ds.
Proof.
  intros H1 H2.
  destruct (workspace_shape_total styles w all_code H1 H2) as [shape Hs].
  destruct (detect_loop_spec styles (all_code +:+ cargo) shape)
    as (ds' & Heq & _).
  unfold detect_with. rewrite Hs. simpl. rewrite Heq. simpl. eauto.
Qed.

Lemma detect_with_error styles w all_code cargo e :
  detect_with styles w all_code cargo = Err e -> exists k, e = KeyError k.
Proof.
  unfold detect_with.
  destruct (detect_workspace_shape styles w all_code) as [shape|] eqn:Hs;
    simpl.
  - destruct (detect_loop_spec styles (all_code +:+ cargo) shape)
      as (ds' & Heq & _).
    rewrite Heq. done.
  - intros [= <-]. by eapply workspace_shape_error.
Qed.

Lemma detect_default_total w all_code cargo :
  exists ds, detect_with ARCHITECTURE_STYLES w all_code cargo = Ok ds.
Proof. apply detect_with_total; simpl; eauto. Qed.

(** A single-package project gets the "Modular Monolith" detection
    exactly when [module_count] exceeds 10. *)
Lemma monolith_iff_module_count styles w all_code cargo ds :
  is_workspace w = false ->
  detect_with styles w all_code cargo = Ok ds ->
  (exists d, In d ds /\ style d = "Modular Monolith")
  <-> 10 < module_count all_code.
Proof.
  intros Hw Hd. apply detect_with_spec in Hd as (shape & Hs & Hin).
  apply workspace_shape_sound in Hs
    as [[-> Hc]|[(n & descr & -> & Hw' & _)|(descr & -> & _ & Hm)]].
  - split.
    + intros (d & Hd & Hn). apply Hin in Hd as [[]|(n & info & _ & He)].
      apply detect_style_sound in He as (<- & Hskip & _).
      rewrite Hn in Hskip. done.
    + destruct Hc as [[Hw' _]|[_ Hc]]; [congruence|lia].
  - congruence.
  - split; [done|]. intros _. eexists. split; [apply Hin; left; by left|done].
Qed.

End ArchitectureFacts.

(* ===================================================================== *)
(** * Pattern and style detection: thresholds, bounds, evidence *)
(* ===================================================================== *)

Section DetectorClaims.
Import Patterns PatternsFacts Examples.

Lemma below_threshold_none pattern_name sig all_code cargo :
  (raw_confidence (score_signature sig all_code cargo) < 2 # 10)%Q ->
  analyze_signature pattern_name sig all_code cargo = Ok None.
Proof.
  intros Hlt. rewrite analyze_signature_cases. cbv zeta.
  fold (raw_confidence (score_signature sig all_code cargo)).
  set (q := raw_confidence _) in *.
  assert (Hmin : py_min q 1 = q).
  { unfold py_min. destruct (Qle_bool q 1) eqn:E; [done|].
    assert (q <= 1)%Q as Hq%Qle_bool_iff; [|congruence].
    apply Qlt_le_weak, (Qlt_trans _ (2 # 10)); done. }
  rewrite Hmin.
  destruct (Qle_bool (2 # 10) q) eqn:E.
  - apply Qle_bool_iff in E. by apply Qlt_not_le in Hlt.
  - by rewrite andb_false_r.
Qed.

Lemma analyze_with_all_none sigs all_code cargo :
  (forall n s, In (n, s) sigs ->
               analyze_signature n s all_code cargo = Ok None) ->
  analyze_with sigs all_code cargo = Ok [].
Proof.
  intros Hnone.
  destruct (analyze_with_spec sigs all_code cargo) as (ds & -> & Hin).
  destruct ds as [|d ds]; [done|].
  destruct (proj1 (Hin d) (or_introl eq_refl)) as (n & s & Hi & He).
  rewrite (Hnone n s Hi) in He. done.
Qed.

(** C1.  A signature whose only category is three keywords, two of which
    occur in the corpus, is detected with confidence 2/3, both by the loop
    body and in the list that the detector returns.  A signature whose
    ratio score/max_score is below 0.2 yields no detection, and a table
    of such signatures yields the empty list. *)
Theorem analyze_keyword_threshold :
  forall pattern_name sig all_code cargo,
    (forall k1 k2 k3,
        get_list (keywords sig) = [k1; k2; k3] ->
        get_list (imports sig) = [] ->
        get_list (patterns sig) = [] ->
        get_list (traits sig) = [] ->
        List.length (kw_hits sig all_code) = 2 ->
        let d := {| name := pattern_name;
                    confidence := 2 # 3;
                    evidence := List.map (fun kw => "keyword: " +:+ kw)
                                  (kw_hits sig all_code) |} in
        analyze_signature pattern_name sig all_code cargo = Ok (Some d)
        /\ forall sigs, In (pattern_name, sig) sigs ->
             exists ds, analyze_with sigs all_code cargo = Ok ds
                        /\ In d ds)
    /\ ((raw_confidence (score_signature sig all_code cargo) < 2 # 10)%Q ->
        analyze_signature pattern_name sig all_code cargo = Ok None)
    /\ (forall sigs,
           (forall n s, In (n, s) sigs ->
              (raw_confidence (score_signature s all_code cargo)
               < 2 # 10)%Q) ->
           analyze_with sigs all_code cargo = Ok []).
Proof.
  intros pattern_name sig all_code cargo. split; [|split].
  - intros k1 k2 k3 Hk Hi Hp Ht Hhits d.
    assert (Hsig : analyze_signature pattern_name sig all_code cargo
                   = Ok (Some d)).
    { rewrite analyze_signature_cases. cbv zeta.
      rewrite score_signature_max, score_signature_score,
        score_signature_evidence.
      unfold imp_hits, pat_hits, trait_hits.
      rewrite Hk, Hi, Hp, Ht, Hhits. simpl. by rewrite app_nil_r. }
    split; [done|].
    intros sigs Hin.
    destruct (analyze_with_spec sigs all_code cargo) as (ds & Heq & Hds).
    exists ds. split; [done|]. apply Hds. by exists pattern_name, sig.
  - apply below_threshold_none.
  - intros sigs Hall. apply analyze_with_all_none.
    intros n s Hin. by apply below_threshold_none, (Hall n).
Qed.

Lemma analyze_keyword_threshold_witness :
  analyze_with [("Builder", builder_keywords)]
    "struct FooBuilder; fn with_x(self) {}" ""
  = Ok [ {| name := "Builder"; confidence := 2 # 3;
            evidence := ["keyword: Builder"; "keyword: with_"] |} ]
  /\ analyze_signature "Actors" six_keywords "struct Actor;" "" = Ok None
  /\ analyze_with [("Actors", six_keywords)] "struct Actor;" "" = Ok [].
Proof.
  pose proof (analyze_keyword_threshold "Builder" builder_keywords
                "struct FooBuilder; fn with_x(self) {}" "") as [H1 _].
  pose proof (analyze_keyword_threshold "Actors" six_keywords
                "struct Actor;" "") as (_ & H2 & H3).
  split; [|split].
  - specialize (H1 "Builder" "build()" "with_" eq_refl eq_refl eq_refl
                  eq_refl eq_refl) as [_ H1].
    destruct (H1 [("Builder", builder_keywords)] (or_introl eq_refl))
      as (ds & Heq & _).
    rewrite Heq. f_equal. vm_compute in Heq. congruence.
  - apply H2. reflexivity.
  - apply H3. intros n s [[= <- <-]|[]]. reflexivity.
Defined.

(** C6.  A missing category leaves score and max_score as they were; a
    signature with every category missing or empty has max_score 0; a
    signature with max_score 0 is never detected, and the detector returns
    the same list with it in the table as without it; the detector never
    divides by zero: it returns a list for every signature table. *)
Theorem malformed_signature_contributes_nothing :
  forall pattern_name sig all_code cargo st,
    (keywords sig = None -> check_keywords sig all_code st = st)
    /\ (imports sig = None -> check_imports sig all_code cargo st = st)
    /\ (patterns sig = None -> check_patterns sig all_code st = st)
    /\ (traits sig = None -> check_traits sig all_code st = st)
    /\ (get_list (keywords sig) = [] -> get_list (imports sig) = [] ->
        get_list (patterns sig) = [] -> get_list (traits sig) = [] ->
        s_max (score_signature sig all_code cargo) = 0)
    /\ (s_max (score_signature sig all_code cargo) = 0 ->
        analyze_signature pattern_name sig all_code cargo = Ok None
        /\ forall sigs,
             analyze_with ((pattern_name, sig) :: sigs) all_code cargo
             = analyze_with sigs all_code cargo)
    /\ (exists o,
          analyze_signature pattern_name sig all_code cargo = Ok o)
    /\ (forall sigs, exists ds, analyze_with sigs all_code cargo = Ok ds).
Proof.
  intros pattern_name sig all_code cargo st.
  assert (Hzero : s_max (score_signature sig all_code cargo) = 0 ->
                  analyze_signature pattern_name sig all_code cargo
                  = Ok None).
  { intros H0. rewrite analyze_signature_cases. cbv zeta. by rewrite H0. }
  split_and!.
  - unfold check_keywords. by intros ->.
  - unfold check_imports. by intros ->.
  - unfold check_patterns. by intros ->.
  - unfold check_traits. by intros ->.
  - intros Hk Hi Hp Ht. rewrite score_signature_max, Hk, Hi, Hp, Ht. done.
  - intros H0. split; [by apply Hzero|].
    intros sigs. unfold analyze_with. simpl. by rewrite (Hzero H0).
  - rewrite analyze_signature_cases. eauto.
  - intros sigs.
    destruct (analyze_with_spec sigs all_code cargo) as (ds & Heq & _).
    eauto.
Qed.

Lemma malformed_signature_contributes_nothing_witness :
  check_keywords no_categories "fn main() {}"
    {| s_evidence := []; s_score := 0; s_max := 0 |}
  = {| s_evidence := []; s_score := 0; s_max := 0 |}
  /\ s_max (score_signature no_categories "fn main() {}" "") = 0
  /\ analyze_signature "Empty" no_categories "fn main() {}" "" = Ok None.
Proof.
  destruct (malformed_signature_contributes_nothing "Empty" no_categories
              "fn main() {}" ""
              {| s_evidence := []; s_score := 0; s_max := 0 |})
    as (Hk & _ & _ & _ & Hmax & Hnone & _).
  split; [|split].
  - apply Hk. reflexivity.
  - apply Hmax; reflexivity.
  - apply Hnone. apply Hmax; reflexivity.
Defined.

Lemma pattern_detection_ok pattern_name sig all_code cargo d :
  analyze_signature pattern_name sig all_code cargo = Ok (Some d) ->
  (0 <= confidence d <= 1)%Q /\ evidence d <> [].
Proof.
  intros H. apply detection_sound in H as (_ & Hc & He & Hmax & Hs & _).
  rewrite Hc, He. split; [split|].
  - apply py_min_nonneg; [apply ratio_nonneg|done].
  - apply py_min_le_r.
  - by apply score_pos_evidence.
Qed.

Lemma style_detection_ok style_name style_info combined d :
  Architecture.detect_style style_name style_info combined = Ok (Some d) ->
  (0 <= Architecture.confidence d <= 1)%Q /\ Architecture.evidence d <> [].
Proof.
  intros H.
  apply ArchitectureFacts.detect_style_sound in H
    as (_ & _ & Hc & He & Hne & _).
  rewrite Hc, He. split; [split|done].
  - apply ratio_nonneg.
  - apply ratio_le_1; [apply filter_length_le|].
    by eapply ArchitectureFacts.filter_nonempty_length.
Qed.

Lemma shape_detection_ok styles w all_code shape d :
  Architecture.detect_workspace_shape styles w all_code = Ok shape ->
  In d shape ->
  (0 <= Architecture.confidence d <= 1)%Q /\ Architecture.evidence d <> [].
Proof.
  intros H Hd.
  apply ArchitectureFacts.workspace_shape_sound in H
    as [[-> _]|[(n & descr & -> & _)|(descr & -> & _)]].
  - done.
  - destruct Hd as [<-|[]]. done.
  - destruct Hd as [<-|[]]. done.
Qed.

Lemma analyze_with_Forall (P : Detection -> Prop) sigs all_code cargo :
  (forall n s d,
      In (n, s) sigs ->
      analyze_signature n s all_code cargo = Ok (Some d) -> P d) ->
  exists ds, analyze_with sigs all_code cargo = Ok ds /\ List.Forall P ds.
Proof.
  intros HP.
  destruct (analyze_with_spec sigs all_code cargo) as (ds & Heq & Hin).
  exists ds. split; [done|]. apply List.Forall_forall.
  intros d Hd. apply Hin in Hd as (n & s & Hi & He). by eapply HP.
Qed.

Lemma detect_with_Forall (P : Architecture.Detection -> Prop)
      styles w all_code cargo :
  (forall shape d,
      Architecture.detect_workspace_shape styles w all_code = Ok shape ->
      In d shape -> P d) ->
  (forall n i d,
      In (n, i) styles ->
      Architecture.detect_style n i (all_code +:+ cargo) = Ok (Some d) ->
      P d) ->
  match Architecture.detect_with styles w all_code cargo with
  | Ok ds => List.Forall P ds
  | Err e => exists k, e = KeyError k
  end.
Proof.
  intros Hshape Hstyle.
  destruct (Architecture.detect_with styles w all_code cargo) as [ds|e]
    eqn:Hd.
  - apply ArchitectureFacts.detect_with_spec in Hd as (shape & Hs & Hin).
    apply List.Forall_forall. intros d Hd.
    apply Hin in Hd as [Hd|(n & i & Hi & He)].
    + by eapply Hshape.
    + by eapply Hstyle.
  - by eapply ArchitectureFacts.detect_with_error.
Qed.

Lemma detect_default_Forall (P : Architecture.Detection -> Prop) p :
  match Architecture.detect_with Architecture.ARCHITECTURE_STYLES
          (Architecture.analyze_workspace p) (collect_code p) (read_cargo p)
  with
  | Ok ds => List.Forall P ds
  | Err e => exists k, e = KeyError k
  end ->
  exists ds,
    Architecture.detect_architecture_style p = Ok ds /\ List.Forall P ds.
Proof.
  unfold Architecture.detect_architecture_style.
  destruct (ArchitectureFacts.detect_default_total
              (Architecture.analyze_workspace p) (collect_code p)
              (read_cargo p)) as [ds Heq].
  rewrite Heq. by exists ds.
Qed.

(** C2.  Every detection of the pattern detector has a confidence in
    [0,1], for every signature table; so has every detection of the style
    detector, from the generic loop and from both workspace-shape
    heuristics, for every style table (the only failure a table can
    cause is a missing key).  On a project both detectors return such a
    list. *)
Theorem confidence_in_unit_interval :
  (forall sigs all_code cargo,
      exists ds,
        analyze_with sigs all_code cargo = Ok ds
        /\ List.Forall (fun d => (0 <= confidence d <= 1)%Q) ds)
  /\ (forall styles w all_code cargo,
        match Architecture.detect_with styles w all_code cargo with
        | Ok ds =>
            List.Forall
              (fun d => (0 <= Architecture.confidence d <= 1)%Q) ds
        | Err e => exists k, e = KeyError k
        end)
  /\ (forall p,
        exists ds,
          analyze p = Ok ds
          /\ List.Forall (fun d => (0 <= confidence d <= 1)%Q) ds)
  /\ (forall p,
        exists ds,
          Architecture.detect_architecture_style p = Ok ds
          /\ List.Forall
               (fun d => (0 <= Architecture.confidence d <= 1)%Q) ds).
Proof.
  assert (Hsigs : forall sigs all_code cargo,
             exists ds,
               analyze_with sigs all_code cargo = Ok ds
               /\ List.Forall (fun d => (0 <= confidence d <= 1)%Q) ds).
  { intros sigs all_code cargo. apply analyze_with_Forall.
    intros n s d _ He. by eapply pattern_detection_ok. }
  assert (Hstyles : forall styles w all_code cargo,
             match Architecture.detect_with styles w all_code cargo with
             | Ok ds =>
                 List.Forall
                   (fun d => (0 <= Architecture.confidence d <= 1)%Q) ds
             | Err e => exists k, e = KeyError k
             end).
  { intros styles w all_code cargo. apply detect_with_Forall.
    - intros shape d Hs Hd. by eapply shape_detection_ok.
    - intros n i d _ He. by eapply style_detection_ok. }
  split_and!; [done|done| |].
  - intros p. apply Hsigs.
  - intros p. apply detect_default_Forall, Hstyles.
Qed.

Lemma pattern_detection_backed sigs n sig all_code cargo d :
  In (n, sig) sigs ->
  analyze_signature n sig all_code cargo = Ok (Some d) ->
  backed_by_hits sigs all_code cargo d.
Proof.
  intros Hin He. split; [by eapply pattern_detection_ok|].
  apply detection_sound in He as (Hn & _ & Hev & _ & Hs & _).
  exists n, sig. split_and!; [done|done| |].
  - by rewrite Hev, score_signature_evidence.
  - rewrite score_signature_score in Hs. unfold some_hit.
    destruct (kw_hits sig all_code); [|by left].
    destruct (imp_hits sig all_code cargo); [|by right; left].
    destruct (pat_hits sig all_code); [|by right; right; left].
    destruct (trait_hits sig all_code); [|by right; right; right].
    simpl in Hs. lia.
Qed.

Lemma style_detection_backed styles w all_code cargo :
  match Architecture.detect_with styles w all_code cargo with
  | Ok ds =>
      List.Forall
        (Architecture.backed_by_indicators styles all_code cargo) ds
  | Err e => exists k, e = KeyError k
  end.
Proof.
  apply detect_with_Forall.
  - intros shape d Hs Hd. split; [by eapply shape_detection_ok|].
    apply ArchitectureFacts.workspace_shape_sound in Hs
      as [[-> _]|[(n & descr & -> & _)|(descr & -> & _)]].
    + done.
    + destruct Hd as [<-|[]]. left. by exists n, descr.
    + destruct Hd as [<-|[]]. right. left. by exists descr.
  - intros n i d Hin He. split; [by eapply style_detection_ok|].
    apply ArchitectureFacts.detect_style_sound in He
      as (Hn & _ & _ & Hev & _).
    right. right. by exists n, i.
Qed.

(** C9.  Every detection of either detector carries at least one line of
    evidence.  A pattern detection comes from a signature with at least
    one matched keyword, import, structural pattern or trait, and its
    evidence is the lines of those matches; a style detection is one of the
    two workspace-shape heuristics with its own evidence line, or comes
    from a style whose found indicators, at least one, are its evidence. *)
Theorem detections_carry_evidence :
  (forall sigs all_code cargo,
      exists ds,
        analyze_with sigs all_code cargo = Ok ds
        /\ List.Forall (backed_by_hits sigs all_code cargo) ds)
  /\ (forall styles w all_code cargo,
        match Architecture.detect_with styles w all_code cargo with
        | Ok ds =>
      List.Forall
        (Architecture.backed_by_indicators styles all_code cargo) ds
        | Err e => exists k, e = KeyError k
        end)
  /\ (forall p,
        exists ds,
          analyze p = Ok ds
          /\ List.Forall (fun d => evidence d <> []) ds)
  /\ (forall p,
        exists ds,
          Architecture.detect_architecture_style p = Ok ds
          /\ List.Forall (fun d => Architecture.evidence d <> []) ds).
Proof.
  split_and!.
  - intros sigs all_code cargo. apply analyze_with_Forall.
    intros n s d Hin He. by eapply pattern_detection_backed.
  - apply style_detection_backed.
  - intros p. apply analyze_with_Forall.
    intros n s d _ He. by eapply pattern_detection_ok.
  - intros p. apply detect_default_Forall, detect_with_Forall.
    + intros shape d Hs Hd. by eapply shape_detection_ok.
    + intros n i d _ He. by eapply style_detection_ok.
Qed.

(** A workspace of five packages is reported as a multi-crate workspace
    with confidence 0.9. *)
Example five_packages_multi_crate :
  Architecture.detect_architecture_style five_packages
  = Ok [ {| Architecture.style := "Multi-Crate Workspace";
            Architecture.confidence := 9 # 10;
            Architecture.evidence := ["Workspace with 5 packages"];
            Architecture.description_of :=
              "Multiple crates in a workspace, each with specific responsibility"
         |} ].
Proof. vm_compute. reflexivity. Qed.

(** C3.  On a single-package crate with six [pub mod] declarations the
    detector counts twelve: every [pub mod] is counted once as ["mod "]
    and once more as ["pub mod "].  It reports the style with the
    evidence "12+ module declarations", although the corpus declares six
    modules. *)
Theorem modular_monolith_counts_pub_mod_twice :
  Py.count (collect_code six_module_crate) "mod " = 6
  /\ Py.count (collect_code six_module_crate) "pub mod " = 6
  /\ Architecture.module_count (collect_code six_module_crate) = 12
  /\ Architecture.is_workspace
       (Architecture.analyze_workspace six_module_crate) = false
  /\ Architecture.detect_architecture_style six_module_crate
     = Ok [ {| Architecture.style := "Modular Monolith";
               Architecture.confidence := 7 # 10;
               Architecture.evidence :=
                 ["Single crate with 12+ module declarations"];
               Architecture.description_of :=
                 "Single crate with well-organized internal modules by domain"
            |} ].
Proof. vm_compute. repeat split. Qed.

End DetectorClaims.

(* ===================================================================== *)
(** * Entity extraction *)
(* ===================================================================== *)

Lemma in_list_In (x : string) (l : list string) :
  Py.in_list x l = true <-> In x l.
Proof.
  unfold Py.in_list. rewrite existsb_exists. split.
  - intros (y & Hy & He). apply String.eqb_eq in He. by subst.
  - intros Hx. exists x. split; [done|]. apply String.eqb_refl.
Qed.

Lemma in_list_not_In (x : string) (l : list string) :
  Py.in_list x l = false <-> ~ In x l.
Proof.
  rewrite <- in_list_In. destruct (Py.in_list x l); split; done.
Qed.

Module KnowledgeGraphFacts.
Import KnowledgeGraph.

Lemma entity_of_match_kept content file_path entity_type m e :
  entity_of_match content file_path entity_type m = Some e ->
  ~ In (node_name e) excluded_names
  /\ node_id e = node_name e
  /\ node_module e = file_path
  /\ node_type e = entity_type.
Proof.
  unfold entity_of_match.
  destruct (Py.in_list (Re.group 1 m) excluded_names) eqn:Hx; [done|].
  intros [= <-]. simpl. by apply in_list_not_In in Hx.
Qed.

Lemma extract_entities_origin content file_path e :
  In e (_extract_entities content file_path) ->
  exists entity_type pattern m,
    In (entity_type, pattern) entity_patterns
    /\ In m (Re.finditer pattern content)
    /\ entity_of_match content file_path entity_type m = Some e.
Proof.
  unfold _extract_entities. rewrite in_flat_map.
  intros ([entity_type pattern] & Hp & He).
  apply list_elem_of_In, list_elem_of_omap in He as (m & Hm & He).
  apply list_elem_of_In in Hm. by exists entity_type, pattern, m.
Qed.

Lemma extract_entities_kept content file_path e :
  In e (_extract_entities content file_path) ->
  ~ In (node_name e) excluded_names
  /\ node_id e = node_name e
  /\ node_module e = file_path.
Proof.
  intros (t & r & m & _ & _ & He)%extract_entities_origin.
  apply entity_of_match_kept in He. tauto.
Qed.


(** *** First-seen selection *)

Lemma first_seen_from_app seen l1 l2 :
  first_seen_from seen (l1 ++ l2)
  = first_seen_from seen l1
    ++ first_seen_from
         (seen ++ List.map node_name (first_seen_from seen l1)) l2.
Proof.
  revert seen. induction l1 as [|e l1 IH]; intros seen; simpl.
  - by rewrite app_nil_r.
  - destruct (Py.in_list (node_name e) seen); [apply IH|].
    simpl. rewrite IH. by rewrite <- app_assoc.
Qed.

Lemma first_seen_from_In seen l n :
  In n (first_seen_from seen l) <->
  exists before after,
    l = before ++ n :: after
    /\ ~ In (node_name n) (seen ++ List.map node_name before).
Proof.
  revert seen. induction l as [|e l IH]; intros seen; simpl.
  - split; [done|]. intros ([|? ?] & ? & ? & _); done.
  - destruct (Py.in_list (node_name e) seen) eqn:Hseen.
    + apply in_list_In in Hseen. rewrite IH. split.
      * intros (before & after & -> & Hn). exists (e :: before), after.
        split; [done|]. simpl. rewrite in_app_iff in *. simpl.
        intros [H|[H|H]]; [tauto| |tauto].
        apply Hn. left. by rewrite <- H.
      * intros ([|e' before] & after & Heq & Hn); simplify_eq/=.
        -- rewrite app_nil_r in Hn. done.
        -- exists before, after. split; [done|].
           rewrite in_app_iff in *. simpl in Hn. tauto.
    + apply in_list_not_In in Hseen. simpl. rewrite IH. split.
      * intros [<-|(before & after & -> & Hn)].
        -- exists [], l. by rewrite app_nil_r.
        -- exists (e :: before), after. split; [done|].
           simpl. rewrite !in_app_iff in *. simpl in *. tauto.
      * intros ([|e' before] & after & Heq & Hn); simplify_eq/=.
        -- by left.
        -- right. exists before, after. split; [done|].
           rewrite !in_app_iff in *. simpl in *. tauto.
Qed.

Lemma first_seen_from_fresh seen l n :
  In n (first_seen_from seen l) -> ~ In (node_name n) seen.
Proof.
  intros (before & after & _ & Hn)%first_seen_from_In.
  rewrite in_app_iff in Hn. tauto.
Qed.

Lemma first_seen_from_NoDup seen l :
  List.NoDup (List.map node_name (first_seen_from seen l)).
Proof.
  revert seen. induction l as [|e l IH]; intros seen; simpl.
  - constructor.
  - destruct (Py.in_list (node_name e) seen); [apply IH|].
    simpl. constructor; [|apply IH].
    rewrite in_map_iff. intros (n & Hname & Hn).
    apply first_seen_from_fresh in Hn. apply Hn.
    rewrite in_app_iff. right. left. done.
Qed.

(** *** The file loop *)

Lemma fold_add_entity_spec es b :
  map_tracks b ->
  let b' := fold_left add_entity es b in
  map_tracks b'
  /\ b_nodes b'
     = b_nodes b ++ first_seen_from (List.map node_name (b_nodes b)) es
  /\ b_edges b' = b_edges b.
Proof.
  revert b. induction es as [|e es IH]; intros b Hb; simpl.
  - by rewrite app_nil_r.
  - unfold add_entity at 2 4 6.
    destruct (b_map b !! node_name e) as [e0|] eqn:Hlook.
    + assert (Py.in_list (node_name e) (List.map node_name (b_nodes b))
              = true) as ->.
      { apply in_list_In, Hb. by rewrite Hlook. }
      by apply IH.
    + assert (Py.in_list (node_name e) (List.map node_name (b_nodes b))
              = false) as ->.
      { apply in_list_not_In. rewrite <- (Hb (node_name e)), Hlook.
        by intros [? ?]. }
      set (b1 := {| b_nodes := b_nodes b ++ [e]; b_edges := b_edges b;
                    b_map := <[node_name e := e]> (b_map b) |}).
      assert (Hb1 : map_tracks b1).
      { intros k. simpl. rewrite map_app, in_app_iff. simpl.
        destruct (decide (node_name e = k)) as [<-|Hne].
        - rewrite lookup_insert_eq. split; [tauto|]. by eexists.
        - rewrite lookup_insert_ne by done. rewrite (Hb k). tauto. }
      destruct (IH b1 Hb1) as (Ht & Hn & He).
      split; [done|]. split; [|done].
      rewrite Hn. simpl. rewrite map_app. simpl.
      by rewrite <- app_assoc.
Qed.

Lemma add_file_spec b rs_file :
  map_tracks b ->
  let b' := add_file b rs_file in
  map_tracks b'
  /\ b_nodes b'
     = b_nodes b
       ++ first_seen_from (List.map node_name (b_nodes b))
            (file_entities rs_file).
Proof.
  intros Hb. unfold add_file, file_entities.
  destruct (Py.in_list "target" (parts rs_file)).
  { simpl. by rewrite app_nil_r. }
  destruct (text rs_file) as [content|].
  2:{ simpl. by rewrite app_nil_r. }
  destruct (fold_add_entity_spec
              (_extract_entities content (rel_path rs_file)) b Hb)
    as (Ht & Hn & _).
  simpl. split; [|done]. intros k. apply Ht.
Qed.

Lemma fold_add_file_spec files b :
  map_tracks b ->
  let b' := fold_left add_file files b in
  map_tracks b'
  /\ b_nodes b'
     = b_nodes b
       ++ first_seen_from (List.map node_name (b_nodes b))
            (List.flat_map file_entities files).
Proof.
  revert b. induction files as [|f files IH]; intros b Hb; simpl.
  - by rewrite app_nil_r.
  - destruct (add_file_spec b f Hb) as (Hb1 & Hn1).
    destruct (IH _ Hb1) as (Ht & Hn).
    split; [done|]. rewrite Hn, Hn1, first_seen_from_app.
    by rewrite map_app, <- app_assoc.
Qed.

Lemma fold_add_file_skipped files b :
  List.Forall skipped files -> fold_left add_file files b = b.
Proof.
  induction 1 as [|f files Hf _ IH]; simpl; [done|].
  rewrite <- IH at 2. f_equal. unfold add_file.
  destruct Hf as [-> | ->]; [done|].
  by destruct (Py.in_list "target" (parts f)).
Qed.

Lemma candidates_kept p e :
  In e (candidates p) ->
  ~ In (node_name e) excluded_names /\ node_id e = node_name e.
Proof.
  unfold candidates. rewrite in_flat_map. intros (f & _ & He).
  unfold file_entities in He.
  destruct (Py.in_list "target" (parts f)); [done|].
  destruct (text f); [|done].
  apply extract_entities_kept in He. tauto.
Qed.

Lemma build_nodes_first_seen p :
  nodes (build_knowledge_graph p) = first_seen (candidates p).
Proof.
  unfold build_knowledge_graph. simpl.
  set (b0 := {| b_nodes := []; b_edges := []; b_map := ∅ |}).
  assert (Hb0 : map_tracks b0).
  { intros k. simpl. rewrite lookup_empty. split; [by intros [? ?]|done]. }
  by destruct (fold_add_file_spec (rs_files p) b0 Hb0) as (_ & ->).
Qed.

(** *** Clusters *)

Lemma fold_add_to_cluster_lookup nodes (m : gmap string (list string)) k :
  fold_left add_to_cluster nodes m !! k
  = match List.filter
            (fun n => String.eqb (layer_of (node_module n)) k) nodes with
    | [] => m !! k
    | n :: ns => Some (default [] (m !! k) ++ List.map node_id (n :: ns))
    end.
Proof.
  revert m. induction nodes as [|n nodes IH]; intros m; simpl; [done|].
  rewrite IH. unfold add_to_cluster at 1 2.
  destruct (String.eqb (layer_of (node_module n)) k) eqn:Hk.
  - apply String.eqb_eq in Hk. subst k. rewrite lookup_insert_eq. simpl.
    destruct (List.filter _ nodes); simpl; [done|].
    by rewrite <- app_assoc.
  - apply String.eqb_neq in Hk. by rewrite lookup_insert_ne.
Qed.

Lemma cluster_lookup_In nodes k ids i :
  fold_left add_to_cluster nodes ∅ !! k = Some ids ->
  In i ids <->
  exists n, In n nodes /\ node_id n = i /\ layer_of (node_module n) = k.
Proof.
  rewrite fold_add_to_cluster_lookup, lookup_empty.
  destruct (List.filter _ nodes) as [|n0 ns] eqn:Hf; [done|].
  intros [= <-].
  change (node_id n0 :: List.map node_id ns)
    with (List.map node_id (n0 :: ns)).
  rewrite <- Hf, in_map_iff. split.
  - intros (n & Hid & Hn). apply filter_In in Hn as [Hn Hk].
    apply String.eqb_eq in Hk. by exists n.
  - intros (n & Hn & Hid & Hk). exists n. split; [done|].
    apply filter_In. split; [done|]. by apply String.eqb_eq.
Qed.

Lemma cluster_lookup_node nodes n :
  In n nodes ->
  exists ids,
    fold_left add_to_cluster nodes ∅ !! layer_of (node_module n) = Some ids
    /\ In (node_id n) ids.
Proof.
  intros Hn. rewrite fold_add_to_cluster_lookup, lookup_empty.
  assert (Hin : In n (List.filter
                        (fun n' => String.eqb (layer_of (node_module n'))
                                     (layer_of (node_module n))) nodes)).
  { apply filter_In. split; [done|]. apply String.eqb_refl. }
  destruct (List.filter _ nodes) as [|n0 ns] eqn:Hf; [done|].
  eexists. split; [done|]. rewrite in_app_iff. right. by apply in_map.
Qed.

Lemma sorted_set_In i ids : In i (sorted_set ids) <-> In i ids.
Proof.
  unfold sorted_set. rewrite <- !list_elem_of_In.
  by rewrite merge_sort_Permutation, elem_of_remove_dups.
Qed.

Lemma identify_clusters_In nodes edges c :
  In c (_identify_clusters nodes edges) <->
  exists ids,
    fold_left add_to_cluster nodes ∅ !! cluster_name c = Some ids
    /\ cluster_nodes c = sorted_set ids.
Proof.
  unfold _identify_clusters, sorted_items. rewrite in_map_iff. split.
  - intros ([name ids] & <- & Hin). simpl. exists ids. split; [|done].
    apply list_elem_of_In in Hin. rewrite merge_sort_Permutation in Hin.
    by apply elem_of_map_to_list in Hin.
  - intros (ids & Hl & Hc). exists (cluster_name c, ids). split.
    + destruct c. simpl in *. by subst.
    + apply list_elem_of_In. rewrite merge_sort_Permutation.
      by apply elem_of_map_to_list.
Qed.

Lemma identify_clusters_names_NoDup nodes edges :
  List.NoDup (List.map cluster_name (_identify_clusters nodes edges)).
Proof.
  unfold _identify_clusters, sorted_items. rewrite map_map.
  set (m := fold_left add_to_cluster nodes ∅).
  apply NoDup_ListNoDup.
  assert (Heq : List.map
                  (fun x : string * list string =>
                     cluster_name
                       (let '(name, node_ids) := x in
                        {| cluster_name := name;
                           cluster_nodes := sorted_set node_ids |}))
                  (merge_sort item_le (map_to_list m))
                = (merge_sort item_le (map_to_list m)).*1).
  { induction (merge_sort item_le (map_to_list m)) as [|[? ?] l IH];
      simpl; [done|]. by rewrite IH. }
  rewrite Heq, merge_sort_Permutation. apply NoDup_fst_map_to_list.
Qed.


(** *** Layers *)

Lemma layer_of_mentions module :
  layer_of module
  = if mentions module ["domain"; "entity"; "model"] then "Domain Layer"
    else if mentions module ["service"; "application"; "handler"]
    then "Application Layer"
    else if mentions module ["repo"; "db"; "storage"]
    then "Infrastructure Layer"
    else if mentions module ["api"; "http"; "web"] then "Interface Layer"
    else if mentions module ["util"; "common"; "helper"] then "Utilities"
    else
      let parts := Py.split_chr "/" module in
      if 1 <? List.length parts then
        "Module: " +:+
          (if Py.endswith (last1 parts) ".rs" then last2 parts
           else last1 parts)
      else "Core".
Proof.
  unfold layer_of, mentions. simpl existsb.
  by rewrite !orb_false_r, !orb_assoc.
Qed.

Lemma last1_snoc l x : last1 (l ++ [x]) = x.
Proof. apply last_last. Qed.

Lemma last2_snoc2 l x y : last2 (l ++ [x; y]) = x.
Proof.
  unfold last2.
  replace (l ++ [x; y]) with ((l ++ [x]) ++ [y])
    by (by rewrite <- app_assoc).
  rewrite removelast_last. apply last_last.
Qed.

End KnowledgeGraphFacts.

Module ApiSurfaceFacts.
Import ApiSurface.

Lemma item_of_match_kept content file_path item_type m i :
  item_of_match content file_path item_type m = Some i ->
  ~ In (name i) excluded_names.
Proof.
  unfold item_of_match.
  destruct (Py.in_list (Re.group 2 m) excluded_names) eqn:Hx; [done|].
  intros [= <-]. simpl. by apply in_list_not_In in Hx.
Qed.

Lemma extract_pub_items_kept content file_path i :
  In i (_extract_pub_items content file_path) ->
  ~ In (name i) excluded_names.
Proof.
  unfold _extract_pub_items. rewrite in_map_iff.
  intros (i0 & Hi & Hin).
  assert (Hname : name i = name i0).
  { subst i. by destruct (_ !! _). }
  rewrite Hname. apply in_flat_map in Hin as ([t r] & _ & Hin).
  apply list_elem_of_In, list_elem_of_omap in Hin as (m & _ & Hm).
  by eapply item_of_match_kept.
Qed.

End ApiSurfaceFacts.

Section ExtractionClaims.

(** C4, as the code has it.  The knowledge-graph extractor never yields
    an entity named self, Self, new, default, from or into; the
    API-surface extractor never yields an item named self, Self, crate or
    super.  So neither yields self or Self, whatever visibility the
    declaration was matched with. *)
Theorem extractors_drop_their_excluded_names :
  forall content file_path,
    List.Forall
      (fun e =>
         ~ In (KnowledgeGraph.node_name e)
             ["self"; "Self"; "new"; "default"; "from"; "into"])
      (KnowledgeGraph._extract_entities content file_path)
    /\ List.Forall
         (fun i => ~ In (ApiSurface.name i)
                      ["self"; "Self"; "crate"; "super"])
         (ApiSurface._extract_pub_items content file_path)
    /\ List.Forall
         (fun e => KnowledgeGraph.node_name e <> "self"
                   /\ KnowledgeGraph.node_name e <> "Self")
         (KnowledgeGraph._extract_entities content file_path)
    /\ List.Forall
         (fun i => ApiSurface.name i <> "self"
                   /\ ApiSurface.name i <> "Self")
         (ApiSurface._extract_pub_items content file_path).
Proof.
  intros content file_path. split_and!; apply List.Forall_forall.
  - intros e He. apply KnowledgeGraphFacts.extract_entities_kept in He
      as [Hx _]. exact Hx.
  - intros i Hi. apply ApiSurfaceFacts.extract_pub_items_kept in Hi.
    exact Hi.
  - intros e He. apply KnowledgeGraphFacts.extract_entities_kept in He
      as [Hx _].
    split; intros Heq; apply Hx; rewrite Heq; simpl; tauto.
  - intros i Hi. apply ApiSurfaceFacts.extract_pub_items_kept in Hi.
    split; intros Heq; apply Hi; rewrite Heq; simpl; tauto.
Qed.

(** C4 as stated fails: the knowledge-graph extractor yields an entity
    named as_ref, and the API-surface extractor an item named new. *)
Lemma extractors_keep_noisy_names :
  KnowledgeGraph._extract_entities "pub fn as_ref(&self) {}" "src/lib.rs"
  = [ {| KnowledgeGraph.node_id := "as_ref";
         KnowledgeGraph.node_name := "as_ref";
         KnowledgeGraph.node_type := "fn";
         KnowledgeGraph.node_module := "src/lib.rs";
         KnowledgeGraph.node_visibility := "pub" |} ]
  /\ List.map ApiSurface.name
       (ApiSurface._extract_pub_items "pub fn new() {}" "src/lib.rs")
     = ["new"]
  /\ ~ (forall content file_path,
          List.Forall
            (fun e => ~ In (KnowledgeGraph.node_name e) noisy_identifiers)
            (KnowledgeGraph._extract_entities content file_path)
          /\ List.Forall
               (fun i => ~ In (ApiSurface.name i) noisy_identifiers)
               (ApiSurface._extract_pub_items content file_path)).
Proof.
  split_and!.
  - vm_compute. reflexivity.
  - vm_compute. reflexivity.
  - intros H.
    destruct (H "pub fn as_ref(&self) {}" "src/lib.rs") as [H1 _].
    vm_compute in H1. inversion H1 as [|? ? Hn _]. apply Hn. tauto.
Qed.

End ExtractionClaims.

(* ===================================================================== *)
(** * The knowledge graph *)
(* ===================================================================== *)

Section GraphClaims.
Import KnowledgeGraph KnowledgeGraphFacts Examples.

Lemma first_occurrence (l : list Entity) (e : Entity) :
  In e l ->
  exists before n after,
    l = before ++ n :: after
    /\ node_name n = node_name e
    /\ ~ In (node_name e) (List.map node_name before).
Proof.
  induction l as [|x l IH]; [done|].
  intros Hin.
  destruct (decide (node_name x = node_name e)) as [Heq|Hne].
  - exists [], x, l. simpl. tauto.
  - destruct Hin as [->|Hin]; [done|].
    destruct (IH Hin) as (before & n & after & -> & Hn & Hfresh).
    exists (x :: before), n, after. split; [done|]. split; [done|].
    simpl. tauto.
Qed.

(** Two structs, the first with a field of the second's type: both are
    nodes, and the field is a [references] edge from the placeholder
    [field_usage]. *)
Example foo_bar_graph :
  List.map (fun n => (node_name n, node_type n, node_visibility n))
    (nodes (build_knowledge_graph foo_bar))
  = [("Foo", "struct", "pub"); ("Bar", "struct", "pub")]
  /\ edges (build_knowledge_graph foo_bar)
     = [ {| edge_from := "field_usage"; edge_to := "Bar";
            relationship := "references"; source := "src/lib.rs" |} ]
  /\ List.map cluster_name (clusters (build_knowledge_graph foo_bar))
     = ["Module: src"].
Proof. vm_compute. repeat split. Qed.

(** C10.  The nodes of the graph are the first-seen selection of the
    candidate entities, taken in file order and then pattern order: a
    candidate is a node exactly when no earlier candidate has its name,
    it is kept as extracted, every candidate's name has a node, and no two
    nodes share an id. *)
Theorem graph_nodes_are_first_seen :
  forall p,
    let g := build_knowledge_graph p in
    nodes g = first_seen (candidates p)
    /\ List.NoDup (List.map node_id (nodes g))
    /\ (forall n,
          In n (nodes g) <->
          exists before after,
            candidates p = before ++ n :: after
            /\ ~ In (node_name n) (List.map node_name before))
    /\ (forall e,
          In e (candidates p) ->
          exists n, In n (nodes g) /\ node_id n = node_name e).
Proof.
  intros p g. subst g. rewrite build_nodes_first_seen. unfold first_seen.
  assert (Hin : forall n,
             In n (first_seen_from [] (candidates p)) <->
             exists before after,
               candidates p = before ++ n :: after
               /\ ~ In (node_name n) (List.map node_name before)).
  { intros n. by rewrite first_seen_from_In. }
  split_and!; [done| |done|].
  - assert (Hids : List.map node_id (first_seen_from [] (candidates p))
                   = List.map node_name
                       (first_seen_from [] (candidates p))).
    { apply map_ext_in. intros n (before & after & Heq & _)%Hin.
      apply (candidates_kept p). rewrite Heq, in_app_iff. right. by left. }
    rewrite Hids. apply first_seen_from_NoDup.
  - intros e He.
    destruct (first_occurrence _ _ He)
      as (before & n & after & Heq & Hname & Hfresh).
    exists n. split.
    + apply Hin. exists before, after. by rewrite Hname.
    + rewrite <- Hname. apply (candidates_kept p).
      rewrite Heq, in_app_iff. right. by left.
Qed.

Lemma graph_nodes_are_first_seen_witness :
  In second_config (candidates config_twice)
  /\ (exists n, In n (nodes (build_knowledge_graph config_twice))
                /\ node_id n = "Config")
  /\ ~ In second_config (nodes (build_knowledge_graph config_twice)).
Proof.
  assert (Hc : In second_config (candidates config_twice)).
  { vm_compute. tauto. }
  split; [exact Hc|]. split.
  - exact (proj2 (proj2 (proj2 (graph_nodes_are_first_seen config_twice)))
             second_config Hc).
  - vm_compute. intros [H|[H|[H|[]]]]; discriminate H.
Defined.

(** C7.  When every Rust file of the project is passed over (there is
    none, or each lies under [target] or cannot be read), the graph has no
    node, no edge and no cluster, its stats are all 0, and the semantic
    index built from it is empty with all stats 0. *)
Theorem empty_project_yields_empty_results :
  forall p,
    List.Forall skipped (rs_files p) ->
    let g := build_knowledge_graph p in
    let index := SemanticIndex.build_semantic_index p g in
    nodes g = [] /\ edges g = [] /\ clusters g = []
    /\ stats g = {| total_nodes := 0; total_edges := 0;
                    total_clusters := 0 |}
    /\ SemanticIndex.index_stats index
       = {| SemanticIndex.total_files := 0;
            SemanticIndex.total_concepts := 0;
            SemanticIndex.total_public_apis := 0 |}
    /\ SemanticIndex.file_to_concepts index = ∅
    /\ SemanticIndex.concept_to_files index = ∅
    /\ SemanticIndex.hot_spots index = []
    /\ SemanticIndex.public_apis index = [].
Proof.
  intros p Hskip g index. subst index g.
  unfold SemanticIndex.build_semantic_index, build_knowledge_graph.
  rewrite (fold_add_file_skipped _ _ Hskip). simpl.
  repeat split.
Qed.

Lemma empty_project_yields_empty_results_witness :
  stats (build_knowledge_graph no_files)
  = {| total_nodes := 0; total_edges := 0; total_clusters := 0 |}
  /\ nodes (build_knowledge_graph only_build_output) = []
  /\ SemanticIndex.index_stats
       (SemanticIndex.build_semantic_index only_build_output
          (build_knowledge_graph only_build_output))
     = {| SemanticIndex.total_files := 0;
          SemanticIndex.total_concepts := 0;
          SemanticIndex.total_public_apis := 0 |}.
Proof.
  assert (H1 : List.Forall skipped (rs_files no_files)).
  { constructor. }
  assert (H2 : List.Forall skipped (rs_files only_build_output)).
  { constructor; [left; reflexivity|constructor]. }
  pose proof (empty_project_yields_empty_results no_files H1) as Ha.
  pose proof (empty_project_yields_empty_results only_build_output H2) as Hb.
  cbv zeta in Ha, Hb.
  split; [apply Ha|]. split; [apply Hb|apply Hb].
Defined.

End GraphClaims.

(* ===================================================================== *)
(** * Clusters *)
(* ===================================================================== *)

Section ClusterClaims.
Import KnowledgeGraph KnowledgeGraphFacts Examples.

(** C8.  Cluster assignment is total and single-valued.  The clusters
    have distinct names; every node's id is in the cluster named by the
    layer of its module path; a cluster holds only ids of nodes of its
    layer; and with distinct node ids (as [build_knowledge_graph] yields
    them) a node's id is in no other cluster.  The layer follows the
    priority order of the five word groups; otherwise, for the path of a
    Rust file, it is "Module: " and the parent directory, or "Core" for a
    path of one segment. *)
Theorem clusters_partition_entities :
  forall nodes edges,
    let cs := _identify_clusters nodes edges in
    List.NoDup (List.map cluster_name cs)
    /\ (forall n, In n nodes ->
          exists c, In c cs
                    /\ cluster_name c = layer_of (node_module n)
                    /\ In (node_id n) (cluster_nodes c))
    /\ (forall c i, In c cs -> In i (cluster_nodes c) ->
          exists n, In n nodes /\ node_id n = i
                    /\ layer_of (node_module n) = cluster_name c)
    /\ (List.NoDup (List.map node_id nodes) ->
        forall n c, In n nodes -> In c cs ->
                    In (node_id n) (cluster_nodes c) ->
                    cluster_name c = layer_of (node_module n))
    /\ (forall module,
          let domain := mentions module ["domain"; "entity"; "model"] in
          let app := mentions module ["service"; "application"; "handler"] in
          let infra := mentions module ["repo"; "db"; "storage"] in
          let iface := mentions module ["api"; "http"; "web"] in
          let utils := mentions module ["util"; "common"; "helper"] in
          (domain = true -> layer_of module = "Domain Layer")
          /\ (domain = false -> app = true ->
              layer_of module = "Application Layer")
          /\ (domain = false -> app = false -> infra = true ->
              layer_of module = "Infrastructure Layer")
          /\ (domain = false -> app = false -> infra = false ->
              iface = true -> layer_of module = "Interface Layer")
          /\ (domain = false -> app = false -> infra = false ->
              iface = false -> utils = true ->
              layer_of module = "Utilities")
          /\ (domain = false -> app = false -> infra = false ->
              iface = false -> utils = false ->
              (forall dirs parent file,
                  Py.split_chr "/" module = dirs ++ [parent; file] ->
                  Py.endswith file ".rs" = true ->
                  layer_of module = "Module: " +:+ parent)
              /\ (forall file,
                     Py.split_chr "/" module = [file] ->
                     layer_of module = "Core"))).
Proof.
  intros nodes edges cs. split_and!.
  - apply identify_clusters_names_NoDup.
  - intros n Hn. destruct (cluster_lookup_node nodes n Hn) as (ids & Hl & Hi).
    exists {| cluster_name := layer_of (node_module n);
              cluster_nodes := sorted_set ids |}.
    split; [|split; [done|]].
    + apply identify_clusters_In. by exists ids.
    + by apply sorted_set_In.
  - intros c i (ids & Hl & Hc)%identify_clusters_In Hi.
    rewrite Hc in Hi. apply (proj1 (sorted_set_In _ _)) in Hi.
    exact (proj1 (cluster_lookup_In nodes (cluster_name c) ids i Hl) Hi).
  - intros Hnd n c Hn (ids & Hl & Hc)%identify_clusters_In Hi.
    rewrite Hc in Hi. apply (proj1 (sorted_set_In _ _)) in Hi.
    pose proof (proj1 (cluster_lookup_In nodes (cluster_name c) ids
                         (node_id n) Hl) Hi) as (n' & Hn' & Hid & Hk).
    rewrite <- Hk. f_equal. f_equal.
    clear -Hnd Hn Hn' Hid.
    induction nodes as [|x nodes IH]; [done|].
    simpl in Hnd. apply List.NoDup_cons_iff in Hnd as [Hx Hnd].
    destruct Hn as [->|Hn], Hn' as [->|Hn']; [done| | |by apply IH].
    + destruct Hx. rewrite <- Hid. by apply in_map.
    + destruct Hx. rewrite Hid. by apply in_map.
  - intros module domain app infra iface utils.
    rewrite layer_of_mentions.
    fold domain app infra iface utils.
    split_and!.
    + by intros ->.
    + by intros -> ->.
    + by intros -> -> ->.
    + by intros -> -> -> ->.
    + by intros -> -> -> -> ->.
    + intros -> -> -> -> ->. split.
      * intros dirs parent file Hsplit Hrs. cbv zeta. rewrite Hsplit.
        rewrite length_app. simpl List.length.
        replace (1 <? List.length dirs + 2) with true
          by (symmetry; apply Nat.ltb_lt; lia).
        replace (dirs ++ [parent; file]) with ((dirs ++ [parent]) ++ [file])
          by (by rewrite <- app_assoc).
        rewrite last1_snoc, Hrs.
        replace ((dirs ++ [parent]) ++ [file]) with (dirs ++ [parent; file])
          by (by rewrite <- app_assoc).
        by rewrite last2_snoc2.
      * intros file Hsplit. cbv zeta. by rewrite Hsplit.
Qed.

(** The paths of the scan all end in [.rs].  For a path with a parent
    segment whose last segment does not, the layer names the last segment
    itself. *)
Example layer_of_directory_path :
  layer_of "src/parser/lexer.rs" = "Module: parser"
  /\ layer_of "src/parser" = "Module: parser"
  /\ layer_of "lexer.rs" = "Core".
Proof. vm_compute. repeat split. Qed.

Lemma clusters_partition_entities_witness :
  exists c,
    In c (clusters (build_knowledge_graph config_twice))
    /\ cluster_name c = "Module: parser"
    /\ In "lex" (cluster_nodes c).
Proof.
  pose proof (clusters_partition_entities
                (nodes (build_knowledge_graph config_twice))
                (edges (build_knowledge_graph config_twice)))
    as (_ & Hassign & _ & _ & Hlayer).
  assert (Hin : In lex_fn (nodes (build_knowledge_graph config_twice))).
  { vm_compute. tauto. }
  destruct (Hassign lex_fn Hin) as (c & Hc & Hname & Hid).
  exists c. split; [exact Hc|]. split; [|exact Hid].
  rewrite Hname.
  destruct (Hlayer "src/parser/lexer.rs") as (_ & _ & _ & _ & _ & Hfall).
  destruct (Hfall eq_refl eq_refl eq_refl eq_refl eq_refl) as [Hmod _].
  exact (Hmod ["src"] "parser" "lexer.rs" eq_refl eq_refl).
Defined.

End ClusterClaims.

(* ===================================================================== *)
(** * The semantic index *)
(* ===================================================================== *)

Section IndexClaims.
Import KnowledgeGraph SemanticIndex Examples.

Lemma index_public_apis p graph :
  public_apis (build_semantic_index p graph)
  = List.map api_entry (List.firstn 50 (select_public_apis graph)).
Proof.
  unfold build_semantic_index. by destruct (fold_left index_node _ _).
Qed.

Lemma index_total_public_apis p graph :
  total_public_apis (index_stats (build_semantic_index p graph))
  = List.length (select_public_apis graph).
Proof.
  unfold build_semantic_index. by destruct (fold_left index_node _ _).
Qed.

Lemma is_public_api_spec node :
  is_public_api node = true <->
  node_visibility node = "pub"
  /\ In (node_type node) ["fn"; "struct"; "trait"].
Proof.
  unfold is_public_api.
  by rewrite andb_true_iff, String.eqb_eq, in_list_In.
Qed.

(** C5, as the code has it.  [public_apis] lists the first 50 nodes with
    visibility pub and a type among fn, struct and trait, in node order;
    [stats.total_public_apis] is the count of all of them.  With at most
    50 such nodes all are listed. *)
Theorem public_apis_first_fifty_full_count :
  forall p graph,
    let index := build_semantic_index p graph in
    let subset := select_public_apis graph in
    (forall node,
        In node subset <->
        In node (nodes graph)
        /\ node_visibility node = "pub"
        /\ In (node_type node) ["fn"; "struct"; "trait"])
    /\ public_apis index = List.map api_entry (List.firstn 50 subset)
    /\ total_public_apis (index_stats index) = List.length subset
    /\ (List.length subset <= 50 ->
        public_apis index = List.map api_entry subset).
Proof.
  intros p graph index subset. subst index subset. split_and!.
  - intros node. unfold select_public_apis.
    by rewrite filter_In, is_public_api_spec.
  - apply index_public_apis.
  - apply index_total_public_apis.
  - intros Hle. rewrite index_public_apis. by rewrite firstn_all2.
Qed.

Lemma public_apis_first_fifty_full_count_witness :
  public_apis (build_semantic_index six_module_crate two_functions)
  = List.map api_entry (select_public_apis two_functions).
Proof.
  apply (public_apis_first_fifty_full_count six_module_crate two_functions).
  vm_compute. lia.
Defined.

(** C5 as stated fails: of 51 public functions the index lists 50, and
    the 51st is missing, while the stats count 51. *)
Lemma public_apis_capped_at_fifty :
  let index := build_semantic_index six_module_crate fifty_one_functions in
  List.length (select_public_apis fifty_one_functions) = 51
  /\ total_public_apis (index_stats index) = 51
  /\ List.length (public_apis index) = 50
  /\ In (numbered_fn 51) (select_public_apis fifty_one_functions)
  /\ ~ In (api_entry (numbered_fn 51)) (public_apis index)
  /\ ~ (forall p graph,
          public_apis (build_semantic_index p graph)
          = List.map api_entry (select_public_apis graph)).
Proof.
  cbv zeta. split_and!.
  - vm_compute. reflexivity.
  - vm_compute. reflexivity.
  - vm_compute. reflexivity.
  - apply filter_In. split; [|reflexivity].
    apply in_map, in_seq. lia.
  - rewrite index_public_apis. unfold fifty_one_functions, graph_of,
      select_public_apis. cbn [nodes].
    intros Hin. apply in_map_iff in Hin as (n & Hn & Hin).
    apply (In_nth _ _ (numbered_fn 0)) in Hin as (k & Hk & Hnth).
    revert Hk Hnth Hn. vm_compute List.length. intros Hk <-.
    do 50 (destruct k as [|k]; [vm_compute; discriminate|]). lia.
  - intros H.
    specialize (H six_module_crate fifty_one_functions).
    apply (f_equal (@List.length PublicApi)) in H.
    vm_compute in H. discriminate H.
Qed.

End IndexClaims.

(* ===================================================================== *)
(** * Soundness of the matcher *)
(* ===================================================================== *)

Module StringFacts.

Lemma app_cons (c : ascii) (s t : string) :
  String c s +:+ t = String c (s +:+ t).
Proof. reflexivity. Qed.

Lemma app_empty_l (s : string) : "" +:+ s = s.
Proof. reflexivity. Qed.

Lemma app_empty_r (s : string) : s +:+ "" = s.
Proof. induction s as [|c s IH]; [done|]. by rewrite app_cons, IH. Qed.

Lemma app_assoc (a b c : string) : (a +:+ b) +:+ c = a +:+ (b +:+ c).
Proof. induction a as [|x a IH]; [done|]. by rewrite !app_cons, IH. Qed.

Lemma length_app (a b : string) :
  String.length (a +:+ b) = String.length a + String.length b.
Proof.
  induction a as [|x a IH]; [done|]. rewrite app_cons. simpl. by rewrite IH.
Qed.

Lemma take_app (a b : string) : Py.take_str (String.length a) (a +:+ b) = a.
Proof.
  induction a as [|x a IH]; [by destruct b|].
  rewrite app_cons. simpl. by rewrite IH.
Qed.

Lemma consumed_app (a b : string) : Re.consumed (a +:+ b) b = a.
Proof.
  unfold Re.consumed. rewrite length_app.
  replace (String.length a + String.length b - String.length b)
    with (String.length a) by lia.
  apply take_app.
Qed.

Lemma prefix_cons (x y : ascii) (a s : string) :
  String.prefix (String x a) (String y s)
  = if ascii_dec x y then String.prefix a s else false.
Proof. reflexivity. Qed.

Lemma prefix_empty (s : string) : String.prefix "" s = true.
Proof. by destruct s. Qed.

Lemma prefix_app (a b : string) : String.prefix a (a +:+ b) = true.
Proof.
  induction a as [|x a IH]; [apply prefix_empty|].
  rewrite app_cons, prefix_cons, IH. by destruct (ascii_dec x x).
Qed.

Lemma prefix_split (a s : string) :
  String.prefix a s = true -> exists b, s = a +:+ b.
Proof.
  revert s. induction a as [|x a IH]; intros s.
  - by exists s.
  - destruct s as [|y s]; [done|]. rewrite prefix_cons.
    destruct (ascii_dec x y) as [->|]; [|done].
    intros [b ->]%IH. exists b. reflexivity.
Qed.

End StringFacts.

Module ReFacts.

Import Re ReSpec StringFacts.

Lemma run_star {R : Type} r s caps (k : string -> captures -> option R) :
  run (Star r) s caps k
  = star_loop (run r) k (S (String.length s)) s caps.
Proof. reflexivity. Qed.

Lemma run_lazy {R : Type} r s caps (k : string -> captures -> option R) :
  run (LazyStar r) s caps k
  = lazy_loop (run r) k (S (String.length s)) s caps.
Proof. reflexivity. Qed.

(** The matcher only reports what [matches] allows: when [run] succeeds,
    the text splits into a matched part and the rest that the
    continuation accepted. *)
Lemma run_sound {R : Type} (r : regex) :
  forall s caps (k : string -> captures -> option R) x,
    run r s caps k = Some x ->
    exists p s' caps',
      s = p +:+ s' /\ matches r p caps caps' /\ k s' caps' = Some x.
Proof.
  induction r as [|cl|r1 IH1 r2 IH2|r1 IH1 r2 IH2|r1 IH1|r1 IH1|r1 IH1
                 |n r1 IH1]; intros s caps k x.
  - simpl. intros Hk. exists "", s, caps.
    split; [done|]. split; [constructor|done].
  - simpl. destruct s as [|c s]; [done|].
    destruct (class_matches cl c) eqn:Hc; [|done].
    intros Hk. exists (String c ""), s, caps. split; [done|].
    split; [by constructor|done].
  - simpl. intros H. apply IH1 in H as (p1 & s1 & c1 & -> & H1 & H).
    apply IH2 in H as (p2 & s2 & c2 & -> & H2 & H).
    exists (p1 +:+ p2), s2, c2. rewrite app_assoc.
    split; [done|]. split; [by econstructor|done].
  - simpl. destruct (run r1 s caps k) as [y|] eqn:E1.
    + intros [= <-]. apply IH1 in E1 as (p & s' & c' & -> & H1 & H).
      exists p, s', c'. split; [done|]. split; [by apply M_AltL|done].
    + intros H. apply IH2 in H as (p & s' & c' & -> & H2 & H).
      exists p, s', c'. split; [done|]. split; [by apply M_AltR|done].
  - simpl. destruct (run r1 s caps k) as [y|] eqn:E1.
    + intros [= <-]. apply IH1 in E1 as (p & s' & c' & -> & H1 & H).
      exists p, s', c'. split; [done|]. split; [by apply M_OptSome|done].
    + intros Hk. exists "", s, caps. split; [done|].
      split; [apply M_OptNone|done].
  - rewrite run_star. generalize (S (String.length s)). intros fuel.
    revert s caps. induction fuel as [|fuel IHf]; intros s caps; simpl.
    + intros Hk. exists "", s, caps. split; [done|].
      split; [apply M_StarNil|done].
    + match goal with
      | |- context [run r1 s caps ?k1] =>
          destruct (run r1 s caps k1) as [y|] eqn:E1
      end.
      * intros [= <-]. apply IH1 in E1 as (p1 & s1 & c1 & -> & H1 & H).
        destruct (String.length s1 <? String.length (p1 +:+ s1)); [|done].
        apply IHf in H as (p2 & s2 & c2 & -> & H2 & H).
        exists (p1 +:+ p2), s2, c2. rewrite app_assoc.
        split; [done|]. split; [by econstructor|done].
      * intros Hk. exists "", s, caps. split; [done|].
        split; [apply M_StarNil|done].
  - rewrite run_lazy. generalize (S (String.length s)). intros fuel.
    revert s caps. induction fuel as [|fuel IHf]; intros s caps; simpl.
    + destruct (k s caps) as [y|] eqn:Ek; [|done].
      intros [= <-]. exists "", s, caps. split; [done|].
      split; [apply M_LazyNil|done].
    + destruct (k s caps) as [y|] eqn:Ek.
      * intros [= <-]. exists "", s, caps. split; [done|].
        split; [apply M_LazyNil|done].
      * intros E1. apply IH1 in E1 as (p1 & s1 & c1 & -> & H1 & H).
        destruct (String.length s1 <? String.length (p1 +:+ s1)); [|done].
        apply IHf in H as (p2 & s2 & c2 & -> & H2 & H).
        exists (p1 +:+ p2), s2, c2. rewrite app_assoc.
        split; [done|]. split; [by econstructor|done].
  - simpl. intros H. apply IH1 in H as (p & s' & c' & -> & H1 & H).
    rewrite consumed_app in H.
    exists p, s', ((n, p) :: c'). split; [done|].
    split; [by constructor|done].
Qed.

Lemma matches_seq_inv r1 r2 p c c' :
  matches (Seq r1 r2) p c c' ->
  exists p1 p2 c1,
    p = p1 +:+ p2 /\ matches r1 p1 c c1 /\ matches r2 p2 c1 c'.
Proof. inversion 1; subst. eauto 10. Qed.

Lemma matches_extends r p c c' :
  matches r p c c' -> exists new, c' = new ++ c.
Proof.
  induction 1;
    repeat match goal with
      | H : exists _, _ |- _ => destruct H as [? ->]
      end;
    try (by exists []).
  - eexists. by rewrite List.app_assoc.
  - by eexists.
  - by eexists.
  - by eexists.
  - eexists. by rewrite List.app_assoc.
  - eexists. by rewrite List.app_assoc.
  - eexists. by rewrite app_comm_cons.
Qed.

Lemma matches_captured (P : nat -> string -> Prop) r p c c' :
  matches r p c c' ->
  captured P r ->
  List.Forall (fun '(n, t) => P n t) c ->
  List.Forall (fun '(n, t) => P n t) c'.
Proof.
  induction 1; simpl; intros Hcap Hc; try done.
  - destruct Hcap. eauto.
  - destruct Hcap. eauto.
  - destruct Hcap. eauto.
  - eauto.
  - eauto.
  - eauto.
  - destruct Hcap as [Hp Hcap]. constructor; eauto.
Qed.

Lemma bound_app n new c : bound n c -> bound n (new ++ c).
Proof.
  unfold bound. induction new as [|[i t] new IH]; simpl; [done|].
  intros Hc. destruct (i =? n); [by eexists|by apply IH].
Qed.

Lemma matches_keeps_bound n r p c c' :
  matches r p c c' -> bound n c -> bound n c'.
Proof. intros [new ->]%matches_extends. apply bound_app. Qed.

Lemma matches_binds n r p c c' :
  matches r p c c' -> binds n r = true -> bound n c'.
Proof.
  induction 1; simpl; intros Hb; try done.
  - apply orb_true_iff in Hb as [Hb|Hb].
    + eapply matches_keeps_bound; eauto.
    + eauto.
  - apply andb_true_iff in Hb as [Hb _]. eauto.
  - apply andb_true_iff in Hb as [_ Hb]. eauto.
  - unfold bound. simpl. destruct (n0 =? n) eqn:E; [by eexists|].
    simpl in Hb. by apply IHmatches.
Qed.

(** A group that takes part in every match of [r] holds, in a match that
    started without captures, a text that the group can capture. *)
Lemma group_captured (P : nat -> string -> Prop) n r p caps :
  matches r p [] caps ->
  captured P r ->
  binds n r = true ->
  P n (group n {| m_start := 0; m_end := 0; m_groups := caps |}).
Proof.
  intros Hm Hcap Hb.
  pose proof (matches_captured P _ _ _ _ Hm Hcap (List.Forall_nil _)) as Hall.
  pose proof (matches_binds n _ _ _ _ Hm Hb) as [[i t] Hf].
  unfold group. simpl. rewrite Hf.
  apply find_some in Hf as [Hin Hi].
  apply Nat.eqb_eq in Hi. subst i.
  rewrite List.Forall_forall in Hall. by apply (Hall (n, t)).
Qed.

Lemma matches_lit t p c c' : matches (Lit t) p c c' -> p = t /\ c' = c.
Proof.
  revert p c c'. induction t as [|x t IH]; intros p c c'.
  - by inversion 1.
  - destruct t as [|y t].
    + simpl. inversion 1 as [|? ? ? Hc| | | | | | | | | |]; subst.
      simpl in Hc. apply Ascii.eqb_eq in Hc. by subst.
    + change (Lit (String x (String y t)))
        with (Seq (Chr (CChar x)) (Lit (String y t))).
      intros (p1 & p2 & c1 & -> & H1 & H2)%matches_seq_inv.
      apply IH in H2 as [-> ->].
      inversion H1 as [|? ? ? Hc| | | | | | | | | |]; subst.
      simpl in Hc. apply Ascii.eqb_eq in Hc. by subst.
Qed.

Lemma matches_star_chr cl p c c' :
  matches (Star (Chr cl)) p c c' ->
  all_chars (class_matches cl) p = true /\ c' = c.
Proof.
  remember (Star (Chr cl)) as r eqn:Hr. induction 1; try done.
  injection Hr as ->. destruct (IHmatches2 eq_refl) as [Hp ->].
  inversion H as [|? ? ? Hc| | | | | | | | | |]; subst.
  rewrite app_cons, app_empty_l. simpl. by rewrite Hc, Hp.
Qed.

Lemma matches_plus_chr cl p c c' :
  matches (Plus (Chr cl)) p c c' ->
  p <> "" /\ all_chars (class_matches cl) p = true /\ c' = c.
Proof.
  intros (p1 & p2 & c1 & -> & H1 & H2)%matches_seq_inv.
  apply matches_star_chr in H2 as [Hp ->].
  inversion H1 as [|? ? ? Hc| | | | | | | | | |]; subst.
  rewrite app_cons, app_empty_l. simpl. by rewrite Hc, Hp.
Qed.

Lemma matches_w1 p c c' : matches w1 p c c' -> is_identifier p.
Proof.
  intros (Hne & Hall & _)%matches_plus_chr. split; [done|].
  clear Hne. induction p as [|x p IH]; [done|].
  simpl in *. apply andb_true_iff in Hall as [Hx Hall].
  by rewrite Hx, IH.
Qed.

Lemma match_at_sound r pos s m :
  match_at r pos s = Some m ->
  exists p s',
    s = p +:+ s'
    /\ matches r p [] (m_groups m)
    /\ m_start m = pos
    /\ m_end m = pos + String.length p.
Proof.
  unfold match_at. intros H.
  apply run_sound in H as (p & s' & caps & -> & Hm & [= <-]).
  exists p, s'. simpl. rewrite length_app.
  split_and!; [done|done|done|lia].
Qed.

Lemma match_at_group (P : nat -> string -> Prop) n r pos s m :
  match_at r pos s = Some m ->
  captured P r ->
  binds n r = true ->
  P n (group n m).
Proof.
  intros (p & s' & _ & Hm & _)%match_at_sound Hcap Hb.
  by apply (group_captured P n r p (m_groups m)).
Qed.

(** Every match of [finditer] is a match at some offset of the text. *)
Lemma finditer_from_In r pos skip s m :
  In m (finditer_from r pos skip s) ->
  exists pre s',
    s = pre +:+ s'
    /\ match_at r (pos + String.length pre) s' = Some m.
Proof.
  revert pos skip. induction s as [|c s IH]; intros pos skip.
  - destruct skip; simpl; [|done].
    destruct (match_at r pos "") as [m'|] eqn:E; [|done].
    intros [<-|[]]. exists "", "". simpl. by rewrite Nat.add_0_r.
  - assert (Hrest : forall k,
               In m (finditer_from r (S pos) k s) ->
               exists pre s',
                 String c s = pre +:+ s'
                 /\ match_at r (pos + String.length pre) s' = Some m).
    { intros k (pre & s' & -> & Hm)%IH. exists (String c pre), s'.
      split; [done|]. simpl.
      by replace (pos + S (String.length pre))
        with (S pos + String.length pre) by lia. }
    destruct skip; simpl; [|apply Hrest].
    destruct (match_at r pos (String c s)) as [m'|] eqn:E; [|apply Hrest].
    intros [<-|Hin]; [|by eapply Hrest].
    exists "", (String c s). simpl. by rewrite Nat.add_0_r.
Qed.

Lemma finditer_In r s m :
  In m (finditer r s) ->
  exists pre s',
    s = pre +:+ s' /\ match_at r (String.length pre) s' = Some m.
Proof. unfold finditer. apply finditer_from_In. Qed.

Lemma finditer_group (P : nat -> string -> Prop) n r s m :
  In m (finditer r s) ->
  captured P r ->
  binds n r = true ->
  P n (group n m).
Proof.
  intros (pre & s' & _ & Hm)%finditer_In. by eapply match_at_group.
Qed.

End ReFacts.

(* ===================================================================== *)
(** * The matcher finds every match *)
(* ===================================================================== *)

Module ReComplete.

Import Re ReSpec StringFacts ReFacts ReBlind.

Lemma star_loop_S {R : Type} step (k : string -> captures -> option R)
      fuel s caps :
  star_loop step k (S fuel) s caps
  = match step s caps
            (fun s1 caps1 =>
               if String.length s1 <? String.length s
               then star_loop step k fuel s1 caps1 else None) with
    | Some x => Some x
    | None => k s caps
    end.
Proof. reflexivity. Qed.

Lemma lazy_loop_S {R : Type} step (k : string -> captures -> option R)
      fuel s caps :
  lazy_loop step k (S fuel) s caps
  = match k s caps with
    | Some x => Some x
    | None =>
        step s caps
          (fun s1 caps1 =>
             if String.length s1 <? String.length s
             then lazy_loop step k fuel s1 caps1 else None)
    end.
Proof. reflexivity. Qed.

Lemma lazy_loop_O {R : Type} step (k : string -> captures -> option R)
      s caps :
  lazy_loop step k 0 s caps
  = match k s caps with Some x => Some x | None => None end.
Proof. reflexivity. Qed.

Lemma star_loop_blind {R : Type} step (k : string -> captures -> option R) :
  (forall k', blind k' -> blind (fun s c => step s c k')) ->
  blind k ->
  forall fuel, blind (star_loop step k fuel).
Proof.
  intros Hstep Hk. induction fuel as [|fuel IH]; intros s c1 c2.
  - apply Hk.
  - rewrite !star_loop_S.
    set (k' := fun s1 caps1 =>
                 if String.length s1 <? String.length s
                 then star_loop step k fuel s1 caps1 else None).
    assert (Hk' : blind k').
    { intros s1 d1 d2. unfold k'.
      destruct (String.length s1 <? String.length s); [apply IH|done]. }
    destruct (step s c1 k') as [x|] eqn:E1.
    + intros _.
      destruct (Hstep k' Hk' s c1 c2) as [y Hy]; [by rewrite E1|].
      by rewrite Hy.
    + intros Hs. destruct (step s c2 k'); [done|]. by apply (Hk s c1).
Qed.

Lemma lazy_loop_blind {R : Type} step (k : string -> captures -> option R) :
  (forall k', blind k' -> blind (fun s c => step s c k')) ->
  blind k ->
  forall fuel, blind (lazy_loop step k fuel).
Proof.
  intros Hstep Hk. induction fuel as [|fuel IH]; intros s c1 c2.
  - rewrite !lazy_loop_O. destruct (k s c1) as [x|] eqn:E1; [|by intros []].
    intros _. destruct (Hk s c1 c2) as [y Hy]; [by rewrite E1|].
    by rewrite Hy.
  - rewrite !lazy_loop_S.
    set (k' := fun s1 caps1 =>
                 if String.length s1 <? String.length s
                 then lazy_loop step k fuel s1 caps1 else None).
    assert (Hk' : blind k').
    { intros s1 d1 d2. unfold k'.
      destruct (String.length s1 <? String.length s); [apply IH|done]. }
    destruct (k s c1) as [x|] eqn:E1.
    + intros _. destruct (Hk s c1 c2) as [y Hy]; [by rewrite E1|].
      by rewrite Hy.
    + intros Hs. destruct (k s c2); [done|].
      by apply (Hstep k' Hk' s c1).
Qed.

(** A pattern passes the independence on to the text before it. *)
Lemma run_blind {R : Type} (r : regex) :
  forall k : string -> captures -> option R,
    blind k -> blind (fun s c => run r s c k).
Proof.
  induction r as [|cl|r1 IH1 r2 IH2|r1 IH1 r2 IH2|r1 IH1|r1 IH1|r1 IH1
                 |n r1 IH1]; intros k Hk s c1 c2; cbn beta.
  - apply Hk.
  - cbn [run]. destruct s as [|ch s]; [done|].
    destruct (class_matches cl ch); [apply Hk|done].
  - cbn [run]. apply (IH1 (fun s1 caps1 => run r2 s1 caps1 k)).
    by apply IH2.
  - cbn [run]. destruct (run r1 s c1 k) as [x|] eqn:E1.
    + intros _. destruct (IH1 k Hk s c1 c2) as [y Hy]; [by rewrite E1|].
      by rewrite Hy.
    + intros Hs. destruct (run r1 s c2 k); [done|]. by apply (IH2 k Hk s c1).
  - cbn [run]. destruct (run r1 s c1 k) as [x|] eqn:E1.
    + intros _. destruct (IH1 k Hk s c1 c2) as [y Hy]; [by rewrite E1|].
      by rewrite Hy.
    + intros Hs. destruct (run r1 s c2 k); [done|]. by apply (Hk s c1).
  - rewrite !run_star. by apply star_loop_blind.
  - rewrite !run_lazy. by apply lazy_loop_blind.
  - cbn [run]. apply (IH1 (fun s1 caps1 => k s1 ((n, consumed s s1) :: caps1))).
    intros s1 d1 d2. apply Hk.
Qed.

(** The result depends on the continuation only through its values. *)
Lemma run_ext {R : Type} (r : regex) :
  forall s c (k1 k2 : string -> captures -> option R),
    (forall s c, k1 s c = k2 s c) ->
    run r s c k1 = run r s c k2.
Proof.
  induction r as [|cl|r1 IH1 r2 IH2|r1 IH1 r2 IH2|r1 IH1|r1 IH1|r1 IH1
                 |n r1 IH1]; intros s c k1 k2 Hk.
  - apply Hk.
  - cbn [run]. destruct s as [|ch s]; [done|].
    destruct (class_matches cl ch); [apply Hk|done].
  - cbn [run]. apply IH1. intros s1 c1. by apply IH2.
  - cbn [run]. by rewrite (IH1 s c k1 k2 Hk), (IH2 s c k1 k2 Hk).
  - cbn [run]. by rewrite (IH1 s c k1 k2 Hk), Hk.
  - rewrite !run_star. generalize (S (String.length s)). intros fuel.
    revert s c. induction fuel as [|fuel IHf]; intros s c; [apply Hk|].
    rewrite !star_loop_S, Hk.
    rewrite (IH1 s c _
               (fun s1 caps1 =>
                  if String.length s1 <? String.length s
                  then star_loop (run r1) k2 fuel s1 caps1 else None));
      [done|].
    intros s1 c1. destruct (String.length s1 <? String.length s); [|done].
    apply IHf.
  - rewrite !run_lazy. generalize (S (String.length s)). intros fuel.
    revert s c. induction fuel as [|fuel IHf]; intros s c.
    + by rewrite !lazy_loop_O, Hk.
    + rewrite !lazy_loop_S, Hk.
      rewrite (IH1 s c _
                 (fun s1 caps1 =>
                    if String.length s1 <? String.length s
                    then lazy_loop (run r1) k2 fuel s1 caps1 else None));
        [done|].
      intros s1 c1. destruct (String.length s1 <? String.length s); [|done].
      apply IHf.
  - cbn [run]. apply IH1. intros s1 c1. apply Hk.
Qed.

(** Fuel beyond the length of the text changes nothing. *)
Lemma star_loop_fuel {R : Type} r (k : string -> captures -> option R) n :
  forall s c f1 f2,
    String.length s < n ->
    String.length s < f1 -> String.length s < f2 ->
    star_loop (run r) k f1 s c = star_loop (run r) k f2 s c.
Proof.
  induction n as [|n IH]; intros s c f1 f2 Hn H1 H2; [lia|].
  destruct f1 as [|f1]; [lia|]. destruct f2 as [|f2]; [lia|].
  rewrite !star_loop_S.
  rewrite (run_ext r s c _
             (fun s1 caps1 =>
                if String.length s1 <? String.length s
                then star_loop (run r) k f2 s1 caps1 else None)); [done|].
  intros s1 c1. destruct (String.length s1 <? String.length s) eqn:E; [|done].
  apply Nat.ltb_lt in E. apply IH; lia.
Qed.

Lemma lazy_loop_fuel {R : Type} r (k : string -> captures -> option R) n :
  forall s c f1 f2,
    String.length s < n ->
    String.length s < f1 -> String.length s < f2 ->
    lazy_loop (run r) k f1 s c = lazy_loop (run r) k f2 s c.
Proof.
  induction n as [|n IH]; intros s c f1 f2 Hn H1 H2; [lia|].
  destruct f1 as [|f1]; [lia|]. destruct f2 as [|f2]; [lia|].
  rewrite !lazy_loop_S.
  rewrite (run_ext r s c _
             (fun s1 caps1 =>
                if String.length s1 <? String.length s
                then lazy_loop (run r) k f2 s1 caps1 else None)); [done|].
  intros s1 c1. destruct (String.length s1 <? String.length s) eqn:E; [|done].
  apply Nat.ltb_lt in E. apply IH; lia.
Qed.

(** The matcher finds a match whenever there is one: if [r] matches the
    front [p] of the text and the continuation accepts the rest, the run
    succeeds (with this match or one that the search order prefers). *)
Lemma run_complete {R : Type} r p c c' :
  matches r p c c' ->
  forall s' (k : string -> captures -> option R),
    blind k ->
    is_Some (k s' c') ->
    is_Some (run r (p +:+ s') c k).
Proof.
  induction 1 as [caps|cl ch caps Hcl
                 |r1 r2 p1 p2 c0 c1 c2 _ IH1 _ IH2
                 |r1 r2 p c c' _ IH|r1 r2 p c c' _ IH
                 |r p c c' _ IH|r c|r c
                 |r p1 p2 c0 c1 c2 _ IH1 _ IH2
                 |r c
                 |r p1 p2 c0 c1 c2 _ IH1 _ IH2
                 |n r p c c' _ IH]; intros s' k Hk Hs.
  - by rewrite app_empty_l.
  - rewrite app_cons, app_empty_l. cbn [run]. by rewrite Hcl.
  - rewrite app_assoc. cbn [run]. apply IH1; [by apply run_blind|].
    by apply IH2.
  - cbn [run]. destruct (IH s' k Hk Hs) as [x ->]. done.
  - cbn [run]. destruct (run r1 (p +:+ s') c k); [done|]. by apply IH.
  - cbn [run]. destruct (IH s' k Hk Hs) as [x ->]. done.
  - rewrite app_empty_l. cbn [run]. by destruct (run r s' c k).
  - rewrite app_empty_l, run_star, star_loop_S.
    by match goal with |- is_Some (match ?e with _ => _ end) =>
                         destruct e end.
  - destruct p1 as [|ch p1].
    + rewrite app_empty_l.
      apply (run_blind (Star r) k Hk (p2 +:+ s') c1 c0). by apply IH2.
    + rewrite app_assoc, run_star, star_loop_S.
      match goal with
      | |- is_Some (match run r ?s c0 ?k' with _ => _ end) =>
          assert (Hrun : is_Some (run r s c0 k'))
      end.
      { apply IH1.
        - intros s1 d1 d2.
          destruct (String.length s1 <? _); [|done].
          apply star_loop_blind; [apply run_blind|done].
        - assert (Hlt : (String.length (p2 +:+ s')
                         <? String.length (String ch p1 +:+ p2 +:+ s'))
                        = true).
          { apply Nat.ltb_lt. rewrite app_cons. simpl.
            rewrite !length_app. lia. }
          rewrite Hlt.
          specialize (IH2 s' k Hk Hs). rewrite run_star in IH2.
          rewrite (star_loop_fuel r k
                     (S (String.length (String ch p1 +:+ p2 +:+ s')))
                     _ _ _ (S (String.length (p2 +:+ s')))); [done|..].
          + rewrite app_cons. simpl. rewrite !length_app. lia.
          + rewrite app_cons. simpl. rewrite !length_app. lia.
          + lia. }
      destruct Hrun as [x ->]. done.
  - rewrite app_empty_l, run_lazy, lazy_loop_S.
    destruct Hs as [x ->]. done.
  - destruct p1 as [|ch p1].
    + rewrite app_empty_l.
      apply (run_blind (LazyStar r) k Hk (p2 +:+ s') c1 c0). by apply IH2.
    + rewrite app_assoc, run_lazy, lazy_loop_S.
      destruct (k (String ch p1 +:+ p2 +:+ s') c0); [done|].
      apply IH1.
      * intros s1 d1 d2.
        destruct (String.length s1 <? _); [|done].
        apply lazy_loop_blind; [apply run_blind|done].
      * assert (Hlt : (String.length (p2 +:+ s')
                       <? String.length (String ch p1 +:+ p2 +:+ s'))
                      = true).
        { apply Nat.ltb_lt. rewrite app_cons. simpl.
          rewrite !length_app. lia. }
        rewrite Hlt.
        specialize (IH2 s' k Hk Hs). rewrite run_lazy in IH2.
        rewrite (lazy_loop_fuel r k
                   (S (String.length (String ch p1 +:+ p2 +:+ s')))
                   _ _ _ (S (String.length (p2 +:+ s')))); [done|..].
        -- rewrite app_cons. simpl. rewrite !length_app. lia.
        -- rewrite app_cons. simpl. rewrite !length_app. lia.
        -- lia.
  - cbn [run]. apply IH.
    + intros s1 d1 d2. apply Hk.
    + by rewrite consumed_app.
Qed.

Lemma match_at_complete r pos p s' caps :
  matches r p [] caps -> is_Some (match_at r pos (p +:+ s')).
Proof.
  intros Hm. unfold match_at.
  apply (run_complete r p [] caps Hm s'); [|done].
  by intros s c1 c2 _.
Qed.

Lemma search_from_eq r pos s :
  search_from r pos s
  = match match_at r pos s with
    | Some m => Some m
    | None =>
        match s with
        | "" => None
        | String _ s' => search_from r (S pos) s'
        end
    end.
Proof. by destruct s. Qed.

(** [re.search] succeeds exactly when the pattern matches somewhere. *)
Lemma search_from_occurs r s : forall pos,
  is_Some (search_from r pos s) <-> occurs r s.
Proof.
  induction s as [|ch s IH]; intros pos; rewrite search_from_eq.
  - destruct (match_at r pos "") as [m|] eqn:E.
    + split; [intros _|done].
      apply match_at_sound in E as (p & s' & Hs & Hm & _).
      by exists "", p, s', (m_groups m).
    + split; [by intros []|].
      intros (a & p & b & caps & Hs & Hm). exfalso.
      destruct a as [|? a]; [|done]. rewrite app_empty_l in Hs.
      destruct (match_at_complete r pos p b caps Hm) as [m Hsome].
      rewrite <- Hs in Hsome. by rewrite E in Hsome.
  - destruct (match_at r pos (String ch s)) as [m|] eqn:E.
    + split; [intros _|done].
      apply match_at_sound in E as (p & s' & Hs & Hm & _).
      by exists "", p, s', (m_groups m).
    + rewrite IH. split.
      * intros (a & p & b & caps & -> & Hm).
        by exists (String ch a), p, b, caps.
      * intros (a & p & b & caps & Hs & Hm).
        destruct a as [|ch' a].
        -- exfalso. rewrite app_empty_l in Hs.
           destruct (match_at_complete r pos p b caps Hm) as [m Hsome].
           rewrite <- Hs in Hsome. by rewrite E in Hsome.
        -- rewrite app_cons in Hs. injection Hs as -> ->.
           by exists a, p, b, caps.
Qed.

Lemma search_occurs r s : is_Some (search r s) <-> occurs r s.
Proof. apply search_from_occurs. Qed.

(** A pattern that matches in a text matches in every text around it. *)
Lemma search_embedded r pre s post :
  is_Some (search r s) -> is_Some (search r (pre +:+ s +:+ post)).
Proof.
  rewrite !search_occurs. intros (a & p & b & caps & -> & Hm).
  exists (pre +:+ a), p, (b +:+ post), caps. by rewrite !app_assoc.
Qed.

End ReComplete.

(* ===================================================================== *)
(** * Well-formed entities and items *)
(* ===================================================================== *)

Module StripFacts.

Import StringFacts.

Lemma rev_app_app (a acc : string) :
  String.rev_app a acc = String.rev a +:+ acc.
Proof.
  unfold String.rev. revert acc.
  induction a as [|x a IH]; intros acc; simpl; [done|].
  rewrite (IH (String x acc)), (IH (String x "")).
  by rewrite app_assoc.
Qed.

Lemma rev_cons (x : ascii) (a : string) :
  String.rev (String x a) = String.rev a +:+ String x "".
Proof. unfold String.rev at 1. simpl. apply rev_app_app. Qed.

Lemma rev_app (a b : string) :
  String.rev (a +:+ b) = String.rev b +:+ String.rev a.
Proof.
  induction a as [|x a IH].
  - by rewrite app_empty_l, app_empty_r.
  - by rewrite app_cons, !rev_cons, IH, app_assoc.
Qed.

Lemma rev_involutive (a : string) : String.rev (String.rev a) = a.
Proof.
  induction a as [|x a IH]; [done|].
  by rewrite rev_cons, rev_app, IH.
Qed.

(** Stripping on the left stops at a character that is kept. *)
Lemma lstrip_app_keep (p : ascii -> bool) (a : string) c b :
  p c = false ->
  Py.lstrip_by p (a +:+ String c b) = Py.lstrip_by p a +:+ String c b.
Proof.
  intros Hc. induction a as [|x a IH].
  - simpl. by rewrite Hc.
  - rewrite app_cons. simpl. destruct (p x); [apply IH|done].
Qed.

(** Stripping keeps a prefix that starts and ends with characters that are
    kept. *)
Lemma strip_keeps_prefix (p : ascii -> bool) c1 mid c2 rest :
  p c1 = false -> p c2 = false ->
  exists rest',
    Py.strip_by p (String c1 (mid +:+ String c2 rest))
    = String c1 (mid +:+ String c2 rest').
Proof.
  intros H1 H2. unfold Py.strip_by, Py.rstrip_by.
  assert (Hl : Py.lstrip_by p (String c1 (mid +:+ String c2 rest))
               = String c1 (mid +:+ String c2 rest)).
  { simpl. by rewrite H1. }
  rewrite Hl.
  replace (String c1 (mid +:+ String c2 rest))
    with ((String c1 mid +:+ String c2 "") +:+ rest).
  2:{ rewrite app_assoc. by rewrite !app_cons. }
  rewrite rev_app.
  replace (String c1 mid +:+ String c2 "")
    with (String c1 mid +:+ String c2 "") by done.
  rewrite (rev_app (String c1 mid)).
  change (String.rev (String c2 "")) with (String c2 "").
  rewrite app_cons, app_empty_l.
  rewrite lstrip_app_keep by done.
  rewrite rev_app. rewrite rev_cons, rev_involutive.
  exists (String.rev (Py.lstrip_by p (String.rev rest))).
  rewrite app_assoc. by rewrite !app_cons.
Qed.

Lemma strip_keeps_pub (s : string) :
  String.prefix "pub" s = true -> String.prefix "pub" (Py.strip s) = true.
Proof.
  intros [b ->]%prefix_split.
  destruct (strip_keeps_prefix Py.isspace "p" "u" "b" b eq_refl eq_refl)
    as [rest' Heq].
  unfold Py.strip.
  change ("pub" +:+ b) with (String "p" ("u" +:+ String "b" b)).
  rewrite Heq.
  change ("u" +:+ String "b" rest') with (String "u" (String "b" rest')).
  rewrite !prefix_cons. simpl. apply prefix_empty.
Qed.

End StripFacts.

Module WellFormedFacts.

Import Re ReSpec ReFacts StringFacts StripFacts.

Lemma captured_lit P t : captured P (Lit t).
Proof.
  induction t as [|x t IH]; [done|].
  destruct t as [|y t]; [done|].
  change (Lit (String x (String y t)))
    with (Seq (Chr (CChar x)) (Lit (String y t))).
  by split.
Qed.

Lemma binds_lit n t : binds n (Lit t) = false.
Proof.
  induction t as [|x t IH]; [done|].
  destruct t as [|y t]; [done|].
  change (false || binds n (Lit (String y t)) = false). exact IH.
Qed.

(** Each entity pattern always fills group 1, with an identifier. *)
Lemma entity_patterns_capture :
  List.Forall
    (fun '(_, r) => binds 1 r = true
                    /\ captured (fun _ t => is_identifier t) r)
    KnowledgeGraph.entity_patterns.
Proof.
  assert (Hw : forall p c c', matches w1 p c c' -> is_identifier p)
    by apply matches_w1.
  unfold KnowledgeGraph.entity_patterns, KnowledgeGraph.opt_pub,
    KnowledgeGraph.opt_generics.
  repeat constructor; simpl; rewrite ?binds_lit; try done;
    repeat split; try apply captured_lit; try done;
    by eapply Hw.
Qed.

Lemma entity_name_identifier content file_path e :
  In e (KnowledgeGraph._extract_entities content file_path) ->
  is_identifier (KnowledgeGraph.node_name e)
  /\ In (KnowledgeGraph.node_type e) ["struct"; "enum"; "trait"; "impl"; "fn"]
  /\ In (KnowledgeGraph.node_visibility e) ["pub"; "private"].
Proof.
  intros (t & r & m & Hp & Hm & He)%KnowledgeGraphFacts.extract_entities_origin.
  pose proof entity_patterns_capture as Hall.
  rewrite List.Forall_forall in Hall. destruct (Hall _ Hp) as [Hb Hcap].
  pose proof (finditer_group _ 1 r content m Hm Hcap Hb) as Hid.
  unfold KnowledgeGraph.entity_of_match in He.
  destruct (Py.in_list _ _); [done|]. injection He as <-. simpl.
  split; [done|]. split.
  - unfold KnowledgeGraph.entity_patterns in Hp. simpl in Hp.
    destruct Hp as [[= <- _]|[[= <- _]|[[= <- _]|[[= <- _]|[[= <- _]|[]]]]]];
      simpl; tauto.
  - destruct (Py.contains _ _); simpl; tauto.
Qed.


(** *** Items of the API surface *)

Lemma matches_pub_prefix p c c' :
  matches ApiSurface.pub_prefix p c c' -> String.prefix "pub" p = true.
Proof.
  unfold ApiSurface.pub_prefix.
  change (seqs [Lit "pub"; Opt (seqs [s0; Lit "("; not0 ")"; Lit ")"]); s1])
    with (Seq (Lit "pub")
            (seqs [Opt (seqs [s0; Lit "("; not0 ")"; Lit ")"]); s1])).
  intros (p1 & p2 & c1 & -> & H1 & _)%matches_seq_inv.
  apply matches_lit in H1 as [-> _]. apply prefix_app.
Qed.

Lemma item_patterns_capture :
  List.Forall
    (fun '(_, r) => binds 1 r = true /\ binds 2 r = true
                    /\ captured ApiReport.item_capture r)
    ApiSurface.item_patterns.
Proof.
  assert (H1 : forall p c c',
             matches ApiSurface.pub_prefix p c c' -> ApiReport.item_capture 1 p).
  { intros p c c' H. split; [intros _; by eapply matches_pub_prefix|done]. }
  assert (H2 : forall p c c', matches w1 p c c' -> ApiReport.item_capture 2 p).
  { intros p c c' H. split; [done|intros _; by eapply matches_w1]. }
  assert (Hp : captured ApiReport.item_capture ApiSurface.pub_prefix).
  { unfold ApiSurface.pub_prefix. simpl.
    repeat split; try apply captured_lit; done. }
  unfold ApiSurface.item_patterns, ApiSurface.opt_async.
  repeat constructor; simpl; rewrite ?binds_lit; try done;
    repeat split; try apply captured_lit; try done;
    try (by eapply H1); try (by eapply H2); apply Hp.
Qed.

Lemma parse_visibility_range v :
  In (ApiSurface._parse_visibility v)
    ["pub"; "pub(crate)"; "pub(super)"; "pub(self)"; "pub(in ...)";
     "private"].
Proof.
  unfold ApiSurface._parse_visibility.
  repeat match goal with
         | |- context [if ?b then _ else _] => destruct b
         end; simpl; tauto.
Qed.

Lemma parse_visibility_pub v :
  String.prefix "pub" (Py.strip v) = true ->
  In (ApiSurface._parse_visibility v)
    ["pub"; "pub(crate)"; "pub(super)"; "pub(self)"; "pub(in ...)"].
Proof.
  intros Hpub. unfold ApiSurface._parse_visibility, Py.startswith.
  rewrite Hpub.
  repeat match goal with
         | |- context [if ?b then _ else _] => destruct b
         end; simpl; tauto.
Qed.

Lemma take_str_length n s : String.length (Py.take_str n s) <= n.
Proof.
  revert s. induction n as [|n IH]; intros [|c s]; simpl; try lia.
  specialize (IH s). lia.
Qed.

Lemma docstrings_values content items k d :
  ApiSurface._extract_docstrings content items !! k = Some d ->
  d <> "" /\ String.length d <= 200.
Proof.
  unfold ApiSurface._extract_docstrings.
  generalize (finditer ApiSurface.doc_pattern content). intros ms.
  assert (Hinv : forall (m0 : gmap string string),
             (forall k d, m0 !! k = Some d ->
                          d <> "" /\ String.length d <= 200) ->
             forall k d,
               fold_left
                 (fun (docstrings : gmap string string) m =>
                    let doc := ApiSurface.doc_text (group 1 m) in
                    let name' := group 2 m in
                    if String.eqb doc "" then docstrings
                    else
                      let line_num :=
                        ApiSurface.line_at content (m_start m) in
                      match List.find
                              (fun item =>
                                 String.eqb (ApiSurface.name item) name'
                                 && ApiSurface.near (ApiSurface.line item)
                                      line_num) items with
                      | Some item =>
                          <[ApiSurface.doc_key item := Py.take_str 200 doc]>
                            docstrings
                      | None => docstrings
                      end) ms m0 !! k = Some d ->
               d <> "" /\ String.length d <= 200).
  { induction ms as [|m ms IH]; intros m0 H0 k' d'; simpl; [apply H0|].
    apply IH. cbv zeta.
    destruct (String.eqb (ApiSurface.doc_text (group 1 m)) "") eqn:E;
      [done|].
    destruct (List.find _ items) as [item|]; [|done].
    intros k2 d2. destruct (decide (ApiSurface.doc_key item = k2)) as [<-|Hne].
    - rewrite lookup_insert_eq. intros [= <-].
      apply String.eqb_neq in E.
      split; [|exact (take_str_length 200 _)].
      generalize dependent (ApiSurface.doc_text (group 1 m)).
      intros doc Hdoc. destruct doc; [done|]. discriminate.
    - rewrite lookup_insert_ne by done. apply H0. }
  apply Hinv. intros k' d'. by rewrite lookup_empty.
Qed.

Lemma pub_item_well_formed content file_path i :
  In i (ApiSurface._extract_pub_items content file_path) ->
  is_identifier (ApiSurface.name i)
  /\ In (ApiSurface.type i)
       ["struct"; "enum"; "trait"; "fn"; "mod"; "type"; "const"; "static"]
  /\ In (ApiSurface.visibility i)
       ["pub"; "pub(crate)"; "pub(super)"; "pub(self)"; "pub(in ...)"]
  /\ String.prefix "pub" (ApiSurface.visibility_raw i) = true
  /\ ApiSurface.file i = file_path
  /\ 1 <= ApiSurface.line i
  /\ (forall d, ApiSurface.doc i = Some d ->
                d <> "" /\ String.length d <= 200).
Proof.
  unfold ApiSurface._extract_pub_items. rewrite in_map_iff.
  intros (i0 & Hi & Hin).
  apply in_flat_map in Hin as ([t r] & Hp & Hin).
  apply list_elem_of_In, list_elem_of_omap in Hin as (m & Hm & Hitem).
  apply list_elem_of_In in Hm.
  pose proof item_patterns_capture as Hall.
  rewrite List.Forall_forall in Hall.
  destruct (Hall _ Hp) as (Hb1 & Hb2 & Hcap).
  destruct (finditer_group _ 1 r content m Hm Hcap Hb1) as [Hpub _].
  destruct (finditer_group _ 2 r content m Hm Hcap Hb2) as [_ Hid].
  specialize (Hpub eq_refl). specialize (Hid eq_refl).
  unfold ApiSurface.item_of_match in Hitem.
  destruct (Py.in_list _ _); [done|]. injection Hitem as <-.
  assert (Hraw : String.prefix "pub" (Py.strip (group 1 m)) = true)
    by by apply strip_keeps_pub.
  assert (Hdoc : forall d,
             ApiSurface.doc i = Some d -> d <> "" /\ String.length d <= 200).
  { intros d. subst i.
    match goal with
    | |- context [?docs !! ?key] => destruct (docs !! key) as [d0|] eqn:E
    end; simpl; [|done].
    intros [= <-]. by eapply docstrings_values. }
  assert (Hsame : ApiSurface.name i = group 2 m
                  /\ ApiSurface.type i = t
                  /\ ApiSurface.visibility i
                     = ApiSurface._parse_visibility (Py.strip (group 1 m))
                  /\ ApiSurface.visibility_raw i = Py.strip (group 1 m)
                  /\ ApiSurface.file i = file_path
                  /\ ApiSurface.line i
                     = ApiSurface.line_at content (m_start m)).
  { subst i. by destruct (_ !! _). }
  destruct Hsame as (-> & -> & -> & -> & -> & ->).
  split_and!; try done.
  - unfold ApiSurface.item_patterns in Hp. simpl in Hp.
    repeat (destruct Hp as [[= <- _]|Hp]; [simpl; tauto|]). done.
  - apply parse_visibility_pub. by apply strip_keeps_pub.
  - unfold ApiSurface.line_at. lia.
Qed.

End WellFormedFacts.

(* ===================================================================== *)
(** * The order of the detections *)
(* ===================================================================== *)

Section SortDescOrder.
Context {A K : Type} (leb : K -> K -> bool) (key : A -> K).
Hypothesis leb_total : forall a b, leb a b = true \/ leb b a = true.
Hypothesis leb_trans :
  forall a b c, leb a b = true -> leb b c = true -> leb a c = true.

Let above (a b : A) : Prop := leb (key b) (key a) = true.

Lemma insert_desc_sorted (x : A) (l : list A) :
  StronglySorted above l -> StronglySorted above (insert_desc leb key x l).
Proof.
  induction 1 as [|y l Hl IH Hy]; simpl.
  - repeat constructor.
  - destruct (leb (key y) (key x)) eqn:E.
    + constructor; [by constructor|].
      constructor; [done|].
      rewrite List.Forall_forall in *. intros z Hz.
      unfold above in *. eapply leb_trans; [by apply Hy|done].
    + constructor; [done|].
      rewrite List.Forall_forall in *. intros z Hz.
      apply (Permutation_in _ (insert_desc_perm leb key x l)) in Hz.
      destruct Hz as [<-|Hz]; [|by apply Hy].
      unfold above. destruct (leb_total (key x) (key y)); congruence.
Qed.

Lemma sort_desc_sorted (l : list A) :
  StronglySorted above (sort_desc leb key l).
Proof.
  induction l as [|x l IH]; simpl; [constructor|].
  by apply insert_desc_sorted.
Qed.

(** Stability: entries selected by [p], whose keys are tied with one
    another, keep their order. *)
Lemma insert_desc_stable (p : A -> bool) (x : A) (l : list A) :
  (forall y, In y l -> p x = true -> p y = true ->
             leb (key y) (key x) = true) ->
  List.filter p (insert_desc leb key x l) = List.filter p (x :: l).
Proof.
  induction l as [|y l IH]; intros Htie; [done|].
  simpl insert_desc. destruct (leb (key y) (key x)) eqn:E; [done|].
  assert (IH' : List.filter p (insert_desc leb key x l)
                = List.filter p (x :: l)).
  { apply IH. intros z Hz. apply Htie. by right. }
  simpl in *. rewrite IH'.
  destruct (p x) eqn:Hx; [|done].
  destruct (p y) eqn:Hy; [|done].
  rewrite (Htie y) in E by auto. done.
Qed.

Lemma sort_desc_stable (p : A -> bool) (l : list A) :
  (forall x y, In x l -> In y l -> p x = true -> p y = true ->
               leb (key y) (key x) = true) ->
  List.filter p (sort_desc leb key l) = List.filter p l.
Proof.
  induction l as [|x l IH]; intros Htie; [done|].
  simpl sort_desc. rewrite insert_desc_stable.
  - simpl. rewrite IH; [done|].
    intros a b Ha Hb. apply Htie; by right.
  - intros y Hy. apply sort_desc_In in Hy. apply Htie; [by left|by right].
Qed.

End SortDescOrder.

Lemma Qle_bool_total (a b : Q) : Qle_bool a b = true \/ Qle_bool b a = true.
Proof.
  destruct (Qlt_le_dec a b) as [H|H].
  - left. by apply Qle_bool_iff, Qlt_le_weak.
  - right. by apply Qle_bool_iff.
Qed.

Lemma Qle_bool_trans (a b c : Q) :
  Qle_bool a b = true -> Qle_bool b c = true -> Qle_bool a c = true.
Proof. rewrite !Qle_bool_iff. apply Qle_trans. Qed.

Lemma leb_total (a b : nat) : (a <=? b) = true \/ (b <=? a) = true.
Proof. rewrite !Nat.leb_le. lia. Qed.

Lemma leb_trans (a b c : nat) :
  (a <=? b) = true -> (b <=? c) = true -> (a <=? c) = true.
Proof. rewrite !Nat.leb_le. lia. Qed.

Lemma StronglySorted_weaken {A : Type} (R R' : A -> A -> Prop) (l : list A) :
  (forall a b, R a b -> R' a b) ->
  StronglySorted R l -> StronglySorted R' l.
Proof.
  intros HR. induction 1 as [|x l Hl IH Hx]; constructor; [done|].
  eapply List.Forall_impl; [|exact Hx]. intros a. apply HR.
Qed.

Section ByConfidence.
Import TableOrder.
Context {A : Type} (key : A -> Q).

Lemma sort_desc_descending (l : list A) :
  descending key (sort_desc Qle_bool key l).
Proof.
  unfold descending.
  eapply StronglySorted_weaken;
    [|apply (sort_desc_sorted Qle_bool key Qle_bool_total Qle_bool_trans)].
  intros a b H. by apply Qle_bool_iff.
Qed.

Lemma sort_desc_tied (q : Q) (l : list A) :
  tied key q (sort_desc Qle_bool key l) = tied key q l.
Proof.
  apply sort_desc_stable. intros x y _ _ Hx Hy.
  apply Qeq_bool_iff in Hx, Hy. apply Qle_bool_iff.
  rewrite Hx, Hy. apply Qle_refl.
Qed.

End ByConfidence.

Section OrderClaims.
Import TableOrder.

Lemma analyze_loop_table sigs all_code cargo acc :
  Patterns.analyze_loop sigs all_code cargo acc
  = Ok (acc ++ table_detections sigs all_code cargo).
Proof.
  revert acc. induction sigs as [|[n sig] sigs IH]; intros acc; simpl.
  - by rewrite app_nil_r.
  - unfold table_detections. simpl. unfold signature_detection at 1. simpl.
    rewrite PatternsFacts.analyze_signature_cases. simpl.
    match goal with
    | |- context [if ?b then Some ?d else None] => destruct b
    end.
    + rewrite IH. by rewrite <- app_assoc.
    + apply IH.
Qed.

(** X1.  The pattern detector returns the detections of the table sorted by
    confidence, largest first; detections of equal confidence stay in the
    order of the table. *)
Theorem analyze_sorted_and_stable :
  forall sigs all_code cargo,
    exists ds,
      Patterns.analyze_with sigs all_code cargo = Ok ds
      /\ Permutation ds (table_detections sigs all_code cargo)
      /\ descending Patterns.confidence ds
      /\ forall q,
           tied Patterns.confidence q ds
           = tied Patterns.confidence q
               (table_detections sigs all_code cargo).
Proof.
  intros sigs all_code cargo.
  exists (sort_desc Qle_bool Patterns.confidence
            (table_detections sigs all_code cargo)).
  unfold Patterns.analyze_with. rewrite analyze_loop_table. simpl.
  split_and!; [done| | |].
  - apply sort_desc_perm.
  - apply sort_desc_descending.
  - intros q. apply sort_desc_tied.
Qed.

Lemma detect_loop_table styles combined acc :
  Architecture.detect_loop styles combined acc
  = Ok (acc ++ style_detections styles combined).
Proof.
  revert acc. induction styles as [|[n info] styles IH]; intros acc; simpl.
  - by rewrite app_nil_r.
  - unfold style_detections. simpl. unfold style_detection at 1. simpl.
    rewrite ArchitectureFacts.detect_style_cases. simpl.
    match goal with
    | |- context [if ?b then Some ?d else None] => destruct b
    end.
    + rewrite IH. by rewrite <- app_assoc.
    + apply IH.
Qed.


End OrderClaims.

(* ===================================================================== *)
(** * Substrings *)
(* ===================================================================== *)

Module ContainsFacts.

Import StringFacts.

Lemma contains_cons sub c s :
  Py.contains sub (String c s)
  = String.prefix sub (String c s) || Py.contains sub s.
Proof. reflexivity. Qed.

Lemma contains_empty sub : Py.contains sub "" = String.prefix sub "" || false.
Proof. reflexivity. Qed.

(** [sub in s] holds exactly when [s] is some text, [sub], some text. *)
Lemma contains_iff sub s :
  Py.contains sub s = true <-> exists x y, s = x +:+ sub +:+ y.
Proof.
  split.
  - induction s as [|c s IH].
    + rewrite contains_empty, orb_false_r.
      intros [y Hy]%prefix_split. by exists "", y.
    + rewrite contains_cons. intros [H|H]%orb_true_iff.
      * apply prefix_split in H as [y Hy]. by exists "", y.
      * destruct (IH H) as (x & y & ->). by exists (String c x), y.
  - intros (x & y & ->). induction x as [|c x IH].
    + rewrite app_empty_l. destruct (sub +:+ y) eqn:E.
      * rewrite contains_empty, <- E, prefix_app. done.
      * rewrite contains_cons, <- E, prefix_app. done.
    + rewrite app_cons, contains_cons, IH. apply orb_true_r.
Qed.

(** A text embedded in a larger one keeps its substrings. *)
Lemma contains_embedded sub pre s post :
  Py.contains sub s = true ->
  Py.contains sub (pre +:+ s +:+ post) = true.
Proof.
  rewrite !contains_iff. intros (x & y & ->).
  exists (pre +:+ x), (y +:+ post). by rewrite !app_assoc.
Qed.

Lemma count_from_cons sub c s :
  Py.count_from sub 0 (String c s)
  = if String.prefix sub (String c s)
    then S (Py.count_from sub (String.length sub - 1) s)
    else Py.count_from sub 0 s.
Proof. reflexivity. Qed.

Lemma count_from_contains sub s :
  sub <> "" -> Py.contains sub s = true -> 1 <= Py.count_from sub 0 s.
Proof.
  intros Hsub. induction s as [|c s IH].
  - rewrite contains_empty, orb_false_r. by destruct sub.
  - rewrite contains_cons, count_from_cons.
    destruct (String.prefix sub (String c s)); simpl; [lia|]. apply IH.
Qed.

End ContainsFacts.

(* ===================================================================== *)
(** * Growth of the corpus *)
(* ===================================================================== *)

Section MonotoneClaims.
Import Patterns PatternsFacts ContainsFacts Growth.

Lemma filter_length_mono {A} (f g : A -> bool) (l : list A) :
  (forall x, In x l -> f x = true -> g x = true) ->
  List.length (List.filter f l) <= List.length (List.filter g l).
Proof.
  induction l as [|x l IH]; intros H; simpl; [lia|].
  assert (IH' : List.length (List.filter f l)
                <= List.length (List.filter g l)).
  { apply IH. intros y Hy. apply H. by right. }
  destruct (f x) eqn:Hf.
  - rewrite (H x (or_introl eq_refl) Hf). simpl. lia.
  - destruct (g x); simpl; lia.
Qed.

Lemma hits_kept_score sig code1 cargo1 code2 cargo2 :
  hits_kept sig code1 cargo1 code2 cargo2 ->
  s_score (score_signature sig code1 cargo1)
  <= s_score (score_signature sig code2 cargo2)
  /\ s_max (score_signature sig code1 cargo1)
     = s_max (score_signature sig code2 cargo2).
Proof.
  intros (Hk & Hi & Hp & Ht). rewrite !score_signature_score.
  rewrite !score_signature_max. split; [|done].
  unfold kw_hits, imp_hits, pat_hits, trait_hits.
  pose proof (filter_length_mono _ _ _ Hk).
  pose proof (filter_length_mono _ _ _ Hi).
  pose proof (filter_length_mono _ _ _ Ht).
  assert (List.length
            (List.filter
               (fun pat =>
                  bool_decide (is_Some (Re.search (pat_re pat) code1)))
               (get_list (patterns sig)))
          <= List.length
               (List.filter
                  (fun pat =>
                     bool_decide (is_Some (Re.search (pat_re pat) code2)))
                  (get_list (patterns sig)))).
  { apply filter_length_mono. intros pat Hin Hpat.
    apply bool_decide_eq_true. apply bool_decide_eq_true in Hpat. eauto. }
  lia.
Qed.

Lemma ratio_mono (a b m : nat) :
  a <= b -> (Z.of_nat a # Pos.of_nat m <= Z.of_nat b # Pos.of_nat m)%Q.
Proof. intros H. unfold Qle. simpl. nia. Qed.

Lemma py_min_mono (a b c : Q) : (a <= b)%Q -> (py_min a c <= py_min b c)%Q.
Proof.
  intros H. unfold py_min.
  destruct (Qle_bool a c) eqn:Ea, (Qle_bool b c) eqn:Eb.
  - done.
  - by apply Qle_bool_iff.
  - assert (a <= c)%Q as Hac%Qle_bool_iff; [|congruence].
    apply Qle_bool_iff in Eb. by eapply Qle_trans.
  - apply Qle_refl.
Qed.

Lemma hits_kept_detection pattern_name sig code1 cargo1 code2 cargo2 d1 :
  hits_kept sig code1 cargo1 code2 cargo2 ->
  analyze_signature pattern_name sig code1 cargo1 = Ok (Some d1) ->
  exists d2,
    analyze_signature pattern_name sig code2 cargo2 = Ok (Some d2)
    /\ (confidence d1 <= confidence d2)%Q.
Proof.
  intros Hkept H1.
  destruct (hits_kept_score _ _ _ _ _ Hkept) as [Hscore Hmax].
  apply detection_sound in H1 as (_ & Hc1 & _ & Hm1 & Hs1 & Hq1).
  cbv zeta in *.
  set (st1 := score_signature sig code1 cargo1) in *.
  set (st2 := score_signature sig code2 cargo2) in *.
  assert (Hle : (confidence d1
                 <= py_min (Z.of_nat (s_score st2) # Pos.of_nat (s_max st2))
                      1)%Q).
  { rewrite Hc1, Hmax. apply py_min_mono, ratio_mono. lia. }
  rewrite analyze_signature_cases. cbv zeta. fold st2.
  replace (0 <? s_max st2) with true by (symmetry; apply Nat.ltb_lt; lia).
  replace (0 <? s_score st2) with true by (symmetry; apply Nat.ltb_lt; lia).
  replace (Qle_bool (2 # 10)
             (py_min (Z.of_nat (s_score st2) # Pos.of_nat (s_max st2)) 1))
    with true.
  - simpl. eexists. split; [done|]. simpl. exact Hle.
  - symmetry. apply Qle_bool_iff. by eapply Qle_trans.
Qed.

(** A signature keeps its hits when corpus and manifest are embedded in
    larger texts. *)
Lemma embedded_hits_kept sig code cargo pre post cpre cpost :
  hits_kept sig code cargo (pre +:+ code +:+ post) (cpre +:+ cargo +:+ cpost).
Proof.
  split_and!.
  - intros kw _. apply contains_embedded.
  - intros imp _ [H|H]%orb_true_iff; apply orb_true_iff.
    + left. by apply contains_embedded.
    + right. by apply contains_embedded.
  - intros pat _. apply ReComplete.search_embedded.
  - intros t _. apply contains_embedded.
Qed.

(** X3.  Monotonicity.  When every keyword, import, structural pattern and
    trait of a signature that matches one corpus also matches another, the
    signature scores at least as high on the other: a detection on the
    first corpus is a detection on the second, with a confidence at least
    as large. *)
Theorem more_hits_never_lower_confidence :
  forall pattern_name sig code1 cargo1 code2 cargo2 d1,
    hits_kept sig code1 cargo1 code2 cargo2 ->
    analyze_signature pattern_name sig code1 cargo1 = Ok (Some d1) ->
    exists d2,
      analyze_signature pattern_name sig code2 cargo2 = Ok (Some d2)
      /\ (confidence d1 <= confidence d2)%Q.
Proof.
  intros n sig code1 cargo1 code2 cargo2 d1. apply hits_kept_detection.
Qed.

(** Text around the corpus and around the manifest loses no detection. *)
Lemma embedded_detections :
  forall sigs code cargo pre post cpre cpost,
    exists ds1 ds2,
      analyze_with sigs code cargo = Ok ds1
      /\ analyze_with sigs (pre +:+ code +:+ post)
           (cpre +:+ cargo +:+ cpost) = Ok ds2
      /\ List.Forall
           (fun d1 => exists d2,
                In d2 ds2 /\ name d2 = name d1
                /\ (confidence d1 <= confidence d2)%Q) ds1.
Proof.
  intros sigs code cargo pre post cpre cpost.
  destruct (analyze_with_spec sigs code cargo) as (ds1 & H1 & Hin1).
  destruct (analyze_with_spec sigs (pre +:+ code +:+ post)
              (cpre +:+ cargo +:+ cpost)) as (ds2 & H2 & Hin2).
  exists ds1, ds2. split; [done|]. split; [done|].
  apply List.Forall_forall. intros d1 (n & sig & Hsig & Hd1)%Hin1.
  destruct (hits_kept_detection n sig _ _ _ _ d1
              (embedded_hits_kept sig code cargo pre post cpre cpost) Hd1)
    as (d2 & Hd2 & Hle).
  exists d2. split_and!; [|  |done].
  - apply Hin2. by exists n, sig.
  - apply detection_sound in Hd1 as (-> & _).
    by apply detection_sound in Hd2 as (-> & _).
Qed.

End MonotoneClaims.

(* ===================================================================== *)
(** * Test code is left out *)
(* ===================================================================== *)

Section TestFileClaims.
Import StringFacts ContainsFacts.

Lemma is_test_file_contains pattern rel_path :
  In pattern EXCLUDE_PATH_PATTERNS ->
  Py.contains pattern rel_path = true ->
  _is_test_file rel_path = true.
Proof.
  intros Hin Hc. unfold _is_test_file. apply existsb_exists.
  exists pattern. split; [done|]. by rewrite Hc.
Qed.

Lemma is_test_file_directory dir before after :
  In dir test_directories ->
  _is_test_file (before +:+ "/" +:+ dir +:+ "/" +:+ after) = true.
Proof.
  intros Hdir.
  apply (is_test_file_contains ("/" +:+ dir +:+ "/")).
  - unfold test_directories in Hdir. simpl in Hdir.
    repeat (destruct Hdir as [<-|Hdir]; [simpl; tauto|]). done.
  - apply contains_iff. exists before, after. by rewrite !app_assoc.
Qed.

Lemma is_test_file_suffix suffix before after :
  In suffix test_suffixes ->
  _is_test_file (before +:+ suffix +:+ after) = true.
Proof.
  intros Hs. apply (is_test_file_contains suffix).
  - unfold test_suffixes in Hs. simpl in Hs.
    repeat (destruct Hs as [<-|Hs]; [simpl; tauto|]). done.
  - apply contains_iff. by exists before, after.
Qed.

Lemma concat_code_app l1 l2 :
  concat_code (l1 ++ l2) = concat_code l1 +:+ concat_code l2.
Proof.
  induction l1 as [|f l1 IH]; simpl; [done|].
  destruct (text f); [|done]. by rewrite IH, !app_assoc.
Qed.

Lemma iter_source_files_without p l1 f l2 :
  _is_test_file (rel_path f) = true ->
  _iter_source_files (with_files p (l1 ++ f :: l2)) false
  = _iter_source_files (with_files p (l1 ++ l2)) false.
Proof.
  intros Hf. unfold _iter_source_files. simpl.
  rewrite !List.filter_app. simpl. by rewrite Hf.
Qed.

Lemma collect_code_without p l1 f l2 :
  _is_test_file (rel_path f) = true ->
  collect_code (with_files p (l1 ++ f :: l2))
  = collect_code (with_files p (l1 ++ l2)).
Proof.
  intros Hf. unfold collect_code. by rewrite iter_source_files_without.
Qed.

(** X5.  A Rust file below a directory named tests, test, benches, bench,
    examples, example, fuzz or stress (at any depth below the first
    segment), or whose path holds _test.rs, _tests.rs or _bench.rs, is test
    code; the pattern, style and communication detectors and the API
    surface give the same result with and without it, wherever the scan
    lists it. *)
Theorem test_files_do_not_count :
  forall p l1 f l2,
    (exists before after,
        (exists dir, In dir test_directories
                     /\ rel_path f
                        = before +:+ "/" +:+ dir +:+ "/" +:+ after)
        \/ (exists suffix, In suffix test_suffixes
                           /\ rel_path f = before +:+ suffix +:+ after)) ->
    _is_test_file (rel_path f) = true
    /\ Patterns.analyze (with_files p (l1 ++ f :: l2))
       = Patterns.analyze (with_files p (l1 ++ l2))
    /\ Architecture.detect_architecture_style (with_files p (l1 ++ f :: l2))
       = Architecture.detect_architecture_style (with_files p (l1 ++ l2))
    /\ Communication.detect_communication_patterns
         (with_files p (l1 ++ f :: l2))
       = Communication.detect_communication_patterns
           (with_files p (l1 ++ l2))
    /\ ApiReport.analyze_api_surface (with_files p (l1 ++ f :: l2))
       = ApiReport.analyze_api_surface (with_files p (l1 ++ l2)).
Proof.
  intros p l1 f l2 (before & after & Hpath).
  assert (Hf : _is_test_file (rel_path f) = true).
  { destruct Hpath as [(dir & Hd & ->)|(suffix & Hs & ->)].
    - by apply is_test_file_directory.
    - by apply is_test_file_suffix. }
  split; [done|].
  unfold Patterns.analyze, Architecture.detect_architecture_style,
    Communication.detect_communication_patterns,
    ApiReport.analyze_api_surface.
  by rewrite (collect_code_without p l1 f l2 Hf),
       (iter_source_files_without p l1 f l2 Hf).
Qed.

End TestFileClaims.

(* ===================================================================== *)
(** * Growth of a project *)
(* ===================================================================== *)

Section GrowthClaims.
Import StringFacts Patterns PatternsFacts.

(** X4.  Growth of the corpus.  When source text is added before or after the
    corpus and text is added around the manifest, every pattern that was
    detected is still detected, with a confidence that is at least as
    large; so it is when the scan of a project lists one more file at its
    end. *)
Theorem larger_corpus_keeps_detections :
  (forall sigs code cargo pre post cpre cpost,
      exists ds1 ds2,
        analyze_with sigs code cargo = Ok ds1
        /\ analyze_with sigs (pre +:+ code +:+ post)
             (cpre +:+ cargo +:+ cpost) = Ok ds2
        /\ List.Forall
             (fun d1 => exists d2,
                  In d2 ds2 /\ name d2 = name d1
                  /\ (confidence d1 <= confidence d2)%Q) ds1)
  /\ (forall p files rs_file,
        exists ds1 ds2,
          analyze (with_files p files) = Ok ds1
          /\ analyze (with_files p (files ++ [rs_file])) = Ok ds2
          /\ List.Forall
               (fun d1 => exists d2,
                    In d2 ds2 /\ name d2 = name d1
                    /\ (confidence d1 <= confidence d2)%Q) ds1).
Proof.
  split; [apply embedded_detections|].
  intros p files f. unfold analyze.
  assert (Hcode : collect_code (with_files p (files ++ [f]))
                  = "" +:+ collect_code (with_files p files)
                    +:+ concat_code
                          (_iter_source_files (with_files p [f]) false)).
  { unfold collect_code, _iter_source_files. simpl.
    by rewrite List.filter_app, concat_code_app. }
  assert (Hcargo : read_cargo (with_files p (files ++ [f]))
                   = "" +:+ read_cargo (with_files p files) +:+ "").
  { cbn. by rewrite app_empty_r. }
  rewrite Hcode, Hcargo. apply embedded_detections.
Qed.

End GrowthClaims.

(* ===================================================================== *)
(** * Communication patterns *)
(* ===================================================================== *)

Section CommunicationClaims.
Import Communication ContainsFacts.

Lemma str_count_contains combined sig :
  Py.contains sig combined = true -> 1 <= str_count combined sig.
Proof.
  intros Hc. unfold str_count. destruct sig as [|c sig]; [lia|].
  by apply count_from_contains.
Qed.

Lemma sum_at_least (l : list nat) :
  List.Forall (fun n => 1 <= n) l -> List.length l <= sum l.
Proof.
  induction 1 as [|n l Hn _ IH]; simpl; [lia|]. unfold sum in *. simpl. lia.
Qed.

Lemma detect_pattern_sound combined entry d :
  detect_pattern combined entry = Some d ->
  pattern d = entry.1
  /\ evidence d
     = List.filter (fun sig => Py.contains sig combined) entry.2
  /\ evidence d <> []
  /\ usage_count d
     = sum (List.map (fun sig => str_count combined sig) (evidence d))
  /\ List.length (evidence d) <= usage_count d.
Proof.
  destruct entry as [n sigs]. unfold detect_pattern.
  destruct (List.filter _ sigs) as [|s0 found] eqn:E; [done|].
  intros [= <-]. cbn [pattern evidence usage_count fst snd].
  split_and!; try done.
  rewrite <- (length_map (fun sig => str_count combined sig)).
  apply sum_at_least. rewrite <- E. apply List.Forall_forall.
  intros n' (sig & <- & Hsig)%in_map_iff.
  apply filter_In in Hsig as [_ Hc]. by apply str_count_contains.
Qed.

(** X6.  Every communication pattern that is reported names an entry of the
    table, lists as evidence exactly the signatures of that entry that
    occur in sources plus manifest, at least one, and counts at least one
    usage per listed signature; the report is ordered by usage count,
    largest first, and entries with equal counts stay in table order. *)
Theorem communication_patterns_counted_and_sorted :
  forall table all_code cargo,
    let combined := all_code +:+ cargo in
    let ds := detect_with table all_code cargo in
    List.Forall
      (fun d =>
         exists signatures,
           In (pattern d, signatures) table
           /\ evidence d
              = List.filter (fun sig => Py.contains sig combined) signatures
           /\ evidence d <> []
           /\ usage_count d
              = sum (List.map (str_count combined) (evidence d))
           /\ List.length (evidence d) <= usage_count d) ds
    /\ Permutation ds (omap (detect_pattern combined) table)
    /\ StronglySorted (fun a b => usage_count b <= usage_count a) ds
    /\ forall n,
         List.filter (fun d => usage_count d =? n) ds
         = List.filter (fun d => usage_count d =? n)
             (omap (detect_pattern combined) table).
Proof.
  intros table all_code cargo combined ds. subst ds. unfold detect_with.
  fold combined. split_and!.
  - apply List.Forall_forall. intros d Hd.
    apply sort_desc_In in Hd.
    apply list_elem_of_In, list_elem_of_omap in Hd as ([n sigs] & Hin & Hd).
    apply list_elem_of_In in Hin.
    apply detect_pattern_sound in Hd as (Hn & He & Hne & Hu & Hle).
    simpl in *. exists sigs. rewrite Hn. done.
  - apply sort_desc_perm.
  - eapply StronglySorted_weaken;
      [|apply (sort_desc_sorted Nat.leb usage_count leb_total leb_trans)].
    intros a b H. by apply Nat.leb_le.
  - intros n. apply sort_desc_stable. intros x y _ _ Hx Hy.
    apply Nat.eqb_eq in Hx, Hy. apply Nat.leb_le. lia.
Qed.

End CommunicationClaims.

(* ===================================================================== *)
(** * The shape of a knowledge graph *)
(* ===================================================================== *)

Module GraphShapeFacts.

Import Re ReSpec ReFacts KnowledgeGraph KnowledgeGraphFacts GraphShape.
Import WellFormedFacts.

Lemma file_entities_In rs_file e :
  In e (file_entities rs_file) ->
  exists content,
    Py.in_list "target" (parts rs_file) = false
    /\ text rs_file = Some content
    /\ In e (_extract_entities content (rel_path rs_file)).
Proof.
  unfold file_entities.
  destruct (Py.in_list "target" (parts rs_file)); [done|].
  destruct (text rs_file) as [content|]; [|done].
  intros He. by exists content.
Qed.

Lemma node_is_candidate p n :
  In n (nodes (build_knowledge_graph p)) -> In n (candidates p).
Proof.
  rewrite build_nodes_first_seen. unfold first_seen.
  intros (before & after & -> & _)%first_seen_from_In.
  apply in_or_app. right. by left.
Qed.

(** The relationship patterns fill the groups that the edges read, with
    identifiers where the pattern asks for word characters. *)
Lemma impl_pattern_capture :
  binds 1 impl_pattern = true /\ binds 2 impl_pattern = true
  /\ captured (fun _ t => is_identifier t) impl_pattern.
Proof.
  assert (Hw : forall p c c', matches w1 p c c' -> is_identifier p)
    by apply matches_w1.
  unfold impl_pattern, opt_generics.
  simpl; rewrite ?binds_lit; split_and!; try done;
    repeat split; try apply captured_lit; try done; by eapply Hw.
Qed.

Lemma derive_pattern_capture :
  binds 2 derive_pattern = true
  /\ captured (fun n t => n = 2 -> is_identifier t) derive_pattern.
Proof.
  assert (Hw : forall p c c', matches w1 p c c' -> is_identifier p)
    by apply matches_w1.
  unfold derive_pattern, opt_pub0.
  simpl; rewrite ?binds_lit; split_and!; try done;
    repeat split; try apply captured_lit; try done;
    intros; by eapply Hw.
Qed.

Lemma mod_pattern_capture :
  binds 1 mod_pattern = true
  /\ captured (fun _ t => is_identifier t) mod_pattern.
Proof.
  assert (Hw : forall p c c', matches w1 p c c' -> is_identifier p)
    by apply matches_w1.
  unfold mod_pattern, opt_pub0.
  simpl; rewrite ?binds_lit; split_and!; try done;
    repeat split; try apply captured_lit; try done; by eapply Hw.
Qed.

Lemma extract_relationships_shape content file_path entity_map names e :
  (forall k, is_Some (entity_map !! k) -> In k names) ->
  In e (_extract_relationships content file_path entity_map) ->
  source e = file_path /\ well_formed_edge names e.
Proof.
  intros Hmap. unfold _extract_relationships.
  rewrite !in_app_iff.
  intros [H|[H|[H|[H|H]]]].
  - apply in_map_iff in H as (m & <- & Hm). split; [done|]. left. simpl.
    destruct impl_pattern_capture as (H1 & H2 & Hc).
    split_and!; [done| |].
    + exact (finditer_group _ 2 _ _ _ Hm Hc H2).
    + exact (finditer_group _ 1 _ _ _ Hm Hc H1).
  - apply in_flat_map in H as (m & Hm & H).
    apply in_map_iff in H as (t & <- & _). split; [done|].
    right; left. simpl. split; [done|].
    destruct derive_pattern_capture as (H2 & Hc).
    exact (finditer_group _ 2 _ _ _ Hm Hc H2 eq_refl).
  - apply in_map_iff in H as (m & <- & Hm). split; [done|].
    right; right; left. simpl. split_and!; [done|done|].
    destruct mod_pattern_capture as (H1 & Hc).
    exact (finditer_group _ 1 _ _ _ Hm Hc H1).
  - apply list_elem_of_In, list_elem_of_omap in H as (m & _ & H).
    destruct (known entity_map _) eqn:Hk; [|done]. injection H as <-.
    split; [done|]. right; right; right; left. simpl.
    split_and!; [done|done|].
    apply Hmap. unfold known in Hk. by apply bool_decide_eq_true in Hk.
  - apply list_elem_of_In, list_elem_of_omap in H as (m & _ & H).
    destruct (known entity_map _) eqn:Hk; [|done].
    destruct (Py.in_list _ primitives) eqn:Hp; [done|].
    injection H as <-.
    split; [done|]. right; right; right; right.
    cbn [relationship edge_from edge_to source].
    split; [done|]. split; [done|]. split.
    + apply Hmap. unfold known in Hk. by apply bool_decide_eq_true in Hk.
    + exact (proj1 (in_list_not_In _ _) Hp).
Qed.

Lemma add_file_unfold b rs_file :
  map_tracks b ->
  add_file b rs_file = b
  \/ exists content,
       Py.in_list "target" (parts rs_file) = false
       /\ text rs_file = Some content
       /\ b_edges (add_file b rs_file)
          = b_edges b
            ++ _extract_relationships content (rel_path rs_file)
                 (b_map (add_file b rs_file)).
Proof.
  intros Hb. unfold add_file.
  destruct (Py.in_list "target" (parts rs_file)); [by left|].
  destruct (text rs_file) as [content|]; [|by left].
  right. exists content. split_and!; [done|done|]. simpl.
  by destruct (fold_add_entity_spec
                 (_extract_entities content (rel_path rs_file)) b Hb)
    as (_ & _ & ->).
Qed.

Lemma fold_add_file_edges files :
  forall b,
    map_tracks b ->
    forall e,
      In e (b_edges (fold_left add_file files b)) ->
      In e (b_edges b)
      \/ exists rs_file content entity_map,
           In rs_file files
           /\ Py.in_list "target" (parts rs_file) = false
           /\ text rs_file = Some content
           /\ In e (_extract_relationships content (rel_path rs_file)
                      entity_map)
           /\ forall k,
                is_Some (entity_map !! k) ->
                In k (List.map node_name
                        (b_nodes (fold_left add_file files b))).
Proof.
  induction files as [|f files IH]; intros b Hb e He; [by left|].
  simpl in He |- *.
  destruct (add_file_spec b f Hb) as [Hb' _].
  destruct (IH _ Hb' e He) as [H|(f' & c & em & Hf & Ht & Hc & Hin & Hk)].
  - destruct (add_file_unfold b f Hb) as [Heq|(c & Ht & Hc & Hedges)];
      [left; by rewrite <- Heq|].
    rewrite Hedges in H. apply in_app_or in H as [H|H]; [by left|].
    right. exists f, c, (b_map (add_file b f)).
    split_and!; try done; [by left|].
    intros k Hk. apply Hb' in Hk.
    destruct (fold_add_file_spec files _ Hb') as [_ ->].
    rewrite List.map_app. apply in_or_app. by left.
  - right. exists f', c, em. split_and!; try done. by right.
Qed.

Lemma item_le_total : Total item_le.
Proof. intros x y. unfold item_le. apply String.le_total. Qed.

Lemma item_le_trans : Transitive item_le.
Proof. intros x y z. unfold item_le. apply transitivity. Qed.

Lemma StronglySorted_strict {A : Type} (R : A -> A -> Prop)
      (key : A -> string) (l : list A) :
  StronglySorted R l ->
  List.NoDup (List.map key l) ->
  StronglySorted (fun a b => key a <> key b /\ R a b) l.
Proof.
  induction 1 as [|x l Hl IH Hx]; intros Hnd; [constructor|].
  simpl in Hnd. apply List.NoDup_cons_iff in Hnd as [Hnin Hnd].
  constructor; [by apply IH|].
  apply List.Forall_forall. intros y Hy. split.
  - intros Heq. apply Hnin. rewrite Heq. by apply in_map.
  - rewrite List.Forall_forall in Hx. by apply Hx.
Qed.

Lemma StronglySorted_map {A B : Type} (R : B -> B -> Prop) (f : A -> B)
      (l : list A) :
  StronglySorted (fun a b => R (f a) (f b)) l ->
  StronglySorted R (List.map f l).
Proof.
  induction 1 as [|x l Hl IH Hx]; simpl; constructor; [done|].
  apply List.Forall_forall. intros y (a & <- & Ha)%in_map_iff.
  rewrite List.Forall_forall in Hx. by apply Hx.
Qed.

Lemma sorted_set_ascending ids : ascending (sorted_set ids).
Proof.
  unfold ascending, sorted_set.
  apply (StronglySorted_strict String.le (fun s => s)).
  - apply StronglySorted_merge_sort; apply _.
  - rewrite List.map_id. apply NoDup_ListNoDup.
    rewrite merge_sort_Permutation. apply NoDup_remove_dups.
Qed.

Lemma sorted_set_nil ids : sorted_set ids = [] -> ids = [].
Proof.
  destruct ids as [|i ids]; [done|]. intros H.
  assert (Hin : In i (sorted_set (i :: ids)))
    by (apply sorted_set_In; by left).
  by rewrite H in Hin.
Qed.

Lemma ascending_NoDup l : ascending l -> List.NoDup l.
Proof.
  induction 1 as [|x l Hl IH Hx]; constructor; [|done].
  intros Hin. rewrite List.Forall_forall in Hx.
  by destruct (Hx x Hin) as [Hne _].
Qed.

Lemma identify_clusters_names nodes edges name :
  In name (List.map cluster_name (_identify_clusters nodes edges)) ->
  In name (List.map (fun n => layer_of (node_module n)) nodes).
Proof.
  intros (c & <- & Hc)%in_map_iff.
  apply identify_clusters_In in Hc as (ids & Hl & _).
  rewrite fold_add_to_cluster_lookup in Hl.
  destruct (List.filter _ nodes) as [|n ns] eqn:E; [done|].
  assert (Hn : In n (List.filter
                       (fun n => String.eqb (layer_of (node_module n))
                                   (cluster_name c)) nodes))
    by (rewrite E; by left).
  apply filter_In in Hn as [Hn Heq]. apply String.eqb_eq in Heq.
  apply in_map_iff. by exists n.
Qed.

Lemma node_shape p n :
  In n (nodes (build_knowledge_graph p)) -> well_formed_node p n.
Proof.
  intros Hn.
  apply node_is_candidate in Hn. unfold candidates in Hn.
  apply in_flat_map in Hn as (f & Hf & Hn).
  apply file_entities_In in Hn as (content & Ht & Hc & Hn).
  destruct (entity_name_identifier _ _ _ Hn) as (Hid & Hty & Hvis).
  destruct (extract_entities_kept _ _ _ Hn) as (_ & Hidn & Hmod).
  unfold well_formed_node. split_and!; try done.
  by exists f, content.
Qed.

End GraphShapeFacts.

Section GraphShapeClaims.

Import ReSpec KnowledgeGraph KnowledgeGraphFacts GraphShape GraphShapeFacts.
Import WellFormedFacts.

(** X7.  Every node of the graph is named by an identifier, which is also its
    id, has one of the five kinds struct, enum, trait, impl and fn, is
    marked pub or private, and names as its module a readable Rust file
    outside [target], from whose text it was extracted. *)
Theorem graph_nodes_well_formed :
  forall p,
    List.Forall (well_formed_node p) (nodes (build_knowledge_graph p)).
Proof.
  intros p. apply List.Forall_forall. intros n. apply node_shape.
Qed.

(** X8.  Every edge of the graph comes from a readable Rust file outside
    [target] and has one of five kinds.  An implements edge joins two
    identifiers; a derives edge starts at an identifier; a contains edge
    goes from the stem of its file to an identifier; a uses edge goes from
    the stem of its file to a node of the graph; a references edge goes
    from the fixed name field_usage to a node of the graph that is no
    primitive type. *)
Theorem graph_edges_well_formed :
  forall p,
    let g := build_knowledge_graph p in
    List.Forall
      (fun e => edge_source_in p e
                /\ well_formed_edge (List.map node_name (nodes g)) e)
      (edges g).
Proof.
  intros p g. apply List.Forall_forall. intros e He.
  subst g. unfold build_knowledge_graph in *. simpl in *.
  assert (Hb : map_tracks {| b_nodes := []; b_edges := []; b_map := ∅ |}).
  { intros k. simpl. rewrite lookup_empty. split; [by intros []|done]. }
  destruct (fold_add_file_edges _ _ Hb e He)
    as [[]|(f & c & em & Hf & Ht & Hc & Hin & Hk)].
  destruct (extract_relationships_shape _ _ _ _ _ Hk Hin) as [Hs Hw].
  split; [|done]. exists f. split; [done|]. split; [done|].
  split; [by rewrite Hc|done].
Qed.

(** X9.  The clusters come out in strictly ascending order of their names;
    each lists its node ids in strictly ascending order, so without
    repetition, and lists at least one; there are at most as many
    clusters as nodes. *)
Theorem clusters_sorted_and_nonempty :
  forall nodes edges,
    let clusters := _identify_clusters nodes edges in
    ascending (List.map cluster_name clusters)
    /\ List.Forall
         (fun c => cluster_nodes c <> [] /\ ascending (cluster_nodes c))
         clusters
    /\ List.length clusters <= List.length nodes.
Proof.
  intros nodes edges clusters. split_and!.
  - unfold ascending. apply StronglySorted_map.
    apply (StronglySorted_strict (fun a b => String.le (cluster_name a)
                                               (cluster_name b))
             cluster_name).
    + subst clusters. unfold _identify_clusters.
      apply (StronglySorted_map
               (fun a b => String.le (cluster_name a) (cluster_name b))).
      unfold sorted_items.
      pose proof (@StronglySorted_merge_sort _ item_le _
                    item_le_trans item_le_total
                    (map_to_list (fold_left add_to_cluster nodes ∅)))
        as Hs.
      eapply StronglySorted_weaken; [|exact Hs].
      intros [a1 a2] [b1 b2] H. exact H.
    + apply identify_clusters_names_NoDup.
  - apply List.Forall_forall. intros c Hc.
    apply identify_clusters_In in Hc as (ids & Hl & ->).
    split; [|apply sorted_set_ascending].
    rewrite fold_add_to_cluster_lookup in Hl.
    destruct (List.filter _ nodes) as [|n ns]; [done|].
    injection Hl as <-. intros Hnil%sorted_set_nil.
    by apply app_eq_nil in Hnil as [_ Hnil].
  - rewrite <- (length_map cluster_name clusters).
    rewrite <- (length_map (fun n => layer_of (node_module n)) nodes).
    apply List.NoDup_incl_length.
    + apply identify_clusters_names_NoDup.
    + intros name. apply identify_clusters_names.
Qed.

End GraphShapeClaims.

(* ===================================================================== *)
(** * The shape of a semantic index *)
(* ===================================================================== *)

Module IndexShapeFacts.

Import KnowledgeGraph SemanticIndex IndexShape.

Lemma assoc_cons k v d key :
  assoc key ((k, v) :: d) = if String.eqb k key then Some v else assoc key d.
Proof. unfold assoc. simpl. by destruct (String.eqb k key). Qed.

Lemma bump_assoc key d k :
  assoc k (bump key d)
  = if String.eqb key k then Some (default 0 (assoc k d) + 1)
    else assoc k d.
Proof.
  induction d as [|[k' v] d IH]; cbn [bump].
  - rewrite assoc_cons. by destruct (String.eqb key k).
  - destruct (String.eqb k' key) eqn:Hk.
    + apply String.eqb_eq in Hk. subst k'. rewrite !assoc_cons.
      by destruct (String.eqb key k).
    + rewrite !assoc_cons, IH. destruct (String.eqb k' k) eqn:Hk'; [|done].
      apply String.eqb_eq in Hk'. subst k'.
      by rewrite String.eqb_sym, Hk.
Qed.

Lemma bump_keys key d :
  List.map fst (bump key d)
  = if Py.in_list key (List.map fst d) then List.map fst d
    else List.map fst d ++ [key].
Proof.
  induction d as [|[k v] d IH].
  - reflexivity.
  - cbn [bump List.map fst].
    destruct (String.eqb k key) eqn:Hk.
    + apply String.eqb_eq in Hk. subst k.
      assert (H : Py.in_list key (key :: List.map fst d) = true)
        by (apply in_list_In; by left).
      by rewrite H.
    + cbn [List.map fst]. rewrite IH.
      apply String.eqb_neq in Hk.
      destruct (Py.in_list key (List.map fst d)) eqn:Hin.
      * assert (H : Py.in_list key (k :: List.map fst d) = true).
        { apply in_list_In. right. by apply in_list_In. }
        by rewrite H.
      * assert (H : Py.in_list key (k :: List.map fst d) = false).
        { apply in_list_not_In. intros [Heq|Hin']; [done|].
          by apply (proj1 (in_list_not_In _ _) Hin). }
        by rewrite H.
Qed.

Lemma bump_keys_NoDup key d :
  List.NoDup (List.map fst d) -> List.NoDup (List.map fst (bump key d)).
Proof.
  intros Hd. rewrite bump_keys.
  destruct (Py.in_list key (List.map fst d)) eqn:Hin; [done|].
  apply NoDup_ListNoDup, NoDup_app. split_and!.
  - by apply NoDup_ListNoDup.
  - intros x Hx [->|[]]%list_elem_of_In.
    apply list_elem_of_In in Hx.
    by apply (proj1 (in_list_not_In _ _) Hin).
  - apply NoDup_ListNoDup. repeat constructor. by intros [].
Qed.

Lemma assoc_In d k v :
  List.NoDup (List.map fst d) -> In (k, v) d <-> assoc k d = Some v.
Proof.
  induction d as [|[k' v'] d IH]; intros Hd.
  - by split.
  - simpl in Hd. apply List.NoDup_cons_iff in Hd as [Hnin Hd].
    rewrite assoc_cons. simpl.
    destruct (String.eqb k' k) eqn:Hk.
    + apply String.eqb_eq in Hk. subst k'. split.
      * intros [[= ->]|Hin]; [done|].
        exfalso. apply Hnin. apply in_map_iff. by exists (k, v).
      * intros [= ->]. by left.
    + apply String.eqb_neq in Hk. rewrite <- (IH Hd). split.
      * by intros [[= -> ->]|Hin].
      * by right.
Qed.

(** The degrees after counting a list of endpoints. *)
Lemma fold_bump_assoc ks : forall d k,
  assoc k (fold_left (fun d key => bump key d) ks d)
  = match occurrences k ks with
    | 0 => assoc k d
    | S n => Some (default 0 (assoc k d) + S n)
    end.
Proof.
  induction ks as [|key ks IH]; intros d k; [done|].
  cbn [fold_left]. rewrite IH, bump_assoc.
  unfold occurrences. cbn [List.filter].
  rewrite (String.eqb_sym key k).
  destruct (String.eqb k key); cbn [List.length].
  - destruct (List.length _); cbn [default]; [done|].
    f_equal. unfold id. lia.
  - done.
Qed.

Lemma fold_bump_NoDup ks : forall d,
  List.NoDup (List.map fst d) ->
  List.NoDup (List.map fst (fold_left (fun d key => bump key d) ks d)).
Proof.
  induction ks as [|key ks IH]; intros d Hd; [done|].
  cbn [fold_left]. by apply IH, bump_keys_NoDup.
Qed.

Lemma fold_count_edge edges : forall d,
  fold_left count_edge edges d
  = fold_left (fun d key => bump key d) (endpoints edges) d.
Proof.
  induction edges as [|e edges IH]; intros d; [done|].
  cbn [fold_left endpoints List.flat_map List.app]. by rewrite IH.
Qed.

Lemma occurrences_In k ks : In k ks <-> 1 <= occurrences k ks.
Proof.
  unfold occurrences. induction ks as [|x ks IH]; simpl; [lia|].
  destruct (String.eqb k x) eqn:Hk.
  - apply String.eqb_eq in Hk. subst x. simpl. split; [lia|by left].
  - apply String.eqb_neq in Hk. rewrite <- IH. split; [|by right].
    by intros [->|].
Qed.

(** The degree table: one entry for every endpoint, which holds the
    number of times it occurs as an endpoint. *)
Lemma node_degree_spec edges k v :
  In (k, v) (fold_left count_edge edges [])
  <-> v = occurrences k (endpoints edges) /\ 1 <= v.
Proof.
  rewrite fold_count_edge.
  rewrite (assoc_In _ _ _
             (fold_bump_NoDup (endpoints edges) [] (List.NoDup_nil _))).
  rewrite fold_bump_assoc. cbn [assoc List.find default].
  destruct (occurrences k (endpoints edges)) as [|n].
  - split; [done|lia].
  - split; [intros [= <-]; lia|intros [-> _]; f_equal; lia].
Qed.

Lemma node_degree_NoDup edges :
  List.NoDup (List.map fst (fold_left count_edge edges [])).
Proof.
  rewrite fold_count_edge. apply fold_bump_NoDup. constructor.
Qed.

Lemma StronglySorted_app_inv {A : Type} (R : A -> A -> Prop) l1 l2 :
  StronglySorted R (l1 ++ l2) ->
  forall a b, In a l1 -> In b l2 -> R a b.
Proof.
  induction l1 as [|x l1 IH]; intros Hs a b Ha Hb; [done|].
  simpl in Hs. apply StronglySorted_inv in Hs as [Hs Hx].
  destruct Ha as [->|Ha]; [|by apply IH].
  rewrite List.Forall_forall in Hx. apply Hx, in_or_app. by right.
Qed.

Lemma firstn_In {A : Type} n (l : list A) x :
  In x (List.firstn n l) -> In x l.
Proof.
  intros H. rewrite <- (List.firstn_skipn n l). apply in_or_app. by left.
Qed.

Lemma StronglySorted_firstn {A : Type} (R : A -> A -> Prop) n l :
  StronglySorted R l -> StronglySorted R (List.firstn n l).
Proof.
  intros Hs. revert n. induction Hs as [|x l Hl IH Hx]; intros [|n]; simpl;
    try constructor; [apply IH|].
  apply List.Forall_forall. intros y Hy%firstn_In.
  rewrite List.Forall_forall in Hx. by apply Hx.
Qed.

Lemma NoDup_firstn {A : Type} n (l : list A) :
  List.NoDup l -> List.NoDup (List.firstn n l).
Proof.
  intros Hl. rewrite <- (List.firstn_skipn n l) in Hl.
  by apply List.NoDup_app_remove_r in Hl.
Qed.

(** The first map: the concepts of a file. *)
Lemma fold_index_node_files nodes : forall m1 m2 file,
  (fold_left index_node nodes (m1, m2)).1 !! file
  = match concepts_of file nodes with
    | [] => m1 !! file
    | c :: cs => Some (default [] (m1 !! file) ++ c :: cs)
    end.
Proof.
  induction nodes as [|n nodes IH]; intros m1 m2 file; [done|].
  cbn [fold_left].
  change (index_node (m1, m2) n)
    with (<[node_module n :=
              default [] (m1 !! node_module n) ++ [node_id n]]> m1,
          <[node_id n :=
              if Py.in_list (node_module n) (default [] (m2 !! node_id n))
              then default [] (m2 !! node_id n)
              else default [] (m2 !! node_id n) ++ [node_module n]]> m2).
  rewrite IH. unfold concepts_of. cbn [List.filter].
  destruct (String.eqb (node_module n) file) eqn:Hk.
  - apply String.eqb_eq in Hk. subst file. rewrite lookup_insert_eq.
    cbn [List.map default].
    destruct (List.map node_id _); [done|].
    unfold id. by rewrite <- List.app_assoc.
  - apply String.eqb_neq in Hk. by rewrite lookup_insert_ne.
Qed.

(** The second map: the files of a concept, each once. *)
Lemma fold_index_node_concepts nodes : forall m1 m2 name,
  List.NoDup (default [] (m2 !! name)) ->
  let files := (fold_left index_node nodes (m1, m2)).2 !! name in
  List.NoDup (default [] files)
  /\ (is_Some files
      <-> is_Some (m2 !! name) \/ exists n, In n nodes /\ node_id n = name)
  /\ (forall file,
         In file (default [] files)
         <-> In file (default [] (m2 !! name)) \/ declares nodes name file).
Proof.
  induction nodes as [|n nodes IH]; intros m1 m2 name Hnd.
  - cbn [fold_left snd]. split_and!; [done| |].
    + split; [by left|]. by intros [?|(n & [] & _)].
    + intros file. split; [by left|]. by intros [?|(n & [] & _)].
  - cbn [fold_left].
    change (index_node (m1, m2) n)
      with (<[node_module n :=
                default [] (m1 !! node_module n) ++ [node_id n]]> m1,
            <[node_id n :=
                if Py.in_list (node_module n) (default [] (m2 !! node_id n))
                then default [] (m2 !! node_id n)
                else default [] (m2 !! node_id n) ++ [node_module n]]> m2).
    set (m1' := <[node_module n := _]> m1).
    set (m2' := <[node_id n := _]> m2).
    assert (Hnew :
             List.NoDup (default [] (m2' !! name))
             /\ (is_Some (m2' !! name)
                 <-> is_Some (m2 !! name) \/ node_id n = name)
             /\ forall file,
                 In file (default [] (m2' !! name))
                 <-> In file (default [] (m2 !! name))
                     \/ (node_id n = name /\ node_module n = file)).
    { subst m2'. destruct (decide (node_id n = name)) as [Heq|Hne].
      - subst name. rewrite lookup_insert_eq. cbn [default]. unfold id.
        destruct (Py.in_list _ _) eqn:Hin.
        + apply in_list_In in Hin. split_and!; [done| |].
          * split; [by right|done].
          * intros file. split; [by left|].
            intros [?|[_ Hfile]]; [done|]. by subst file.
        + pose proof (proj1 (in_list_not_In _ _) Hin) as Hnin.
          split_and!.
          * apply NoDup_ListNoDup, NoDup_app. split_and!.
            -- by apply NoDup_ListNoDup.
            -- intros x Hx [Heq|[]]%list_elem_of_In. subst x.
               by apply list_elem_of_In in Hx.
            -- apply NoDup_ListNoDup. repeat constructor. by intros [].
          * split; [by right|done].
          * intros file. rewrite List.in_app_iff. simpl. split.
            -- intros [?|[Hfile|[]]]; [by left|by right].
            -- intros [?|[_ Hfile]]; [by left|right; by left].
      - rewrite lookup_insert_ne by done. split_and!; [done| |].
        + split; [by left|]. by intros [?|?].
        + intros file. split; [by left|]. by intros [?|[? _]]. }
    destruct Hnew as (Hnd' & Hsome' & Hin').
    destruct (IH m1' m2' name Hnd') as (Hnd'' & Hsome'' & Hin'').
    split_and!; [done| |].
    + rewrite Hsome'', Hsome'. split.
      * intros [[?|?]|(n' & Hn' & Hid)]; [by left| |].
        -- right. exists n. split; [by left|done].
        -- right. exists n'. split; [by right|done].
      * intros [?|(n' & [<-|Hn'] & Hid)].
        -- left. by left.
        -- left. by right.
        -- right. by exists n'.
    + intros file. rewrite Hin'', Hin'. unfold declares. split.
      * intros [[?|[Hid Hmod]]|(n' & Hn' & Hid & Hmod)]; [by left| |].
        -- right. exists n. split; [by left|done].
        -- right. exists n'. split; [by right|done].
      * intros [?|(n' & [<-|Hn'] & Hid & Hmod)].
        -- left. by left.
        -- left. by right.
        -- right. by exists n'.
Qed.

Lemma concepts_of_In file nodes name :
  In name (concepts_of file nodes) <-> declares nodes name file.
Proof.
  unfold concepts_of, declares. rewrite in_map_iff. split.
  - intros (n & Hid & [Hn Hm%String.eqb_eq]%filter_In). by exists n.
  - intros (n & Hn & Hid & Hm). exists n. split; [done|].
    apply filter_In. split; [done|]. by apply String.eqb_eq.
Qed.

Lemma index_maps_fold p graph :
  (file_to_concepts (build_semantic_index p graph),
   concept_to_files (build_semantic_index p graph))
  = fold_left index_node (nodes graph) (∅, ∅).
Proof.
  unfold build_semantic_index.
  by destruct (fold_left index_node (nodes graph) (∅, ∅)).
Qed.

Lemma index_total_files p graph :
  total_files (index_stats (build_semantic_index p graph))
  = size (file_to_concepts (build_semantic_index p graph)).
Proof.
  unfold build_semantic_index.
  by destruct (fold_left index_node (nodes graph) (∅, ∅)).
Qed.

Lemma index_total_concepts p graph :
  total_concepts (index_stats (build_semantic_index p graph))
  = size (concept_to_files (build_semantic_index p graph)).
Proof.
  unfold build_semantic_index.
  by destruct (fold_left index_node (nodes graph) (∅, ∅)).
Qed.

(** A dict whose keys are the members of [l] has as many entries as [l]
    has different members. *)
Lemma size_keys {V : Type} (m : gmap string V) (l : list string) :
  (forall k, is_Some (m !! k) <-> In k l) ->
  size m = List.length (remove_dups l).
Proof.
  intros Hkeys. rewrite <- size_dom.
  assert (Hdom : dom m = list_to_set (remove_dups l) :> gset string).
  { apply set_eq. intros k.
    rewrite elem_of_dom, elem_of_list_to_set, elem_of_remove_dups.
    rewrite Hkeys. symmetry. apply list_elem_of_In. }
  rewrite Hdom. apply size_list_to_set, NoDup_remove_dups.
Qed.

Lemma in_map_module file nodes :
  (exists n, In n nodes /\ node_module n = file)
  <-> In file (List.map node_module nodes).
Proof.
  rewrite in_map_iff. split; intros (n & H1 & H2); by exists n.
Qed.

Lemma in_map_iff_id name nodes :
  (exists n, In n nodes /\ node_id n = name)
  <-> In name (List.map node_id nodes).
Proof.
  rewrite in_map_iff. split; intros (n & H1 & H2); by exists n.
Qed.

Lemma index_file_lookup p graph file :
  file_to_concepts (build_semantic_index p graph) !! file
  = match concepts_of file (nodes graph) with
    | [] => None
    | concepts => Some concepts
    end.
Proof.
  pose proof (index_maps_fold p graph) as Hfold.
  pose proof (fold_index_node_files (nodes graph) ∅ ∅ file) as H.
  rewrite <- Hfold in H. cbn [fst] in H. rewrite H, lookup_empty.
  by destruct (concepts_of file (nodes graph)).
Qed.

Lemma index_concept_lookup p graph name :
  let files := concept_to_files (build_semantic_index p graph) !! name in
  List.NoDup (default [] files)
  /\ (is_Some files <-> exists n, In n (nodes graph) /\ node_id n = name)
  /\ forall file, In file (default [] files)
                  <-> declares (nodes graph) name file.
Proof.
  pose proof (index_maps_fold p graph) as Hfold.
  pose proof (fold_index_node_concepts (nodes graph) ∅ ∅ name) as H.
  rewrite <- Hfold in H. cbn [snd] in H. rewrite lookup_empty in H.
  destruct (H (List.NoDup_nil _)) as (Hnd & Hsome & Hin).
  split_and!; [done| |].
  - rewrite Hsome. split; [|by right].
    by intros [[? [=]]|?].
  - intros file. rewrite Hin. split; [|by right].
    by intros [[]|?].
Qed.

(** The two totals count the different modules and the different ids. *)
Lemma index_files_counted p graph :
  total_files (index_stats (build_semantic_index p graph))
  = List.length (remove_dups (List.map node_module (nodes graph))).
Proof.
  rewrite index_total_files. apply size_keys.
  intros file. rewrite index_file_lookup, <- (in_map_module file).
  destruct (concepts_of file (nodes graph)) as [|c cs] eqn:E.
  - split; [by intros [? [=]]|]. intros (n & Hn & Hm).
    assert (Hc : In (node_id n) (concepts_of file (nodes graph)))
      by (apply concepts_of_In; by exists n).
    by rewrite E in Hc.
  - split; [intros _|done].
    assert (Hc : In c (concepts_of file (nodes graph)))
      by (rewrite E; by left).
    apply concepts_of_In in Hc as (n & Hn & _ & Hm). by exists n.
Qed.

Lemma index_concepts_counted p graph :
  total_concepts (index_stats (build_semantic_index p graph))
  = List.length (remove_dups (List.map node_id (nodes graph))).
Proof.
  rewrite index_total_concepts. apply size_keys.
  intros name. destruct (index_concept_lookup p graph name) as (_ & Hsome & _).
  by rewrite Hsome, in_map_iff_id.
Qed.

End IndexShapeFacts.

Section IndexShapeClaims.

Import KnowledgeGraph SemanticIndex IndexShape IndexShapeFacts.

(** X10.  The hot spots are at most twenty, all different, each with the number
    of edge ends that carry its name, in descending order of that number;
    a name at an edge end that is no hot spot is left out only when there
    are twenty hot spots, none of which has a smaller number than it. *)
Theorem hot_spots_are_the_busiest :
  forall p graph,
    let hs := hot_spots (build_semantic_index p graph) in
    let ends := endpoints (edges graph) in
    List.length hs <= 20
    /\ List.NoDup (List.map hot_name hs)
    /\ List.Forall
         (fun h => In (hot_name h) ends
                   /\ degree h = occurrences (hot_name h) ends) hs
    /\ StronglySorted (fun a b => degree b <= degree a) hs
    /\ forall name,
         In name ends ->
         ~ In name (List.map hot_name hs) ->
         List.length hs = 20
         /\ List.Forall (fun h => occurrences name ends <= degree h) hs.
Proof.
  intros p graph hs ends.
  set (table := fold_left count_edge (edges graph) []).
  set (sorted := sort_desc Nat.leb snd table).
  set (hot := fun '(name, degree) => {| hot_name := name; degree := degree |}).
  assert (Hhs : hs = List.map hot (List.firstn 20 sorted)).
  { subst hs. unfold build_semantic_index.
    by destruct (fold_left index_node (nodes graph) (∅, ∅)). }
  assert (Hname : forall l, List.map hot_name (List.map hot l)
                            = List.map fst l).
  { intros l. rewrite List.map_map. apply List.map_ext. by intros []. }
  assert (Hsorted : StronglySorted (fun a b => b.2 <= a.2) sorted).
  { eapply StronglySorted_weaken;
      [|apply (sort_desc_sorted Nat.leb snd leb_total leb_trans)].
    intros a b H. by apply Nat.leb_le. }
  assert (Hperm : Permutation sorted table) by apply sort_desc_perm.
  assert (Hnd : List.NoDup (List.map fst sorted)).
  { apply NoDup_ListNoDup.
    rewrite (fmap_Permutation fst _ _ Hperm).
    apply NoDup_ListNoDup, node_degree_NoDup. }
  assert (Hin : forall k v, In (k, v) sorted
                            <-> v = occurrences k ends /\ 1 <= v).
  { intros k v. unfold ends. rewrite <- node_degree_spec. fold table.
    rewrite <- !list_elem_of_In. by rewrite Hperm. }
  rewrite Hhs. split_and!.
  - rewrite length_map, List.length_firstn. lia.
  - rewrite Hname.
    rewrite <- (List.firstn_skipn 20 sorted), List.map_app in Hnd.
    by apply List.NoDup_app_remove_r in Hnd.
  - apply List.Forall_forall. intros h ([k v] & <- & Hkv)%in_map_iff.
    apply firstn_In, Hin in Hkv as [-> Hpos]. simpl.
    split; [by apply occurrences_In|done].
  - apply GraphShapeFacts.StronglySorted_map.
    eapply StronglySorted_weaken;
      [|apply (StronglySorted_firstn _ 20 _ Hsorted)].
    by intros [] [].
  - intros name Hends Hnot. rewrite Hname in Hnot.
    assert (Hmem : In (name, occurrences name ends) sorted).
    { apply Hin. split; [done|]. by apply occurrences_In. }
    rewrite <- (List.firstn_skipn 20 sorted) in Hmem.
    apply in_app_or in Hmem as [Hmem|Hmem].
    { exfalso. apply Hnot. apply in_map_iff.
      by exists (name, occurrences name ends). }
    split.
    + rewrite length_map, List.length_firstn.
      destruct (Nat.le_gt_cases 20 (List.length sorted)) as [?|Hlt]; [lia|].
      rewrite List.skipn_all2 in Hmem by lia. done.
    + apply List.Forall_forall. intros h ([k v] & <- & Hkv)%in_map_iff.
      rewrite <- (List.firstn_skipn 20 sorted) in Hsorted.
      exact (StronglySorted_app_inv _ _ _ Hsorted _ _ Hkv Hmem).
Qed.

(** X11.  The two maps of the index are each other's inverse: a file lists a
    concept exactly when the concept lists the file, which is when some
    node has that id and that module.  A file lists its concepts in node
    order, once per node; a concept lists each of its files once; no entry
    is empty; the two totals count the entries. *)
Theorem index_maps_are_inverse :
  forall p graph,
    let index := build_semantic_index p graph in
    (forall file,
        file_to_concepts index !! file
        = match concepts_of file (nodes graph) with
          | [] => None
          | concepts => Some concepts
          end)
    /\ (forall name,
          match concept_to_files index !! name with
          | Some files =>
              files <> [] /\ List.NoDup files
              /\ forall file, In file files
                              <-> declares (nodes graph) name file
          | None => forall n, In n (nodes graph) -> node_id n <> name
          end)
    /\ (forall name file,
          In name (default [] (file_to_concepts index !! file))
          <-> In file (default [] (concept_to_files index !! name)))
    /\ total_files (index_stats index)
       = List.length (remove_dups (List.map node_module (nodes graph)))
    /\ total_concepts (index_stats index)
       = List.length (remove_dups (List.map node_id (nodes graph))).
Proof.
  intros p graph index.
  split_and!.
  - apply index_file_lookup.
  - intros name.
    destruct (index_concept_lookup p graph name) as (Hnd & Hsome & Hin).
    fold index in Hnd, Hsome, Hin.
    destruct (concept_to_files index !! name) as [files|] eqn:E.
    + cbn [default] in *. split_and!; [|done|done].
      destruct (proj1 Hsome (mk_is_Some _ _ eq_refl)) as (n & Hn & Hid).
      intros ->. by apply (Hin (node_module n)); exists n.
    + intros n Hn Hid.
      destruct (proj2 Hsome (ex_intro _ n (conj Hn Hid))) as [? [=]].
  - intros name file.
    destruct (index_concept_lookup p graph name) as (_ & _ & Hin).
    fold index in Hin.
    unfold index at 1. rewrite Hin, index_file_lookup, <- concepts_of_In.
    by destruct (concepts_of file (nodes graph)).
  - apply index_files_counted.
  - apply index_concepts_counted.
Qed.

End IndexShapeClaims.

(* ===================================================================== *)
(** * The report on the public API *)
(* ===================================================================== *)

Module ApiReportFacts.

Import ApiSurface ApiReport.

Lemma append_to_keys key n d :
  List.map fst (append_to key n d)
  = if Py.in_list key (List.map fst d) then List.map fst d
    else List.map fst d ++ [key].
Proof.
  induction d as [|[k v] d IH]; [reflexivity|].
  cbn [append_to List.map fst].
  destruct (String.eqb k key) eqn:Hk.
  - apply String.eqb_eq in Hk. subst k.
    assert (H : Py.in_list key (key :: List.map fst d) = true)
      by (apply in_list_In; by left).
    by rewrite H.
  - cbn [List.map fst]. rewrite IH. apply String.eqb_neq in Hk.
    destruct (Py.in_list key (List.map fst d)) eqn:Hin.
    + assert (H : Py.in_list key (k :: List.map fst d) = true).
      { apply in_list_In. right. by apply in_list_In. }
      by rewrite H.
    + assert (H : Py.in_list key (k :: List.map fst d) = false).
      { apply in_list_not_In. intros [Heq|Hin']; [done|].
        by apply (proj1 (in_list_not_In _ _) Hin). }
      by rewrite H.
Qed.

Lemma append_to_NoDup key n d :
  List.NoDup (List.map fst d) ->
  List.NoDup (List.map fst (append_to key n d)).
Proof.
  intros Hd. rewrite append_to_keys.
  destruct (Py.in_list key (List.map fst d)) eqn:Hin; [done|].
  apply NoDup_ListNoDup, NoDup_app. split_and!.
  - by apply NoDup_ListNoDup.
  - intros x Hx [Heq|[]]%list_elem_of_In. subst x.
    apply list_elem_of_In in Hx.
    by apply (proj1 (in_list_not_In _ _) Hin).
  - apply NoDup_ListNoDup. repeat constructor. by intros [].
Qed.

Lemma group_of_cons k v d key :
  group_of key ((k, v) :: d)
  = if String.eqb k key then v else group_of key d.
Proof. unfold group_of. simpl. by destruct (String.eqb k key). Qed.

Lemma append_to_group key n d k :
  group_of k (append_to key n d)
  = if String.eqb key k then group_of k d ++ [n] else group_of k d.
Proof.
  induction d as [|[k' v] d IH]; cbn [append_to].
  - rewrite group_of_cons. by destruct (String.eqb key k).
  - destruct (String.eqb k' key) eqn:Hk.
    + apply String.eqb_eq in Hk. subst k'. rewrite !group_of_cons.
      by destruct (String.eqb key k).
    + rewrite !group_of_cons, IH. destruct (String.eqb k' k) eqn:Hk'; [|done].
      apply String.eqb_eq in Hk'. subst k'.
      by rewrite String.eqb_sym, Hk.
Qed.

Lemma group_of_In d k v :
  List.NoDup (List.map fst d) -> In (k, v) d -> group_of k d = v.
Proof.
  induction d as [|[k' v'] d IH]; intros Hd; [done|].
  simpl in Hd. apply List.NoDup_cons_iff in Hd as [Hnin Hd].
  rewrite group_of_cons. intros [[= -> ->]|Hin].
  - by rewrite String.eqb_refl.
  - destruct (String.eqb k' k) eqn:Hk; [|by apply IH].
    apply String.eqb_eq in Hk. subst k'. exfalso. apply Hnin.
    apply in_map_iff. by exists (k, v).
Qed.

Lemma group_of_key d k :
  In k (List.map fst d) -> In (k, group_of k d) d.
Proof.
  induction d as [|[k' v'] d IH]; [done|].
  rewrite group_of_cons. simpl.
  destruct (String.eqb k' k) eqn:Hk.
  - apply String.eqb_eq in Hk. subst k'. by left.
  - apply String.eqb_neq in Hk. intros [?|Hin]; [done|]. right. by apply IH.
Qed.

Lemma group_of_missing d k :
  ~ In k (List.map fst d) -> group_of k d = [].
Proof.
  induction d as [|[k' v'] d IH]; [done|].
  rewrite group_of_cons. simpl. intros Hnin.
  destruct (String.eqb k' k) eqn:Hk.
  - apply String.eqb_eq in Hk. subst k'. exfalso. apply Hnin. by left.
  - apply IH. intros Hin. apply Hnin. by right.
Qed.

(** A grouping, by its lookups: the keys are distinct, a key is there
    exactly when it has names, and a lookup gives the names. *)
Lemma groups_by_lookup key items d :
  groups_by key items d
  <-> List.NoDup (List.map fst d)
      /\ (forall k, In k (List.map fst d) <-> names_with key k items <> [])
      /\ forall k, group_of k d = names_with key k items.
Proof.
  unfold groups_by. split.
  - intros [Hnd Hin]. split; [done|].
    assert (Hkeys : forall k,
               In k (List.map fst d) <-> names_with key k items <> []).
    { intros k. rewrite in_map_iff. split.
      - intros ([k' v] & Hk & Hkv). simpl in Hk. subst k'.
        apply Hin in Hkv as [Hne ->]. done.
      - intros Hne. exists (k, names_with key k items). split; [done|].
        by apply Hin. }
    split; [done|]. intros k.
    destruct (decide (names_with key k items = [])) as [Hnil|Hne].
    + rewrite Hnil. apply group_of_missing. rewrite Hkeys.
      intros H. by apply H.
    + apply group_of_In; [done|]. by apply Hin.
  - intros (Hnd & Hkeys & Hget). split; [done|]. intros k names. split.
    + intros Hin. rewrite <- Hget, (group_of_In _ _ _ Hnd Hin).
      split; [|done]. rewrite <- (group_of_In _ _ _ Hnd Hin), Hget.
      apply Hkeys, in_map_iff. by exists (k, names).
    + intros [Hne ->]. rewrite <- Hget. apply group_of_key. by apply Hkeys.
Qed.

Lemma names_with_snoc key k items i :
  names_with key k (items ++ [i])
  = names_with key k items ++ (if String.eqb (key i) k then [name i] else []).
Proof.
  unfold names_with. rewrite List.filter_app, List.map_app. simpl.
  by destruct (String.eqb (key i) k).
Qed.

Lemma append_to_groups key items i d :
  groups_by key items d ->
  groups_by key (items ++ [i]) (append_to (key i) (name i) d).
Proof.
  rewrite !groups_by_lookup. intros (Hnd & Hkeys & Hget). split_and!.
  - by apply append_to_NoDup.
  - intros k. rewrite append_to_keys, names_with_snoc.
    destruct (Py.in_list (key i) (List.map fst d)) eqn:Hin.
    + apply in_list_In in Hin. rewrite Hkeys.
      destruct (String.eqb (key i) k) eqn:Hk.
      * apply String.eqb_eq in Hk. subst k. apply Hkeys in Hin.
        split; [|done]. intros _ [Hnil _]%app_eq_nil. done.
      * by rewrite List.app_nil_r.
    + rewrite List.in_app_iff, Hkeys. simpl.
      destruct (String.eqb (key i) k) eqn:Hk.
      * apply String.eqb_eq in Hk. subst k.
        split; [|by right; left]. intros _ [_ [=]]%app_eq_nil.
      * apply String.eqb_neq in Hk. rewrite List.app_nil_r.
        split; [by intros [?|[?|[]]]|by left].
  - intros k. rewrite append_to_group, names_with_snoc, Hget.
    destruct (String.eqb (key i) k); [done|by rewrite List.app_nil_r].
Qed.

Lemma fold_append_groups (key : Item -> string) (items : list Item) :
  groups_by key items
    (fold_left (fun d i => append_to (key i) (name i) d) items []).
Proof.
  induction items as [|i items IH] using rev_ind.
  - split; [constructor|]. intros k names. split; [done|].
    by intros [Hne ->].
  - rewrite fold_left_app. by apply append_to_groups.
Qed.

(** The number of names in a dict of name lists. *)
Lemma append_to_total key n d :
  list_sum (List.map (fun kv => List.length kv.2) (append_to key n d))
  = S (list_sum (List.map (fun kv => List.length kv.2) d)).
Proof.
  induction d as [|[k v] d IH]; [done|]. cbn [append_to].
  destruct (String.eqb k key); simpl in *; rewrite ?length_app; simpl; lia.
Qed.

Lemma fold_append_total (key : Item -> string) (items : list Item) :
  list_sum
    (List.map (fun kv => List.length kv.2)
       (fold_left (fun d i => append_to (key i) (name i) d) items []))
  = List.length items.
Proof.
  induction items as [|i items IH] using rev_ind; [done|].
  rewrite fold_left_app, length_app. cbn [fold_left].
  rewrite append_to_total, IH. simpl. lia.
Qed.

(** The three dicts are built independently of each other. *)
Lemma categorize_fold items : forall c,
  fold_left categorize_item items c
  = {| by_type :=
         fold_left (fun d i => append_to (type i) (name i) d) items
           (by_type c);
       by_visibility :=
         fold_left (fun d i => append_to (visibility i) (name i) d) items
           (by_visibility c);
       by_module :=
         fold_left (fun d i => append_to (module_of i) (name i) d) items
           (by_module c) |}.
Proof.
  induction items as [|i items IH]; intros c; [by destruct c|].
  cbn [fold_left]. by rewrite IH.
Qed.

Lemma names_with_length t items :
  List.length (names_with type t items) = count_type t items.
Proof. unfold names_with, count_type. by rewrite length_map. Qed.

Lemma count_type_kinds items :
  List.Forall
    (fun i => In (type i)
                ["struct"; "enum"; "trait"; "fn"; "mod"; "type"; "const";
                 "static"]) items ->
  count_type "struct" items + count_type "enum" items
  + count_type "trait" items + count_type "fn" items
  + count_type "mod" items + count_type "type" items
  + count_type "const" items + count_type "static" items
  = List.length items.
Proof.
  unfold count_type.
  induction 1 as [|i items Hi _ IH]; [done|].
  cbn [List.filter List.length]. simpl in Hi.
  destruct Hi as [<-|[<-|[<-|[<-|[<-|[<-|[<-|[<-|[]]]]]]]]];
    cbn [String.eqb Ascii.eqb Bool.eqb List.length]; lia.
Qed.

Lemma file_items_well_formed rs_file i :
  In i (file_items rs_file) ->
  is_Some (text rs_file) /\ well_formed_item (rel_path rs_file) i.
Proof.
  unfold file_items. destruct (text rs_file) as [content|]; [|done].
  intros Hi. split; [done|].
  destruct (WellFormedFacts.pub_item_well_formed _ _ _ Hi)
    as (H1 & H2 & H3 & H4 & H5 & H6 & H7).
  pose proof (ApiSurfaceFacts.extract_pub_items_kept _ _ _ Hi) as H0.
  unfold well_formed_item. split_and!; try done.
  destruct (doc i) as [d|]; [by apply H7|done].
Qed.

End ApiReportFacts.

Section ApiReportClaims.

Import ApiSurface ApiReport ApiReportFacts.

(** X13.  Every public item read from a file is named by an identifier other
    than self, Self, crate and super, has one of the eight kinds, one of
    the five pub visibilities (never private), a raw visibility that
    starts with pub, the file it was read from, a line number from 1 on,
    and a doc text, if any, that is non-empty and at most 200 characters
    long. *)
Theorem pub_items_well_formed :
  forall content file_path,
    List.Forall (well_formed_item file_path)
      (_extract_pub_items content file_path).
Proof.
  intros content file_path. apply List.Forall_forall. intros i Hi.
  destruct (WellFormedFacts.pub_item_well_formed _ _ _ Hi)
    as (H1 & H2 & H3 & H4 & H5 & H6 & H7).
  pose proof (ApiSurfaceFacts.extract_pub_items_kept _ _ _ Hi) as H0.
  unfold well_formed_item. split_and!; try done.
  destruct (doc i) as [d|]; [by apply H7|done].
Qed.

(** X14.  The three dicts of the categorisation group the names of the items by
    kind, by visibility and by module: keys are distinct, each key has the
    names of its items in item order, no key has none, and each dict
    holds as many names as there are items. *)
Theorem api_categories_group_the_items :
  forall items,
    let c := _categorize_api items in
    let total := fun d : list (string * list string) =>
                   list_sum (List.map (fun kv => List.length kv.2) d) in
    groups_by type items (by_type c)
    /\ groups_by visibility items (by_visibility c)
    /\ groups_by module_of items (by_module c)
    /\ total (by_type c) = List.length items
    /\ total (by_visibility c) = List.length items
    /\ total (by_module c) = List.length items.
Proof.
  intros items c total. subst c total. unfold _categorize_api.
  rewrite categorize_fold. cbn [by_type by_visibility by_module].
  split_and!; auto using fold_append_groups, fold_append_total.
Qed.

(** X15.  The items of the report come from readable production files, test
    files left out, and are well formed.  The statistics agree with the
    dicts: the total is the number of items, and the five counts are the
    sizes of the struct, enum, trait, fn and mod groups; together with
    the type, const and static groups, which have no count of their own,
    they make up the total. *)
Theorem api_surface_statistics_agree :
  forall p,
    let s := analyze_api_surface p in
    let stats := surface_stats s in
    let size := fun t => List.length (group_of t (surface_by_type s)) in
    List.Forall
      (fun i => exists rs_file,
           In rs_file (rs_files p)
           /\ _is_test_file (rel_path rs_file) = false
           /\ is_Some (text rs_file)
           /\ well_formed_item (rel_path rs_file) i)
      (surface_items s)
    /\ total_pub_items stats = List.length (surface_items s)
    /\ pub_structs stats = size "struct"
    /\ pub_enums stats = size "enum"
    /\ pub_traits stats = size "trait"
    /\ pub_functions stats = size "fn"
    /\ pub_modules stats = size "mod"
    /\ pub_structs stats + pub_enums stats + pub_traits stats
       + pub_functions stats + pub_modules stats
       + size "type" + size "const" + size "static"
       = total_pub_items stats.
Proof.
  intros p s stats size.
  set (items := List.flat_map file_items (_iter_source_files p false)).
  assert (Hwf : List.Forall
                  (fun i => exists rs_file,
                       In rs_file (rs_files p)
                       /\ _is_test_file (rel_path rs_file) = false
                       /\ is_Some (text rs_file)
                       /\ well_formed_item (rel_path rs_file) i) items).
  { apply List.Forall_forall. intros i (f & Hf & Hi)%in_flat_map.
    unfold _iter_source_files in Hf. apply filter_In in Hf as [Hf Ht].
    simpl in Ht. apply negb_true_iff in Ht.
    destruct (file_items_well_formed _ _ Hi) as [Hs Hw]. by exists f. }
  assert (Hsize : forall t, size t = count_type t items).
  { intros t. subst size s. cbn [analyze_api_surface surface_by_type].
    fold items. unfold _categorize_api. rewrite categorize_fold.
    cbn [by_type].
    destruct (proj1 (groups_by_lookup _ _ _) (fold_append_groups type items))
      as (_ & _ & ->).
    apply names_with_length. }
  rewrite !Hsize. subst stats s. cbn. fold items.
  split_and!; try done.
  apply count_type_kinds. eapply List.Forall_impl; [|exact Hwf].
  intros i (f & _ & _ & _ & Hw). apply Hw.
Qed.

End ApiReportClaims.

(* ===================================================================== *)
(** * Patterns across projects *)
(* ===================================================================== *)

Module PatternComparisonFacts.

Import GraphShape GraphShapeFacts PatternComparison.








End PatternComparisonFacts.

Section PatternComparisonClaims.

Import GraphShape PatternComparison PatternComparisonFacts.


End PatternComparisonClaims.

Module BuiltIndexFacts.

Import KnowledgeGraph KnowledgeGraphFacts SemanticIndex IndexShape.
Import IndexShapeFacts.

Lemma built_ids_NoDup p :
  List.NoDup (List.map node_id (nodes (build_knowledge_graph p))).
Proof.
  rewrite build_nodes_first_seen. unfold first_seen.
  assert (Hmap : List.map node_id (first_seen_from [] (candidates p))
                 = List.map node_name (first_seen_from [] (candidates p))).
  { apply List.map_ext_in. intros n Hn.
    apply first_seen_from_In in Hn as (before & after & Heq & _).
    apply (candidates_kept p). rewrite Heq. apply in_or_app. right. by left. }
  rewrite Hmap. apply first_seen_from_NoDup.
Qed.

Lemma NoDup_map_inj_In {A B : Type} (f : A -> B) (l : list A) x y :
  List.NoDup (List.map f l) -> In x l -> In y l -> f x = f y -> x = y.
Proof.
  induction l as [|a l IH]; [done|]. simpl.
  intros [Hnin Hnd]%List.NoDup_cons_iff [->|Hx] [->|Hy] Heq; try done.
  - exfalso. apply Hnin. rewrite Heq. by apply in_map.
  - exfalso. apply Hnin. rewrite <- Heq. by apply in_map.
  - by apply IH.
Qed.

(** A list without repetition that holds [x] and nothing else. *)
Lemma NoDup_singleton {A : Type} (l : list A) x :
  List.NoDup l -> (forall y, In y l <-> y = x) -> l = [x].
Proof.
  intros Hnd Hin. destruct l as [|a l].
  - by destruct (proj2 (Hin x) eq_refl).
  - assert (a = x) by (apply Hin; by left). subst a.
    destruct l as [|b l]; [done|].
    assert (b = x) by (apply Hin; right; by left). subst b.
    apply List.NoDup_cons_iff in Hnd as [Hnin _]. exfalso. apply Hnin.
    by left.
Qed.

Lemma remove_dups_NoDup (l : list string) :
  NoDup l -> remove_dups l = l.
Proof.
  induction 1 as [|x l Hx Hl IH]; [done|]. cbn [remove_dups].
  destruct (decide_rel elem_of x l); [done|]. by rewrite IH.
Qed.

End BuiltIndexFacts.

Section BuiltIndexClaims.

Import ReSpec KnowledgeGraph KnowledgeGraphFacts SemanticIndex IndexShape.
Import IndexShapeFacts BuiltIndexFacts GraphShape.

(** X12.  The index of the graph that was built from the same project: every
    node is a concept with exactly one file, its module; there are as
    many concepts as nodes and at most as many files as the scan found;
    the public APIs are at most fifty, each a function, struct or trait
    named by an identifier; the index carries the name of the project. *)
Theorem index_of_built_graph :
  forall p,
    let graph := build_knowledge_graph p in
    let index := build_semantic_index p graph in
    List.Forall
      (fun n => concept_to_files index !! node_id n = Some [node_module n])
      (nodes graph)
    /\ total_concepts (index_stats index) = total_nodes (stats graph)
    /\ total_files (index_stats index) <= List.length (rs_files p)
    /\ List.length (public_apis index) <= 50
    /\ List.Forall
         (fun a => is_identifier (api_name a)
                   /\ In (api_type a) ["fn"; "struct"; "trait"])
         (public_apis index)
    /\ index_project index = project_name p.
Proof.
  intros p graph index.
  pose proof (built_ids_NoDup p) as Hids. fold graph in Hids.
  pose proof (GraphShapeFacts.node_shape p) as Hwf. fold graph in Hwf.
  pose proof (index_files_counted p graph) as Htf.
  pose proof (index_concepts_counted p graph) as Htc.
  fold index in Htf, Htc.
  split_and!.
  - apply List.Forall_forall. intros n Hn.
    destruct (index_concept_lookup p graph (node_id n))
      as (Hnd & Hsome & Hin).
    fold index in Hnd, Hsome, Hin.
    destruct (proj2 Hsome (ex_intro _ n (conj Hn eq_refl))) as [files E].
    rewrite E in Hnd, Hin |- *. cbn [default] in Hnd, Hin. f_equal.
    apply NoDup_singleton; [done|]. intros file. rewrite Hin.
    unfold declares. split.
    + intros (n' & Hn' & Hid & <-). f_equal.
      by apply (NoDup_map_inj_In node_id (nodes graph)).
    + intros ->. by exists n.
  - rewrite Htc. subst graph. cbn [build_knowledge_graph stats total_nodes].
    rewrite <- (length_map node_id).
    f_equal. apply remove_dups_NoDup. by apply NoDup_ListNoDup.
  - rewrite Htf, <- (length_map rel_path (rs_files p)).
    apply List.NoDup_incl_length.
    + apply NoDup_ListNoDup, NoDup_remove_dups.
    + intros m Hm. apply (proj2 (list_elem_of_In _ _)) in Hm.
      apply (proj1 (elem_of_remove_dups _ _)) in Hm.
      apply (proj1 (list_elem_of_In _ _)) in Hm.
      apply in_map_iff in Hm as (n & <- & Hn).
      destruct (Hwf n Hn) as (_ & _ & _ & _ & f & c & Hf & _ & _ & -> & _).
      by apply in_map.
  - unfold index. rewrite index_public_apis, length_map, List.length_firstn.
    lia.
  - unfold index. rewrite index_public_apis.
    apply List.Forall_forall. intros a (n & <- & Hn)%in_map_iff.
    apply firstn_In in Hn. unfold select_public_apis in Hn.
    apply filter_In in Hn as [Hn Hpub].
    apply is_public_api_spec in Hpub as [_ Hty].
    destruct (Hwf n Hn) as (Hid & _). by split.
  - subst index. unfold build_semantic_index.
    by destruct (fold_left index_node (nodes graph) (∅, ∅)).
Qed.

End BuiltIndexClaims.

(* ===================================================================== *)
(** * One detection per table entry *)
(* ===================================================================== *)

Module NamedOnceFacts.

Import TableOrder.

(** The names of the entries that a loop keeps, when a kept entry carries
    the key of its table entry. *)
Lemma omap_keys_sublist {A B : Type} (f : string * A -> option B)
      (key : B -> string) (table : list (string * A)) :
  (forall entry b, f entry = Some b -> key b = entry.1) ->
  sublist (List.map key (omap f table)) (List.map fst table).
Proof.
  intros Hkey. induction table as [|entry table IH]; [constructor|].
  cbn [omap list_omap List.map].
  destruct (f entry) as [b|] eqn:E.
  - cbn [List.map]. rewrite (Hkey entry b E). by constructor.
  - by constructor.
Qed.

Lemma omap_keys {A B : Type} (f : string * A -> option B)
      (key : B -> string) (table : list (string * A)) :
  (forall entry b, f entry = Some b -> key b = entry.1) ->
  List.NoDup (List.map fst table) ->
  List.NoDup (List.map key (omap f table))
  /\ incl (List.map key (omap f table)) (List.map fst table).
Proof.
  intros Hkey Hnd. pose proof (omap_keys_sublist f key table Hkey) as Hsub.
  split.
  - apply NoDup_ListNoDup. eapply sublist_NoDup; [|exact Hsub].
    by apply NoDup_ListNoDup.
  - intros k Hk. apply list_elem_of_In. eapply elem_of_sublist; [|exact Hsub].
    by apply list_elem_of_In.
Qed.

Lemma signature_detection_name all_code cargo entry d :
  signature_detection all_code cargo entry = Some d ->
  Patterns.name d = entry.1.
Proof.
  unfold signature_detection.
  destruct (Patterns.analyze_signature _ _ _ _) as [[d'|]|] eqn:E; try done.
  intros [= <-]. by apply PatternsFacts.detection_sound in E as (-> & _).
Qed.

Lemma style_detection_name combined entry d :
  style_detection combined entry = Some d ->
  Architecture.style d = entry.1
  /\ ~ In entry.1 ["Modular Monolith"; "Multi-Crate Workspace"].
Proof.
  unfold style_detection.
  destruct (Architecture.detect_style _ _ _) as [[d'|]|] eqn:E; try done.
  intros [= <-].
  apply ArchitectureFacts.detect_style_sound in E as (-> & Hnot & _).
  split; [done|]. by apply in_list_not_In.
Qed.

Lemma detect_pattern_name combined entry d :
  Communication.detect_pattern combined entry = Some d ->
  Communication.pattern d = entry.1.
Proof.
  destruct entry as [n sigs]. unfold Communication.detect_pattern.
  destruct (List.filter _ sigs); [done|]. by intros [= <-].
Qed.

Lemma Permutation_NoDup_map {A : Type} (key : A -> string) l1 l2 :
  Permutation l1 l2 ->
  List.NoDup (List.map key l2) -> List.NoDup (List.map key l1).
Proof.
  intros Hp Hnd. apply NoDup_ListNoDup.
  rewrite (fmap_Permutation key _ _ Hp). by apply NoDup_ListNoDup.
Qed.

Lemma patterns_named_once sigs all_code cargo :
  List.NoDup (List.map fst sigs) ->
  exists ds,
    Patterns.analyze_with sigs all_code cargo = Ok ds
    /\ List.NoDup (List.map Patterns.name ds)
    /\ incl (List.map Patterns.name ds) (List.map fst sigs).
Proof.
  intros Hnd.
  destruct (omap_keys (signature_detection all_code cargo) Patterns.name sigs
              (signature_detection_name all_code cargo) Hnd) as [Hn Hi].
  exists (sort_desc Qle_bool Patterns.confidence
            (table_detections sigs all_code cargo)).
  unfold Patterns.analyze_with. rewrite analyze_loop_table.
  split; [done|]. split.
  - eapply Permutation_NoDup_map; [apply sort_desc_perm|done].
  - intros k (d & <- & Hd%sort_desc_In)%in_map_iff.
    apply Hi. by apply in_map.
Qed.

Lemma styles_named_once styles w all_code cargo ds :
  List.NoDup (List.map fst styles) ->
  Architecture.detect_with styles w all_code cargo = Ok ds ->
  List.NoDup (List.map Architecture.style ds)
  /\ incl (List.map Architecture.style ds)
       (["Multi-Crate Workspace"; "Modular Monolith"] ++ List.map fst styles).
Proof.
  intros Hnd Hd. unfold Architecture.detect_with in Hd.
  destruct (Architecture.detect_workspace_shape styles w all_code)
    as [shape|] eqn:Hs; [|done].
  cbn [mbind result_bind] in Hd. rewrite detect_loop_table in Hd.
  cbn [mbind result_bind mret result_ret] in Hd. injection Hd as <-.
  set (found := style_detections styles (all_code +:+ cargo)).
  destruct (omap_keys (style_detection (all_code +:+ cargo))
              Architecture.style styles
              (fun entry d H => proj1 (style_detection_name _ _ _ H)) Hnd)
    as [Hn Hi].
  fold (style_detections styles (all_code +:+ cargo)) in Hn, Hi.
  fold found in Hn, Hi.
  assert (Hnot : forall d, In d found ->
                           ~ In (Architecture.style d)
                               ["Modular Monolith"; "Multi-Crate Workspace"]).
  { intros d Hd. unfold found, style_detections in Hd.
    apply list_elem_of_In, list_elem_of_omap in Hd as (entry & _ & He).
    destruct (style_detection_name _ _ _ He) as [-> Hnot]. done. }
  assert (Hshape : shape = []
                   \/ exists d, shape = [d]
                                /\ In (Architecture.style d)
                                     ["Modular Monolith";
                                      "Multi-Crate Workspace"]).
  { apply ArchitectureFacts.workspace_shape_sound in Hs
      as [[-> _]|[(n & descr & -> & _)|(descr & -> & _)]].
    - by left.
    - right. eexists. split; [done|]. simpl. tauto.
    - right. eexists. split; [done|]. simpl. tauto. }
  split.
  - eapply Permutation_NoDup_map; [apply sort_desc_perm|].
    destruct Hshape as [->|(d & -> & Hd)]; [done|].
    cbn [List.app List.map]. constructor; [|done].
    intros (d' & Heq & Hd')%in_map_iff. apply (Hnot d' Hd').
    by rewrite Heq.
  - intros k (d & <- & Hd%sort_desc_In)%in_map_iff.
    apply in_app_or in Hd as [Hd|Hd].
    + destruct Hshape as [->|(d' & -> & Hd')]; [done|].
      destruct Hd as [<-|[]]. apply in_or_app. left.
      simpl in Hd' |- *. tauto.
    + apply in_or_app. right. apply Hi. by apply in_map.
Qed.

Lemma communication_named_once table all_code cargo :
  List.NoDup (List.map fst table) ->
  let ds := Communication.detect_with table all_code cargo in
  List.NoDup (List.map Communication.pattern ds)
  /\ incl (List.map Communication.pattern ds) (List.map fst table).
Proof.
  intros Hnd ds. subst ds. unfold Communication.detect_with.
  destruct (omap_keys (Communication.detect_pattern (all_code +:+ cargo))
              Communication.pattern table
              (detect_pattern_name (all_code +:+ cargo)) Hnd) as [Hn Hi].
  split.
  - eapply Permutation_NoDup_map; [apply sort_desc_perm|done].
  - intros k (d & <- & Hd%sort_desc_In)%in_map_iff.
    apply Hi. by apply in_map.
Qed.

Lemma add_file_skipped b rs_file :
  KnowledgeGraph.skipped rs_file -> KnowledgeGraph.add_file b rs_file = b.
Proof.
  unfold KnowledgeGraph.skipped, KnowledgeGraph.add_file.
  intros [H|H]; rewrite H; [reflexivity|].
  by destruct (Py.in_list "target" (parts rs_file)).
Qed.

End NamedOnceFacts.

Section NamedOnceClaims.

Import NamedOnceFacts.

(** X17.  Each of the three detectors reports a name at most once, and
    only names of its table: the design patterns of [analyze], the styles
    of [detect_architecture_style] and the communication patterns of
    [detect_communication_patterns]. *)
Theorem detections_are_named_once :
  forall p,
    (exists ds,
        Patterns.analyze p = Ok ds
        /\ List.NoDup (List.map Patterns.name ds)
        /\ incl (List.map Patterns.name ds)
             (List.map fst Patterns.PATTERN_SIGNATURES))
    /\ (exists ds,
          Architecture.detect_architecture_style p = Ok ds
          /\ List.NoDup (List.map Architecture.style ds)
          /\ incl (List.map Architecture.style ds)
               (List.map fst Architecture.ARCHITECTURE_STYLES))
    /\ (let ds := Communication.detect_communication_patterns p in
        List.NoDup (List.map Communication.pattern ds)
        /\ incl (List.map Communication.pattern ds)
             (List.map fst Communication.COMMUNICATION_PATTERNS)).
Proof.
  intros p. split_and!.
  - apply patterns_named_once.
    apply NoDup_ListNoDup, (bool_decide_unpack _). by vm_compute.
  - destruct (ArchitectureFacts.detect_default_total
                (Architecture.analyze_workspace p) (collect_code p)
                (read_cargo p)) as [ds Hds].
    exists ds. split; [done|].
    assert (Hnd : List.NoDup
                    (List.map fst Architecture.ARCHITECTURE_STYLES)).
    { apply NoDup_ListNoDup, (bool_decide_unpack _). by vm_compute. }
    destruct (styles_named_once _ _ _ _ ds Hnd Hds) as [Hn Hi].
    split; [done|]. intros k Hk. apply Hi in Hk.
    apply in_app_or in Hk as [Hk|Hk]; [|done].
    simpl in Hk |- *. tauto.
  - apply communication_named_once.
    apply NoDup_ListNoDup, (bool_decide_unpack _). by vm_compute.
Qed.

(** X18.  A Rust file below [target], or one that cannot be read, leaves
    no trace in the knowledge graph: the graph of the project is the same
    with and without it, wherever the scan lists it. *)
Theorem skipped_files_leave_no_trace :
  forall p l1 rs_file l2,
    KnowledgeGraph.skipped rs_file ->
    KnowledgeGraph.build_knowledge_graph (with_files p (l1 ++ rs_file :: l2))
    = KnowledgeGraph.build_knowledge_graph (with_files p (l1 ++ l2)).
Proof.
  intros p l1 f l2 Hf. unfold KnowledgeGraph.build_knowledge_graph.
  cbn [with_files rs_files project_name].
  rewrite !fold_left_app. cbn [fold_left].
  by rewrite (add_file_skipped _ f Hf).
Qed.

Lemma skipped_files_leave_no_trace_witness :
  KnowledgeGraph.skipped GraphExamples.generated_file
  /\ KnowledgeGraph.build_knowledge_graph
       (with_files Examples.foo_bar
          (rs_files Examples.foo_bar ++ [GraphExamples.generated_file]))
     = KnowledgeGraph.build_knowledge_graph
         (with_files Examples.foo_bar (rs_files Examples.foo_bar ++ [])).
Proof.
  assert (H : KnowledgeGraph.skipped GraphExamples.generated_file)
    by (left; reflexivity).
  split; [exact H|].
  exact (skipped_files_leave_no_trace Examples.foo_bar
           (rs_files Examples.foo_bar) GraphExamples.generated_file [] H).
Defined.

End NamedOnceClaims.

(* ===================================================================== *)
(** * Items in source order *)
(* ===================================================================== *)

Module ItemOrderFacts.

Import Re StringFacts ApiSurface ItemOrder.

Lemma match_at_start r pos s m : match_at r pos s = Some m -> m_start m = pos.
Proof.
  intros H. by apply ReFacts.match_at_sound in H as (_ & _ & _ & _ & -> & _).
Qed.

Lemma finditer_from_cons r pos s :
  finditer_from r pos 0 s
  = match match_at r pos s, s with
    | Some m, String _ s' =>
        m :: finditer_from r (S pos) (m_end m - m_start m - 1) s'
    | Some m, "" => [m]
    | None, String _ s' => finditer_from r (S pos) 0 s'
    | None, "" => []
    end.
Proof. by destruct s. Qed.

(** [finditer] yields its matches from left to right. *)
Lemma finditer_from_starts r s : forall pos skip,
  List.Forall (fun m => pos <= m_start m) (finditer_from r pos skip s)
  /\ StronglySorted (fun a b => m_start a < m_start b)
       (finditer_from r pos skip s).
Proof.
  induction s as [|ch s IH]; intros pos skip.
  - destruct skip as [|skip]; [|by split; constructor].
    rewrite finditer_from_cons.
    destruct (match_at r pos "") as [m|] eqn:E; [|by split; constructor].
    apply match_at_start in E. split.
    + constructor; [lia|constructor].
    + repeat constructor.
  - destruct skip as [|skip].
    + rewrite finditer_from_cons.
      destruct (match_at r pos (String ch s)) as [m|] eqn:E.
      * apply match_at_start in E.
        destruct (IH (S pos) (m_end m - m_start m - 1)) as [Hall Hs].
        split.
        -- constructor; [lia|].
           eapply List.Forall_impl; [|exact Hall]. intros a. simpl. lia.
        -- constructor; [done|].
           eapply List.Forall_impl; [|exact Hall]. intros a. simpl. lia.
      * destruct (IH (S pos) 0) as [Hall Hs]. split; [|done].
        eapply List.Forall_impl; [|exact Hall]. intros a. simpl. lia.
    + cbn [finditer_from]. destruct (IH (S pos) skip) as [Hall Hs].
      split; [|done].
      eapply List.Forall_impl; [|exact Hall]. intros a. simpl. lia.
Qed.

Lemma count_nl_cons c s :
  Py.count (String c s) Py.nl
  = (if Ascii.eqb c "010" then 1 else 0) + Py.count s Py.nl.
Proof.
  unfold Py.count, Py.nl. cbn [Py.count_from].
  rewrite prefix_cons, prefix_empty. cbn [String.length Nat.sub].
  destruct (ascii_dec "010" c) as [<-|Hne]; [done|].
  destruct (Ascii.eqb c "010") eqn:E; [|done].
  apply Ascii.eqb_eq in E. by subst c.
Qed.

(** A longer front of the text has at least as many line ends. *)
Lemma line_at_mono content : forall a b,
  a <= b -> line_at content a <= line_at content b.
Proof.
  unfold line_at.
  induction content as [|c content IH]; intros a b Hab.
  - by destruct a, b.
  - destruct a as [|a]; [simpl; lia|]. destruct b as [|b]; [lia|].
    cbn [Py.take_str]. rewrite !count_nl_cons.
    specialize (IH a b). lia.
Qed.

Lemma StronglySorted_omap {A B : Type} (R : A -> A -> Prop)
      (S : B -> B -> Prop) (f : A -> option B) (l : list A) :
  (forall a a' b b', R a a' -> f a = Some b -> f a' = Some b' -> S b b') ->
  StronglySorted R l -> StronglySorted S (omap f l).
Proof.
  intros Hf. induction 1 as [|a l Hl IH Ha]; [constructor|].
  cbn [omap list_omap]. destruct (f a) as [b|] eqn:E; [|done].
  constructor; [done|].
  apply List.Forall_forall. intros b' Hb'.
  apply list_elem_of_In, list_elem_of_omap in Hb' as (a' & Ha' & E').
  rewrite List.Forall_forall in Ha. apply list_elem_of_In in Ha'.
  by apply (Hf a a' b b' (Ha a' Ha')).
Qed.

Lemma item_of_match_line content file_path item_type m i :
  item_of_match content file_path item_type m = Some i ->
  type i = item_type /\ line i = line_at content (m_start m).
Proof.
  unfold item_of_match. destruct (Py.in_list _ _); [done|].
  by intros [= <-].
Qed.

(** The items of one pattern, in source order. *)
Lemma pattern_items_in_order content file_path item_type pattern :
  in_source_order item_type
    (omap (item_of_match content file_path item_type)
       (finditer pattern content)).
Proof.
  split.
  - apply List.Forall_forall. intros i Hi.
    apply list_elem_of_In, list_elem_of_omap in Hi as (m & _ & Hm).
    by apply item_of_match_line in Hm as [-> _].
  - apply (StronglySorted_omap (fun a b => m_start a < m_start b));
      [|apply (proj2 (finditer_from_starts pattern content 0 0))].
    intros m m' i i' Hlt [_ ->]%item_of_match_line [_ ->]%item_of_match_line.
    apply line_at_mono. lia.
Qed.

Lemma in_source_order_map kind (f : Item -> Item) items :
  (forall i, type (f i) = type i /\ line (f i) = line i) ->
  in_source_order kind items -> in_source_order kind (List.map f items).
Proof.
  intros Hf [Hk Hs]. split.
  - apply List.Forall_forall. intros i (i0 & <- & Hi0)%in_map_iff.
    rewrite List.Forall_forall in Hk. destruct (Hf i0) as [-> _]. by apply Hk.
  - apply GraphShapeFacts.StronglySorted_map.
    eapply StronglySorted_weaken; [|exact Hs].
    intros a b Hab. destruct (Hf a) as [_ ->]. by destruct (Hf b) as [_ ->].
Qed.

End ItemOrderFacts.

Section ItemOrderClaims.

Import ApiSurface ItemOrder ItemOrderFacts.

(** X19.  The public items of a file come kind by kind, in the order
    struct, enum, trait, fn, mod, type, const, static; the items of one
    kind come in source order, with line numbers that never decrease. *)
Theorem pub_items_in_source_order :
  forall content file_path,
    exists groups,
      _extract_pub_items content file_path = List.concat groups
      /\ Forall2 in_source_order
           ["struct"; "enum"; "trait"; "fn"; "mod"; "type"; "const";
            "static"] groups.
Proof.
  intros content file_path. unfold _extract_pub_items.
  set (attach := fun item : Item => _).
  assert (Hattach : forall i,
             type (attach i) = type i /\ line (attach i) = line i).
  { intros i. unfold attach. by destruct (_ !! doc_key i). }
  exists (List.map
            (fun '(item_type, pattern) =>
               List.map attach
                 (omap (item_of_match content file_path item_type)
                    (Re.finditer pattern content)))
            item_patterns).
  split.
  - by rewrite List.flat_map_concat_map, List.concat_map, List.map_map.
  - unfold item_patterns. cbn [List.map].
    repeat (apply List.Forall2_cons;
            [apply in_source_order_map;
             [done|apply pattern_items_in_order]|]).
    apply List.Forall2_nil.
Qed.

End ItemOrderClaims.

(* ===================================================================== *)
(** * The visibility of an entity *)
(* ===================================================================== *)

Module VisibilityFacts.

Import StringFacts ContainsFacts KnowledgeGraph.

Lemma drop_drop a : forall d s,
  Py.drop_str (a + d) s = Py.drop_str d (Py.drop_str a s).
Proof.
  induction a as [|a IH]; intros d s; [done|].
  destruct s as [|c s]; [by destruct d|]. apply IH.
Qed.

Lemma take_drop d : forall s, s = Py.take_str d s +:+ Py.drop_str d s.
Proof.
  induction d as [|d IH]; intros s; [done|].
  destruct s as [|c s]; [done|]. cbn [Py.take_str Py.drop_str].
  by rewrite app_cons, <- IH.
Qed.

Lemma take_app_ge x : forall n y,
  String.length x <= n ->
  Py.take_str n (x +:+ y) = x +:+ Py.take_str (n - String.length x) y.
Proof.
  induction x as [|c x IH]; intros n y Hn.
  - rewrite !app_empty_l. simpl. by rewrite Nat.sub_0_r.
  - destruct n as [|n]; [simpl in Hn; lia|].
    rewrite !app_cons. cbn [Py.take_str String.length Nat.sub].
    rewrite IH; [done|]. simpl in Hn. lia.
Qed.

(** The window around a position holds what begins at the position, up
    to ten characters of it. *)
Lemma window_contains content start word :
  String.length word <= 10 ->
  String.prefix word (Py.drop_str start content) = true ->
  Py.contains word (Py.slice (start - 10) (start + 10) content) = true.
Proof.
  intros Hlen [rest Hrest]%prefix_split. unfold Py.slice.
  set (a := start - 10). set (d := start - a).
  assert (Hstart : start = a + d) by lia.
  pose proof (take_drop d (Py.drop_str a content)) as Hsplit.
  rewrite <- drop_drop, <- Hstart, Hrest in Hsplit.
  set (x := Py.take_str d (Py.drop_str a content)) in *.
  assert (Hx : String.length x <= d)
    by apply WellFormedFacts.take_str_length.
  rewrite Hsplit, take_app_ge by lia.
  rewrite take_app_ge by lia.
  apply contains_iff.
  exists x, (Py.take_str (start + 10 - a - String.length x
                          - String.length word) rest).
  done.
Qed.

End VisibilityFacts.

Section VisibilityClaims.

Import KnowledgeGraph VisibilityFacts VisibilityExamples.

(** X20.  A declaration that is written with [pub] and a space is marked
    pub in the graph.  The mark looks at the twenty characters around the
    start of the declaration, so it is no proof of a public declaration:
    a private function right below a comment that mentions pub is marked
    pub as well. *)
Theorem pub_declarations_are_marked_pub :
  (forall content file_path entity_type m e,
      entity_of_match content file_path entity_type m = Some e ->
      String.prefix "pub " (Py.drop_str (Re.m_start m) content) = true ->
      node_visibility e = "pub")
  /\ _extract_entities private_below_comment "src/lib.rs" = [helper_fn].
Proof.
  split.
  - intros content file_path entity_type m e He Hpub.
    unfold entity_of_match in He.
    destruct (Py.in_list _ _); [done|]. injection He as <-.
    cbn [node_visibility].
    by rewrite (window_contains content (Re.m_start m) "pub ")
      by (simpl; lia || done).
  - vm_compute. reflexivity.
Qed.

Lemma pub_declarations_are_marked_pub_witness :
  List.hd_error
    (Re.finditer
       (Re.seqs [opt_pub; Re.Lit "struct"; Re.s1; Re.Group 1 Re.w1])
       (default "" (text foo_lib)))
  = Some foo_match
  /\ entity_of_match (default "" (text foo_lib)) "src/lib.rs" "struct"
       foo_match
     = Some foo_struct
  /\ String.prefix "pub "
       (Py.drop_str (Re.m_start foo_match) (default "" (text foo_lib)))
     = true
  /\ node_visibility foo_struct = "pub".
Proof.
  assert (H1 : entity_of_match (default "" (text foo_lib)) "src/lib.rs"
                 "struct" foo_match = Some foo_struct)
    by (vm_compute; reflexivity).
  assert (H2 : String.prefix "pub "
                 (Py.drop_str (Re.m_start foo_match)
                    (default "" (text foo_lib))) = true)
    by (vm_compute; reflexivity).
  split; [vm_compute; reflexivity|]. split; [exact H1|]. split; [exact H2|].
  exact (proj1 pub_declarations_are_marked_pub _ _ _ _ _ H1 H2).
Defined.

End VisibilityClaims.

(* ===================================================================== *)
(** * The count of module declarations *)
(* ===================================================================== *)

Module ModuleCountFacts.

Import StringFacts ContainsFacts.

Lemma count_from_skip sub k c s :
  Py.count_from sub (S k) (String c s) = Py.count_from sub k s.
Proof. reflexivity. Qed.

(** Counting [mod ] from a text that starts with [pub mod ], whatever is
    still to be stepped over from an occurrence before. *)
Lemma count_mod_at_pub_mod b rest :
  b <= 3 ->
  Py.count_from "mod " b ("pub mod " +:+ rest)
  = S (Py.count_from "mod " 0 rest).
Proof.
  intros Hb.
  change ("pub mod " +:+ rest)
    with (String "p" (String "u" (String "b" (String " "
            (String "m" (String "o" (String "d" (String " " rest)))))))).
  assert (Hm : Py.count_from "mod " 0
                 (String "m" (String "o" (String "d" (String " " rest))))
               = S (Py.count_from "mod " 0 rest)).
  { rewrite count_from_cons, !prefix_cons. simpl. by rewrite prefix_empty. }
  destruct b as [|[|[|[|b]]]]; [| | | |lia];
    rewrite ?count_from_skip, ?count_from_cons, ?prefix_cons; simpl;
    rewrite ?count_from_skip, ?count_from_cons, ?prefix_cons; simpl;
    rewrite ?count_from_skip, ?count_from_cons, ?prefix_cons; simpl;
    rewrite ?count_from_skip, ?count_from_cons, ?prefix_cons; simpl;
    exact Hm.
Qed.

Lemma count_pub_mod_at_pub_mod rest :
  Py.count_from "pub mod " 0 ("pub mod " +:+ rest)
  = S (Py.count_from "pub mod " 0 rest).
Proof.
  change ("pub mod " +:+ rest)
    with (String "p" (String "u" (String "b" (String " "
            (String "m" (String "o" (String "d" (String " " rest)))))))).
  rewrite count_from_cons, !prefix_cons. simpl. by rewrite prefix_empty.
Qed.

(** A step of the count of [mod ] never takes more than the later count
    gives back. *)
Lemma count_mod_step b c s :
  b <= 3 ->
  exists b', b' <= 3
             /\ Py.count_from "mod " b' s <= Py.count_from "mod " b (String c s).
Proof.
  intros Hb. destruct b as [|b].
  - rewrite count_from_cons.
    destruct (String.prefix "mod " (String c s)).
    + exists 3. split; [lia|]. simpl. lia.
    + exists 0. split; [lia|done].
  - exists b. split; [lia|]. by rewrite count_from_skip.
Qed.

(** Every occurrence of [pub mod ] is an occurrence of [mod ] as well. *)
Lemma count_pub_mod_le n : forall s b,
  String.length s <= n ->
  b <= 3 ->
  Py.count_from "pub mod " 0 s <= Py.count_from "mod " b s.
Proof.
  induction n as [|n IH]; intros s b Hn Hb.
  - destruct s; [simpl; lia|simpl in Hn; lia].
  - destruct (String.prefix "pub mod " s) eqn:E.
    + apply prefix_split in E as [rest ->].
      rewrite count_pub_mod_at_pub_mod, (count_mod_at_pub_mod b rest Hb).
      apply le_n_S, IH; [|lia].
      rewrite length_app in Hn. simpl in Hn. lia.
    + destruct s as [|c s]; [simpl; lia|].
      rewrite count_from_cons, E.
      destruct (count_mod_step b c s Hb) as (b' & Hb' & Hle).
      etrans; [|exact Hle]. apply IH; [simpl in Hn; lia|done].
Qed.

Lemma pub_mod_twice all_code :
  2 * Py.count all_code "pub mod " <= Architecture.module_count all_code.
Proof.
  unfold Architecture.module_count, Py.count.
  pose proof (count_pub_mod_le (String.length all_code) all_code 0
                (le_n _) (Nat.le_0_l _)).
  lia.
Qed.

End ModuleCountFacts.

Section ModuleCountClaims.

Import Architecture ModuleCountFacts.

(** X21.  Every [pub mod] declaration counts twice: the module count is
    at least twice the number of occurrences of [pub mod ], so a crate
    that is no workspace is reported as a Modular Monolith as soon as it
    declares six public modules. *)
Theorem pub_mod_is_counted_twice :
  (forall all_code,
      2 * Py.count all_code "pub mod " <= module_count all_code)
  /\ (forall styles w all_code cargo ds,
        is_workspace w = false ->
        detect_with styles w all_code cargo = Ok ds ->
        5 < Py.count all_code "pub mod " ->
        exists d, In d ds /\ style d = "Modular Monolith").
Proof.
  split; [apply pub_mod_twice|].
  intros styles w all_code cargo ds Hw Hd Hcount.
  apply (ArchitectureFacts.monolith_iff_module_count _ _ _ _ _ Hw Hd).
  pose proof (pub_mod_twice all_code). lia.
Qed.

Lemma pub_mod_is_counted_twice_witness :
  is_workspace (analyze_workspace Examples.six_module_crate) = false
  /\ detect_architecture_style Examples.six_module_crate
     = Ok ModuleCountExamples.six_module_report
  /\ 5 < Py.count (collect_code Examples.six_module_crate) "pub mod "
  /\ exists d,
       In d ModuleCountExamples.six_module_report
       /\ style d = "Modular Monolith".
Proof.
  assert (H1 : is_workspace (analyze_workspace Examples.six_module_crate)
               = false) by reflexivity.
  assert (H2 : 5 < Py.count (collect_code Examples.six_module_crate)
                     "pub mod ") by (vm_compute; lia).
  assert (H3 : detect_with ARCHITECTURE_STYLES
                 (analyze_workspace Examples.six_module_crate)
                 (collect_code Examples.six_module_crate)
                 (read_cargo Examples.six_module_crate)
               = Ok ModuleCountExamples.six_module_report)
    by (vm_compute; reflexivity).
  split; [exact H1|]. split; [vm_compute; reflexivity|]. split; [exact H2|].
  eapply (proj2 pub_mod_is_counted_twice); [exact H1|exact H3|exact H2].
Defined.

End ModuleCountClaims.

Section GrowthInstances.
Import Patterns Examples GrowthExamples.

Lemma more_hits_never_lower_confidence_witness :
  Growth.hits_kept builder_keywords builder_corpus "" grown_builder_corpus ""
  /\ analyze_signature "Builder" builder_keywords builder_corpus ""
     = Ok (Some builder_detection)
  /\ exists d2,
       analyze_signature "Builder" builder_keywords grown_builder_corpus ""
       = Ok (Some d2)
       /\ (confidence builder_detection <= confidence d2)%Q.
Proof.
  assert (H1 : Growth.hits_kept builder_keywords builder_corpus ""
                 grown_builder_corpus "").
  { split_and!.
    - intros kw [<-|[<-|[<-|[]]]]; vm_compute; auto.
    - intros imp [].
    - intros pat [].
    - intros t []. }
  assert (H2 : analyze_signature "Builder" builder_keywords builder_corpus ""
               = Ok (Some builder_detection))
    by (vm_compute; reflexivity).
  split; [exact H1|]. split; [exact H2|].
  exact (more_hits_never_lower_confidence _ _ _ _ _ _ _ H1 H2).
Defined.

Lemma test_files_do_not_count_witness :
  _is_test_file (rel_path helper_test_file) = true
  /\ analyze (with_files six_module_crate
                (rs_files six_module_crate ++ [helper_test_file]))
     = analyze (with_files six_module_crate (rs_files six_module_crate ++ []))
  /\ Architecture.detect_architecture_style
       (with_files six_module_crate
          (rs_files six_module_crate ++ [helper_test_file]))
     = Architecture.detect_architecture_style
         (with_files six_module_crate (rs_files six_module_crate ++ []))
  /\ Communication.detect_communication_patterns
       (with_files six_module_crate
          (rs_files six_module_crate ++ [helper_test_file]))
     = Communication.detect_communication_patterns
         (with_files six_module_crate (rs_files six_module_crate ++ []))
  /\ ApiReport.analyze_api_surface
       (with_files six_module_crate
          (rs_files six_module_crate ++ [helper_test_file]))
     = ApiReport.analyze_api_surface
         (with_files six_module_crate (rs_files six_module_crate ++ [])).
Proof.
  apply (test_files_do_not_count six_module_crate
           (rs_files six_module_crate) helper_test_file []).
  exists "src", "helper.rs". left. exists "tests".
  split; [simpl; tauto|reflexivity].
Defined.

End GrowthInstances.
